(** * MOEX fetcher: response parsing, date utilities, request executor

    A shallow embedding of the Python modules [parsers], [utils], [client],
    [endpoints] and [exceptions] of the MOEX ISS fetcher, with the
    properties of the specification stated over it.

    Python values are modelled as follows.
    - A [str] is a [string]; one [ascii] stands for one character.
    - A JSON document (the result of [response.json()]) is a value of [json];
      numbers are the integers, a [dict] is an association list in insertion
      order whose keys are pairwise different.
    - A raised exception is the [Raise] branch of [result]; [try]/[except] is
      [try_except].
    - A [float] is the rational it is; the arithmetic on floats that rounds
      is a function the code is given. *)

From Stdlib Require Import String Ascii List ZArith Lia Bool Arith QArith.
From Stdlib Require Import DecimalString.
Import ListNotations.
Set Warnings "-register-all".
Close Scope Q_scope.
Local Open Scope string_scope.
Local Open Scope list_scope.

(** ** JSON values *)

Inductive json : Type :=
| JNull
| JBool (b : bool)
| JNum (n : Z)
| JStr (s : string)
| JList (l : list json)
| JDict (d : list (string * json)).

(** An HTTP response as far as [_make_request] reads it. *)
Record Response : Type := mkResponse {
  status_code : Z;
  headers : list (string * string);
  body : json
}.

(** ** Exceptions ([exceptions.py] and the builtins the code meets) *)

Inductive exn : Type :=
| KeyError (msg : string)
| TypeError (msg : string)
| AttributeError (msg : string)
| ValueError (msg : string)
| ValueErrorFrom (msg : string) (cause : exn)
| RequestException (msg : string)
| MoexConnectionError (message : string) (original_error : option exn)
| MoexResponseError (message : string) (status : option Z) (response : option Response)
| MoexAuthError (message : string) (status : option Z) (response : option Response)
| MoexRateLimitError (message : string) (status : option Z)
    (response : option Response) (retry_after : option Z)
| MoexParsingError (message : string) (data : option json) (original_error : option exn).

(** [isinstance(e, MoexApiError)]: every class of [exceptions.py] derives from
    the root class. *)
Definition is_MoexApiError (e : exn) : bool :=
  match e with
  | MoexConnectionError _ _ | MoexResponseError _ _ _ | MoexAuthError _ _ _
  | MoexRateLimitError _ _ _ _ | MoexParsingError _ _ _ => true
  | _ => false
  end.

Definition is_ValueError (e : exn) : bool :=
  match e with
  | ValueError _ | ValueErrorFrom _ _ => true
  | _ => false
  end.

(** ** The error monad *)

Inductive result (A : Type) : Type :=
| Ok (a : A)
| Raise (e : exn).
Arguments Ok {A} a.
Arguments Raise {A} e.

Definition bind {A B : Type} (c : result A) (k : A -> result B) : result B :=
  match c with
  | Ok a => k a
  | Raise e => Raise e
  end.

Notation "x <- c ;; k" := (bind c (fun x => k))
  (at level 61, c at next level, right associativity).

(** [try: c except (classes) as e: h e], where [handled] decides the classes. *)
Definition try_except {A : Type} (c : result A) (handled : exn -> bool)
    (h : exn -> result A) : result A :=
  match c with
  | Ok a => Ok a
  | Raise e => if handled e then h e else Raise e
  end.

Definition raises {A : Type} (c : result A) : bool :=
  match c with Ok _ => false | Raise _ => true end.

(** ** Python dictionaries as ordered association lists *)

Section Dict.
Context {K V : Type}.
Variable eqb : K -> K -> bool.

Fixpoint dict_get (d : list (K * V)) (k : K) : option V :=
  match d with
  | [] => None
  | (k', v) :: rest => if eqb k' k then Some v else dict_get rest k
  end.

Definition dict_mem (d : list (K * V)) (k : K) : bool :=
  match dict_get d k with Some _ => true | None => false end.

(** [d[k] = v]: an existing key keeps its place and takes the new value, a
    new key goes to the end. *)
Fixpoint dict_set (d : list (K * V)) (k : K) (v : V) : list (K * V) :=
  match d with
  | [] => [(k, v)]
  | (k', v') :: rest =>
      if eqb k' k then (k', v) :: rest else (k', v') :: dict_set rest k v
  end.
End Dict.

Definition sget {V : Type} := @dict_get string V String.eqb.
Definition smem {V : Type} := @dict_mem string V String.eqb.
Definition sset {V : Type} := @dict_set string V String.eqb.

(** ** Builtins on JSON values *)

Definition type_name (v : json) : string :=
  match v with
  | JNull => "NoneType"
  | JBool _ => "bool"
  | JNum _ => "int"
  | JStr _ => "str"
  | JList _ => "list"
  | JDict _ => "dict"
  end.

Definition string_of_nat (n : nat) : string :=
  NilEmpty.string_of_uint (Nat.to_uint n).

Definition chars (s : string) : list json :=
  map (fun c => JStr (String c EmptyString)) (list_ascii_of_string s).

(** [len(v)] *)
Definition py_len (v : json) : result nat :=
  match v with
  | JStr s => Ok (String.length s)
  | JList l => Ok (List.length l)
  | JDict d => Ok (List.length d)
  | _ => Raise (TypeError ("object of type '" ++ type_name v ++ "' has no len()"))
  end.

(** The items [iter(v)] yields. *)
Definition py_iter (v : json) : result (list json) :=
  match v with
  | JStr s => Ok (chars s)
  | JList l => Ok l
  | JDict d => Ok (map (fun kv => JStr (fst kv)) d)
  | _ => Raise (TypeError ("'" ++ type_name v ++ "' object is not iterable"))
  end.

(** [==] on the values that can be dictionary keys; [True == 1]. *)
Definition key_eqb (a b : json) : bool :=
  match a, b with
  | JNull, JNull => true
  | JBool x, JBool y => Bool.eqb x y
  | JBool x, JNum n | JNum n, JBool x => Z.eqb n (if x then 1 else 0)
  | JNum x, JNum y => Z.eqb x y
  | JStr x, JStr y => String.eqb x y
  | _, _ => false
  end.

Definition hashable (v : json) : bool :=
  match v with
  | JList _ | JDict _ => false
  | _ => true
  end.

(** A parsed row: the dictionary [dict(zip(columns, row))]. *)
Definition pydict : Type := list (json * json).

(** [dict(pairs)]: the pairs are inserted from left to right. *)
Fixpoint dict_of_pairs (acc : pydict) (pairs : list (json * json)) : result pydict :=
  match pairs with
  | [] => Ok acc
  | (k, v) :: rest =>
      if hashable k then dict_of_pairs (dict_set key_eqb acc k v) rest
      else Raise (TypeError ("unhashable type: '" ++ type_name k ++ "'"))
  end.

(** ** [parsers.parse_json_response] *)

Definition mismatch_message (block_name : string) (ncols nrow : nat) : string :=
  "Column count mismatch in block '" ++ block_name ++ "': "
  ++ string_of_nat ncols ++ " columns defined but row has "
  ++ string_of_nat nrow ++ " values".

(** The body of [for row in data], with [rows] the list built so far. *)
Fixpoint parse_rows (block_name : string) (columns : json) (data : list json)
    (rows : list pydict) : result (list pydict) :=
  match data with
  | [] => Ok rows
  | row :: rest =>
      lr <- py_len row ;;
      lc <- py_len columns ;;
      if negb (Nat.eqb lr lc) then
        Raise (MoexParsingError (mismatch_message block_name lc lr) None None)
      else
        ks <- py_iter columns ;;
        vs <- py_iter row ;;
        row_dict <- dict_of_pairs [] (combine ks vs) ;;
        parse_rows block_name columns rest (rows ++ [row_dict])
  end.

(** The condition of the [continue] at the head of the outer loop. *)
Definition is_data_block (block_content : json) : bool :=
  match block_content with
  | JDict d => smem d "columns" && smem d "data"
  | _ => false
  end.

Definition subscript (d : list (string * json)) (k : string) : result json :=
  match sget d k with
  | Some v => Ok v
  | None => Raise (KeyError k)
  end.

(** The body of [for block_name, block_content in response_data.items()]. *)
Fixpoint parse_blocks (items : list (string * json))
    (res : list (string * list pydict)) : result (list (string * list pydict)) :=
  match items with
  | [] => Ok res
  | (block_name, block_content) :: rest =>
      match block_content with
      | JDict d =>
          if smem d "columns" && smem d "data" then
            columns <- subscript d "columns" ;;
            data <- subscript d "data" ;;
            data_items <- py_iter data ;;
            rows <- parse_rows block_name columns data_items [] ;;
            parse_blocks rest (sset res block_name rows)
          else parse_blocks rest res
      | _ => parse_blocks rest res
      end
  end.

(** [response_data.items()] *)
Definition py_items (v : json) : result (list (string * json)) :=
  match v with
  | JDict d => Ok d
  | _ => Raise (AttributeError
                  ("'" ++ type_name v ++ "' object has no attribute 'items'"))
  end.

Definition key_or_type_error (e : exn) : bool :=
  match e with
  | KeyError _ | TypeError _ => true
  | _ => false
  end.

Definition parse_json_response (response_data : json)
    : result (list (string * list pydict)) :=
  try_except
    (items <- py_items response_data ;; parse_blocks items [])
    key_or_type_error
    (fun e => Raise (MoexParsingError "Failed to parse API response"
                       (Some response_data) (Some e))).

(** ** Calendar dates ([datetime.date], [datetime.datetime]) *)

Local Open Scope Z_scope.

Record date : Type := mkdate { year : Z; month : Z; day : Z }.

Record datetime : Type := mkdatetime {
  dt_date : date;
  dt_hour : Z;
  dt_minute : Z;
  dt_second : Z;
  dt_microsecond : Z;
  dt_utcoffset : option Z
}.

Definition is_leap (y : Z) : bool :=
  (y mod 4 =? 0) && (negb (y mod 100 =? 0) || (y mod 400 =? 0)).

Definition days_in_month (y m : Z) : Z :=
  match m with
  | 1 | 3 | 5 | 7 | 8 | 10 | 12 => 31
  | 4 | 6 | 9 | 11 => 30
  | 2 => if is_leap y then 29 else 28
  | _ => 0
  end.

(** The range checks of the [date] constructor ([MINYEAR = 1],
    [MAXYEAR = 9999]). *)
Definition valid_dateb (d : date) : bool :=
  (1 <=? year d) && (year d <=? 9999) &&
  (1 <=? month d) && (month d <=? 12) &&
  (1 <=? day d) && (day d <=? days_in_month (year d) (month d)).

Definition valid_date (d : date) : Prop := valid_dateb d = true.

Definition new_date (y m d : Z) : result date :=
  if valid_dateb (mkdate y m d) then Ok (mkdate y m d)
  else Raise (ValueError "date value out of range").

Definition midnight (d : date) : datetime := mkdatetime d 0 0 0 0 None.

(** [date.toordinal()]: day 1 is 0001-01-01. *)
Definition days_before_year (y : Z) : Z :=
  let p := y - 1 in p * 365 + p / 4 - p / 100 + p / 400.

Definition days_before_month (y m : Z) : Z :=
  fold_right Z.add 0
    (map (days_in_month y) (map Z.of_nat (seq 1 (Z.to_nat (m - 1))))).

Definition toordinal (d : date) : Z :=
  days_before_year (year d) + days_before_month (year d) (month d) + day d.

(** [a > b] on dates compares (year, month, day) lexicographically. *)
Definition date_gtb (a b : date) : bool :=
  (year b <? year a) ||
  ((year a =? year b) &&
   ((month b <? month a) ||
    ((month a =? month b) && (day b <? day a)))).

(** ** Decimal fields *)

Definition digit (k : Z) : ascii := ascii_of_N (Z.to_N (48 + k)).

Definition digit_val (c : ascii) : option Z :=
  let n := Z.of_N (N_of_ascii c) in
  if (48 <=? n) && (n <=? 57) then Some (n - 48) else None.

(** The value of a string of decimal digits, [None] on any other character. *)
Fixpoint digits_val (acc : Z) (s : string) : option Z :=
  match s with
  | EmptyString => Some acc
  | String c rest =>
      match digit_val c with
      | Some k => digits_val (10 * acc + k) rest
      | None => None
      end
  end.

Definition pad2 (n : Z) : string :=
  String (digit (n / 10)) (String (digit (n mod 10)) EmptyString).

Definition pad4 (n : Z) : string :=
  String (digit (n / 1000)) (String (digit (n / 100 mod 10))
    (String (digit (n / 10 mod 10)) (String (digit (n mod 10)) EmptyString))).

(** [%Y] under [strftime] is left to the C library, and the one of Linux
    writes the year in decimal without leading zeros: year 999 gives [999],
    where [%m] and [%d] always give two digits. *)
Definition year_str (y : Z) : string :=
  if y <? 10 then String (digit y) EmptyString
  else if y <? 100 then pad2 y
  else if y <? 1000 then String (digit (y / 100)) (pad2 (y mod 100))
  else pad4 y.

(** [d.strftime('%Y-%m-%d')]. *)
Definition strftime_ymd (d : date) : string :=
  (year_str (year d) ++ "-" ++ pad2 (month d) ++ "-" ++ pad2 (day d))%string.

(** [s.split(sep)] for a one-character separator. *)
Fixpoint split_on (sep : ascii) (s : string) : list string :=
  match s with
  | EmptyString => [EmptyString]
  | String c rest =>
      if Ascii.eqb c sep then EmptyString :: split_on sep rest
      else match split_on sep rest with
           | h :: t => String c h :: t
           | [] => [String c EmptyString]
           end
  end.

Definition len (s : string) : Z := Z.of_nat (String.length s).

(** ** [datetime.strptime] for the four formats [format_date] tries

    [strptime] turns the format into a regular expression that must match the
    whole string: [%Y] is [\d\d\d\d], [%m] is [1[0-2]|0[1-9]|[1-9]], [%d] is
    [3[01]|[12]\d|0[1-9]|[1-9]| [1-9]]. No field can hold the separator, so a
    string matches exactly when it splits into three fields of these
    languages. Every failure is a [ValueError]; the text of its message is
    not the one of the library. *)

Definition field_Y (s : string) : option Z :=
  if len s =? 4 then digits_val 0 s else None.

(** One or two decimal digits with a value from 1 to [max]. *)
Definition digits_field (max : Z) (s : string) : option Z :=
  if (1 <=? len s) && (len s <=? 2) then
    match digits_val 0 s with
    | Some v => if (1 <=? v) && (v <=? max) then Some v else None
    | None => None
    end
  else None.

Definition field_m (s : string) : option Z := digits_field 12 s.

Definition field_d (s : string) : option Z :=
  match s with
  | String c1 (String c2 EmptyString) =>
      if Ascii.eqb c1 " " then
        match digit_val c2 with
        | Some v => if 1 <=? v then Some v else None
        | None => None
        end
      else digits_field 31 s
  | _ => digits_field 31 s
  end.

Inductive date_format : Type :=
| Fmt_Y_m_d_dash    (* '%Y-%m-%d' *)
| Fmt_d_m_Y_dot     (* '%d.%m.%Y' *)
| Fmt_m_d_Y_slash   (* '%m/%d/%Y' *)
| Fmt_Y_m_d_slash.  (* '%Y/%m/%d' *)

Definition format_sep (f : date_format) : ascii :=
  match f with
  | Fmt_Y_m_d_dash => "-"
  | Fmt_d_m_Y_dot => "."
  | Fmt_m_d_Y_slash | Fmt_Y_m_d_slash => "/"
  end%char.

Definition format_fields (f : date_format) (a b c : string)
    : option (Z * Z * Z) :=
  match f with
  | Fmt_Y_m_d_dash | Fmt_Y_m_d_slash =>
      match field_Y a, field_m b, field_d c with
      | Some y, Some m, Some d => Some (y, m, d)
      | _, _, _ => None
      end
  | Fmt_d_m_Y_dot =>
      match field_d a, field_m b, field_Y c with
      | Some d, Some m, Some y => Some (y, m, d)
      | _, _, _ => None
      end
  | Fmt_m_d_Y_slash =>
      match field_m a, field_d b, field_Y c with
      | Some m, Some d, Some y => Some (y, m, d)
      | _, _, _ => None
      end
  end.

Definition strptime (s : string) (f : date_format) : result datetime :=
  match split_on (format_sep f) s with
  | [a; b; c] =>
      match format_fields f a b c with
      | Some (y, m, d) => d' <- new_date y m d ;; Ok (midnight d')
      | None => Raise (ValueError "time data does not match format")
      end
  | _ => Raise (ValueError "time data does not match format")
  end.

(** ** [datetime.datetime.fromisoformat]

    The strings accepted are those of the grammar documented for Python 3.7
    to 3.10, [YYYY-MM-DD[*HH[:MM[:SS[.fff[fff]]]][+HH:MM[:SS[.ffffff]]]]],
    where [*] is any one character; every failure is a [ValueError]. Python
    3.11 takes these strings too, with the same result, and further ISO 8601
    forms that this grammar refuses: dates without dashes, week dates, times
    without colons or with a fraction of any length, and the offsets [Z],
    [+HH] and [+HHMM]. No version takes ordinal dates ([YYYY-DDD]) or dates
    without a day, and none takes a date written with dots or slashes. *)

Definition two_digits (a b : ascii) : option Z :=
  match digit_val a, digit_val b with
  | Some x, Some y => Some (10 * x + y)
  | _, _ => None
  end.

Definition parse_fraction (frac : string) : option Z :=
  if len frac =? 3 then option_map (fun f => f * 1000) (digits_val 0 frac)
  else if len frac =? 6 then digits_val 0 frac
  else None.

(** [HH[:MM[:SS[.fff[fff]]]]] *)
Definition parse_hh_mm_ss_ff (s : string) : option (Z * Z * Z * Z) :=
  match s with
  | String h1 (String h2 EmptyString) =>
      option_map (fun h => (h, 0, 0, 0)) (two_digits h1 h2)
  | String h1 (String h2 (String ":" (String m1 (String m2 EmptyString)))) =>
      match two_digits h1 h2, two_digits m1 m2 with
      | Some h, Some m => Some (h, m, 0, 0)
      | _, _ => None
      end
  | String h1 (String h2 (String ":" (String m1 (String m2
      (String ":" (String s1 (String s2 rest))))))) =>
      match two_digits h1 h2, two_digits m1 m2, two_digits s1 s2 with
      | Some h, Some m, Some sec =>
          match rest with
          | EmptyString => Some (h, m, sec, 0)
          | String "." frac => option_map (fun f => (h, m, sec, f)) (parse_fraction frac)
          | _ => None
          end
      | _, _, _ => None
      end
  | _ => None
  end.

(** The time string cut at its first sign: the time of day, then the sign and
    the offset when there is one. *)
Fixpoint split_offset (s : string) : string * option (bool * string) :=
  match s with
  | EmptyString => (EmptyString, None)
  | String c rest =>
      if Ascii.eqb c "+" then (EmptyString, Some (true, rest))
      else if Ascii.eqb c "-" then (EmptyString, Some (false, rest))
      else let (t, o) := split_offset rest in (String c t, o)
  end.

Definition parse_offset (o : option (bool * string)) : option (option Z) :=
  match o with
  | None => Some None
  | Some (positive, tz) =>
      if (len tz =? 5) || (len tz =? 8) || (len tz =? 15) then
        match parse_hh_mm_ss_ff tz with
        | Some (h, m, sec, _) =>
            let secs := h * 3600 + m * 60 + sec in
            if secs <? 86400 then Some (Some (if positive then secs else - secs))
            else None
        | None => None
        end
      else None
  end.

Definition parse_isoformat_time (d : date) (tstr : string) : option datetime :=
  let (t, o) := split_offset tstr in
  match parse_hh_mm_ss_ff t, parse_offset o with
  | Some (h, m, sec, us), Some off =>
      if (h <? 24) && (m <? 60) && (sec <? 60) then Some (mkdatetime d h m sec us off)
      else None
  | _, _ => None
  end.

Definition invalid_isoformat {A : Type} (s : string) : result A :=
  Raise (ValueError ("Invalid isoformat string: '" ++ s ++ "'")).

Definition fromisoformat (s : string) : result datetime :=
  match s with
  | String y1 (String y2 (String y3 (String y4 (String sep1 (String m1
      (String m2 (String sep2 (String d1 (String d2 rest))))))))) =>
      match digits_val 0 (String y1 (String y2 (String y3 (String y4 EmptyString)))),
            two_digits m1 m2, two_digits d1 d2 with
      | Some y, Some m, Some d =>
          if Ascii.eqb sep1 "-" && Ascii.eqb sep2 "-" then
            dte <- new_date y m d ;;
            match rest with
            | EmptyString => Ok (midnight dte)
            | String _ tstr =>
                match parse_isoformat_time dte tstr with
                | Some dt => Ok dt
                | None => invalid_isoformat s
                end
            end
          else invalid_isoformat s
      | _, _, _ => invalid_isoformat s
      end
  | _ => invalid_isoformat s
  end.

(** ** [utils.format_date] and [utils.validate_date_range] *)

(** The values a caller can pass as a date; [DOther] carries the name of the
    type of any other object. *)
Inductive date_value : Type :=
| DStr (s : string)
| DDate (d : date)
| DDateTime (dt : datetime)
| DOther (type_name : string).

Definition date_formats : list date_format :=
  [Fmt_Y_m_d_dash; Fmt_d_m_Y_dot; Fmt_m_d_Y_slash; Fmt_Y_m_d_slash].

(** [for fmt in (...): try: ... break / except ValueError: continue / else:
    raise ValueError]. *)
Fixpoint try_formats (date_value : string) (fmts : list date_format)
    : result datetime :=
  match fmts with
  | [] => Raise (ValueError ("Could not parse date: " ++ date_value))
  | fmt :: rest =>
      try_except (strptime date_value fmt) is_ValueError
        (fun _ => try_formats date_value rest)
  end.

Definition format_date (date_value : date_value) : result string :=
  match date_value with
  | DStr s =>
      date_obj <-
        try_except (fromisoformat s) is_ValueError
          (fun _ =>
             try_except (try_formats s date_formats) (fun _ => true)
               (fun e => Raise (ValueErrorFrom ("Invalid date format: " ++ s) e))) ;;
      Ok (strftime_ymd (dt_date date_obj))
  | DDate d => Ok (strftime_ymd d)
  | DDateTime dt => Ok (strftime_ymd (dt_date dt))
  | DOther tn =>
      Raise (ValueError ("Expected date string or date object, got " ++ tn))
  end.

Definition string_of_Z (z : Z) : string := NilEmpty.string_of_int (Z.to_int z).

Definition start_after_end_message (fs fe : string) : string :=
  "Start date (" ++ fs ++ ") is after end date (" ++ fe ++ ")".

Definition exceeds_message (max_interval_days days_diff : Z) (fs fe : string)
    : string :=
  "Date range exceeds maximum interval of " ++ string_of_Z max_interval_days
  ++ " days. Requested: " ++ string_of_Z days_diff ++ " days ("
  ++ fs ++ " to " ++ fe ++ ")".

(** [today] is the value of [datetime.date.today()] at the call. *)
Definition validate_date_range (today : date)
    (start_date end_date : option date_value) (max_interval_days : option Z)
    : result (string * string) :=
  let end_date := match end_date with None => DDate today | Some e => e end in
  formatted_end_date <- format_date end_date ;;
  match start_date with
  | None => Ok (formatted_end_date, formatted_end_date)
  | Some start_date =>
      formatted_start_date <- format_date start_date ;;
      start_dt <- strptime formatted_start_date Fmt_Y_m_d_dash ;;
      end_dt <- strptime formatted_end_date Fmt_Y_m_d_dash ;;
      let start_obj := dt_date start_dt in
      let end_obj := dt_date end_dt in
      if date_gtb start_obj end_obj then
        Raise (ValueError
                 (start_after_end_message formatted_start_date formatted_end_date))
      else
        match max_interval_days with
        | Some max_days =>
            let days_diff := toordinal end_obj - toordinal start_obj in
            if days_diff >? max_days then
              Raise (ValueError (exceeds_message max_days days_diff
                                   formatted_start_date formatted_end_date))
            else Ok (formatted_start_date, formatted_end_date)
        | None => Ok (formatted_start_date, formatted_end_date)
        end
  end.


(** ** [str(e)] for the exception classes of [exceptions.py] *)

Definition truthy_Z (z : option Z) : bool :=
  match z with
  | Some n => negb (n =? 0)
  | None => false
  end.

Definition base_str (message : string) (status : option Z) : string :=
  match status with
  | Some n =>
      if negb (n =? 0) then message ++ " (Status code: " ++ string_of_Z n ++ ")"
      else message
  | None => message
  end.

(** [repr(s)] of a string: in single quotes, or in double quotes when the
    string holds a single quote and no double quote; the quote and the
    backslash are escaped, and so are the characters that are not printable
    (one [ascii] is one character, so the code points run to 255). *)
Definition dquote : ascii := ascii_of_N 34.

Fixpoint contains (c : ascii) (s : string) : bool :=
  match s with
  | EmptyString => false
  | String a rest => Ascii.eqb a c || contains c rest
  end.

Definition hex_digit (k : Z) : ascii :=
  if k <? 10 then digit k else ascii_of_N (Z.to_N (87 + k)).

Definition repr_char (quote c : ascii) : string :=
  let n := Z.of_N (N_of_ascii c) in
  if Ascii.eqb c quote || Ascii.eqb c "\" then String "\" (String c EmptyString)
  else if n =? 9 then "\t"
  else if n =? 10 then "\n"
  else if n =? 13 then "\r"
  else if (n <? 32) || ((127 <=? n) && (n <=? 160)) || (n =? 173) then
    String "\" (String "x" (String (hex_digit (n / 16))
                              (String (hex_digit (n mod 16)) EmptyString)))
  else String c EmptyString.

Fixpoint repr_chars (quote : ascii) (s : string) : string :=
  match s with
  | EmptyString => EmptyString
  | String c rest => repr_char quote c ++ repr_chars quote rest
  end.

Definition py_repr (s : string) : string :=
  let quote := if contains "'" s && negb (contains dquote s) then dquote else "'"%char in
  String quote (repr_chars quote s ++ String quote EmptyString).

(** [message or default] in the constructors: an empty message gives way to
    the default of the class. *)
Definition message_or (message default : string) : string :=
  match message with
  | EmptyString => default
  | _ => message
  end.

(** [str] of a [KeyError] is the [repr] of its key; the classes of
    [exceptions.py] print the message their constructor stored. *)
Fixpoint exn_str (e : exn) : string :=
  match e with
  | KeyError m => py_repr m
  | TypeError m | AttributeError m | ValueError m | ValueErrorFrom m _
  | RequestException m => m
  | MoexConnectionError m o =>
      let m := message_or m "Failed to connect to MOEX API" in
      match o with
      | Some o => m ++ ": " ++ exn_str o
      | None => m
      end
  | MoexResponseError m st _ =>
      base_str (message_or m "Received an invalid response from MOEX API") st
  | MoexAuthError m st _ =>
      base_str (message_or m "Authentication with MOEX API failed") st
  | MoexRateLimitError m st _ r =>
      let m := message_or m "MOEX API rate limit exceeded" in
      if truthy_Z r then
        m ++ " (Retry after: "
          ++ string_of_Z (match r with Some r => r | None => 0 end) ++ " seconds)"
      else base_str m st
  | MoexParsingError m _ o =>
      let m := message_or m "Failed to parse MOEX API response" in
      match o with
      | Some o => m ++ ": " ++ exn_str o
      | None => m
      end
  end.

(** ** [int(s)] on a string *)

(** [int] skips white space at both ends. In a string of ASCII characters that
    is the space and the characters 9 to 13; when the string holds a character
    above 127, the characters 133 and 160 count as spaces too. *)
Fixpoint all_ascii (s : string) : bool :=
  match s with
  | EmptyString => true
  | String c rest => (Z.of_N (N_of_ascii c) <? 128) && all_ascii rest
  end.

Definition is_space (wide : bool) (c : ascii) : bool :=
  let n := Z.of_N (N_of_ascii c) in
  (n =? 32) || ((9 <=? n) && (n <=? 13)) || (wide && ((n =? 133) || (n =? 160))).

Fixpoint lstrip (wide : bool) (s : string) : string :=
  match s with
  | String c rest => if is_space wide c then lstrip wide rest else s
  | EmptyString => EmptyString
  end.

Fixpoint rstrip (wide : bool) (s : string) : string :=
  match s with
  | EmptyString => EmptyString
  | String c rest =>
      match rstrip wide rest with
      | EmptyString => if is_space wide c then EmptyString else String c EmptyString
      | r => String c r
      end
  end.

(** The scan of the digits, in which single underscores may stand between
    digits; [prev_digit] tells whether the character before was a digit. It
    gives the number of digits, their value and what follows them. *)
Fixpoint scan_digits (count acc : Z) (prev_digit : bool) (s : string)
    : option (Z * Z * string) :=
  match s with
  | EmptyString => if prev_digit then Some (count, acc, s) else None
  | String c rest =>
      match digit_val c with
      | Some k => scan_digits (count + 1) (10 * acc + k) true rest
      | None =>
          if Ascii.eqb c "_" then
            if prev_digit then scan_digits count acc false rest else None
          else if prev_digit then Some (count, acc, s) else None
      end
  end.

(** [sys.get_int_max_str_digits()], as the interpreter starts. *)
Definition MAX_STR_DIGITS : Z := 4300.

Fixpoint take (n : nat) (s : string) : string :=
  match n, s with
  | S n, String c rest => String c (take n rest)
  | _, _ => EmptyString
  end.

Definition py_int (s : string) : result Z :=
  let bad := Raise (ValueError
                      ("invalid literal for int() with base 10: "
                       ++ take 200 (py_repr s))) in
  let wide := negb (all_ascii s) in
  let digits (sign : Z) (body : string) : result Z :=
    match scan_digits 0 0 false body with
    | Some (count, n, rest) =>
        if count >? MAX_STR_DIGITS then
          Raise (ValueError
                   ("Exceeds the limit (" ++ string_of_Z MAX_STR_DIGITS
                    ++ " digits) for integer string conversion: value has "
                    ++ string_of_Z count
                    ++ " digits; use sys.set_int_max_str_digits() to increase the limit"))
        else
          match rest with
          | EmptyString => Ok (sign * n)
          | _ => bad
          end
    | None => bad
    end in
  match rstrip wide (lstrip wide s) with
  | String "-" rest => digits (-1) rest
  | String "+" rest => digits 1 rest
  | body => digits 1 body
  end.

(** ** [client.MoexApiClient] *)

Definition lower_ascii (c : ascii) : ascii :=
  let n := Z.of_N (N_of_ascii c) in
  if (65 <=? n) && (n <=? 90) then ascii_of_N (Z.to_N (n + 32)) else c.

Definition upper_ascii (c : ascii) : ascii :=
  let n := Z.of_N (N_of_ascii c) in
  if (97 <=? n) && (n <=? 122) then ascii_of_N (Z.to_N (n - 32)) else c.

Fixpoint string_map (f : ascii -> ascii) (s : string) : string :=
  match s with
  | EmptyString => EmptyString
  | String c rest => String (f c) (string_map f rest)
  end.

Definition lower : string -> string := string_map lower_ascii.
Definition upper : string -> string := string_map upper_ascii.

(** [response.headers.get(name, default)]: the headers of a response compare
    their names without regard to case. *)
Definition headers_get (h : list (string * string)) (name default : string)
    : string :=
  match dict_get (fun a b => String.eqb (lower a) (lower b)) h name with
  | Some v => v
  | None => default
  end.

Definition ends_with (s suffix : string) : bool :=
  let n := String.length s in
  let k := String.length suffix in
  (k <=? n)%nat && String.eqb (substring (n - k) k s) suffix.

Definition BASE_URL : string := "https://iss.moex.com/iss".
Definition DEFAULT_FORMAT : string := "json".
(** [RATE_LIMIT = 0.2], seconds between requests. *)
Definition RATE_LIMIT : Q := Qmake 1 5.

(** A number is false in a condition exactly when it is zero. *)
Definition truthy_Q (q : Q) : bool := negb (Qeq_bool q (Qmake 0 1)).

Record MoexApiClient (Session : Type) : Type := mkClient {
  base_url : string;
  session : Session;
  rate_limit : Q;
  timeout : option Z;
  last_request_time : Q
}.
Arguments mkClient {Session}.
Arguments base_url {Session}.
Arguments session {Session}.
Arguments rate_limit {Session}.
Arguments timeout {Session}.
Arguments last_request_time {Session}.

(** [MoexApiClient.__init__]; [new_session] is [requests.Session()]. *)
Definition init {Session : Type} (new_session : Session)
    (session : option Session) (rate_limit : option Q) (timeout : option Z)
    : MoexApiClient Session :=
  mkClient BASE_URL
    (match session with Some s => s | None => new_session end)
    (match rate_limit with
     | Some r => if truthy_Q r then r else RATE_LIMIT
     | None => RATE_LIMIT
     end)
    timeout
    (Qmake 0 1).

(** *** [_enforce_rate_limit] and [_make_request]

    The clock, [time.sleep] and the HTTP session act on a [world]. Times are
    floats, each taken as the rational it is; the subtraction of floats
    rounds its result and is the function [float_sub] of the section. The
    construction of the URL and of the query dictionary ([utils.build_url],
    [utils.build_query_params]) is left to two functions of the section: no
    branch of [_make_request] reads what they return. *)

Section Requests.
Variable world : Type.
Variable Session : Type.
Variable float_sub : Q -> Q -> Q.
Variable time_time : world -> Q.
Variable time_sleep : Q -> world -> world.
Variable session_get session_post :
  Session -> string -> list (string * string) -> option Z -> world ->
  result Response * world.
Variable build_url : string -> string -> list (string * string) -> string.
Variable build_query_params : list (string * json) -> list (string * string).

Definition enforce_rate_limit (self : MoexApiClient Session) (w : world) : world :=
  if truthy_Q (rate_limit self) then
    let elapsed := float_sub (time_time w) (last_request_time self) in
    if negb (Qle_bool (rate_limit self) elapsed) then
      time_sleep (float_sub (rate_limit self) elapsed) w
    else w
  else w.

Definition set_last_request_time (self : MoexApiClient Session) (t : Q)
    : MoexApiClient Session :=
  mkClient (base_url self) (session self) (rate_limit self) (timeout self) t.

(** The checks on the status code, in the order of the source. *)
Definition check_status (response : Response) : result Response :=
  if status_code response =? 429 then
    retry_after <- py_int (headers_get (headers response) "Retry-After" "60") ;;
    Raise (MoexRateLimitError "Rate limit exceeded"
             (Some (status_code response)) (Some response) (Some retry_after))
  else if (status_code response =? 401) || (status_code response =? 403) then
    Raise (MoexAuthError "Authentication failed"
             (Some (status_code response)) (Some response))
  else if status_code response >=? 400 then
    Raise (MoexResponseError
             ("API returned error response: " ++ string_of_Z (status_code response))
             (Some (status_code response)) (Some response))
  else Ok response.

Definition is_RequestException (e : exn) : bool :=
  match e with
  | RequestException _ => true
  | _ => false
  end.

(** The request itself: the first branch of the [try] block. *)
Definition send (self : MoexApiClient Session) (method url : string)
    (query_params : list (string * string)) (timeout : option Z) (w : world)
    : result Response * world :=
  if String.eqb (upper method) "GET" then
    session_get (session self) url query_params timeout w
  else if String.eqb (upper method) "POST" then
    session_post (session self) url query_params timeout w
  else (Raise (ValueError ("Unsupported HTTP method: " ++ method)), w).

Definition make_request (self : MoexApiClient Session) (endpoint : string)
    (params : option (list (string * json)))
    (path_params : option (list (string * string)))
    (method : string) (timeout_arg : option Z) (format_type : string)
    (w : world) : result Response * MoexApiClient Session * world :=
  let w := enforce_rate_limit self w in
  let path_params := match path_params with Some p => p | None => [] end in
  let url := build_url (base_url self) endpoint path_params in
  let query_params := [("iss.json", "extended"); ("iss.meta", "off")]%string in
  let url :=
    if negb (String.eqb format_type "") then
      if negb (ends_with endpoint ("." ++ format_type)%string)
      then (url ++ "." ++ format_type)%string
      else url
    else url in
  let query_params :=
    match params with
    | Some (p :: ps) =>
        fold_left (fun d kv => sset d (fst kv) (snd kv))
          (build_query_params (p :: ps)) query_params
    | _ => query_params
    end in
  let timeout_arg :=
    if truthy_Z timeout_arg then timeout_arg else timeout self in
  let (sent, w) := send self method url query_params timeout_arg w in
  match sent with
  | Ok response =>
      let self := set_last_request_time self (time_time w) in
      (try_except (check_status response) is_RequestException
         (fun e => Raise (MoexConnectionError "Failed to connect to MOEX API" (Some e))),
       self, w)
  | Raise e =>
      (try_except (Raise e) is_RequestException
         (fun e => Raise (MoexConnectionError "Failed to connect to MOEX API" (Some e))),
       self, w)
  end.
End Requests.

(** ** [endpoints.get_stock_candles] *)

Definition interval_map : list (string * Z) :=
  [("min", 1); ("1min", 1); ("10min", 10); ("hour", 60); ("day", 24);
   ("week", 7); ("month", 31); ("quarter", 4)]%string.

(** [sep.join(items)] *)
Fixpoint join (sep : string) (items : list string) : string :=
  match items with
  | [] => EmptyString
  | [x] => x
  | x :: rest => x ++ sep ++ join sep rest
  end.

Definition invalid_interval_message (interval : string) : string :=
  "Invalid interval: '" ++ interval ++ "'. Valid intervals are: "
  ++ join ", " (map fst interval_map).

Section Candles.
Variable world : Type.
Variable Frame : Type.
(** [client.get_candles(security_id, engine, market, board, interval,
    start_date, end_date)] *)
Variable get_candles :
  string -> string -> string -> option string -> Z ->
  option date_value -> option date_value -> world -> result Frame * world.

Definition get_stock_candles (ticker interval : string)
    (start_date end_date : option date_value) (board : string) (w : world)
    : result Frame * world :=
  if negb (smem interval_map interval) then
    (Raise (ValueError (invalid_interval_message interval)), w)
  else
    match sget interval_map interval with
    | Some interval_code =>
        get_candles ticker "stock" "shares" (Some board) interval_code
          start_date end_date w
    | None => (Raise (KeyError interval), w)
    end.
End Candles.

(** ** Tables ([pandas.DataFrame])

    A frame is its columns in order, each a label with the cells of the
    column, and its index. The cells are of any type [cell]; the conversions
    of pandas are functions on columns. *)

Section Frames.
Context {cell : Type}.

Inductive Index : Type :=
| RangeIndex (n : nat)
| LabelIndex (name : string) (labels : list cell).

Record DataFrame : Type := mkDataFrame {
  df_columns : list (string * list cell);
  df_index : Index
}.

Definition nrows (df : DataFrame) : nat :=
  match df_index df with
  | RangeIndex n => n
  | LabelIndex _ labels => List.length labels
  end.

(** [col in df.columns] *)
Definition has_column (df : DataFrame) (col : string) : bool :=
  smem (df_columns df) col.

(** [df[col] = f(df[col])] under the guard [col in df.columns]. *)
Definition convert_column (f : list cell -> list cell) (df : DataFrame)
    (col : string) : DataFrame :=
  if has_column df col then
    match sget (df_columns df) col with
    | Some series => mkDataFrame (sset (df_columns df) col (f series)) (df_index df)
    | None => df
    end
  else df.

(** [if cols: for col in cols: ...]; [None] and the empty list are false. *)
Definition convert_columns (f : list cell -> list cell)
    (cols : option (list string)) (df : DataFrame) : DataFrame :=
  match cols with
  | Some (c :: rest) => fold_left (convert_column f) (c :: rest) df
  | _ => df
  end.

Fixpoint drop_column (cols : list (string * list cell)) (col : string)
    : list (string * list cell) :=
  match cols with
  | [] => []
  | (c, series) :: rest =>
      if String.eqb c col then rest else (c, series) :: drop_column rest col
  end.

(** [df.set_index(col, inplace=True)] under the guard [col in df.columns]. *)
Definition set_index (df : DataFrame) (col : string) : DataFrame :=
  match sget (df_columns df) col with
  | Some series => mkDataFrame (drop_column (df_columns df) col) (LabelIndex col series)
  | None => df
  end.

Section Normalize.
(** [pd.to_datetime(s, errors='coerce')], [pd.to_numeric(s,
    errors='coerce')] and [s.astype('category')]. *)
Variable to_datetime to_numeric astype_category : list cell -> list cell.

Definition normalize_dataframe (df : DataFrame)
    (date_columns numeric_columns categorical_columns : option (list string))
    (index_column : option string) : DataFrame :=
  let df_copy := df in
  let df_copy := convert_columns to_datetime date_columns df_copy in
  let df_copy := convert_columns to_numeric numeric_columns df_copy in
  let df_copy := convert_columns astype_category categorical_columns df_copy in
  match index_column with
  | Some (String c rest) =>
      if has_column df_copy (String c rest) then set_index df_copy (String c rest)
      else df_copy
  | _ => df_copy
  end.
End Normalize.

(** *** What [get_market_data_snapshot] does with frames *)

(** The missing value [NaN] and the cell that holds a string. *)
Variable nan : cell.
Variable str_cell : string -> cell.

(** [df[col] = value] for a scalar: the value fills the column. *)
Definition setitem_scalar (df : DataFrame) (col : string) (value : cell)
    : DataFrame :=
  mkDataFrame (sset (df_columns df) col (repeat value (nrows df))) (df_index df).

Definition add_label (acc : list string) (c : string) : list string :=
  if existsb (String.eqb c) acc then acc else acc ++ [c].

(** The labels of all frames, each once, in the order they first occur. *)
Definition union_columns (frames : list DataFrame) : list string :=
  fold_left (fun acc df => fold_left add_label (map fst (df_columns df)) acc)
    frames [].

Definition column_or_nan (col : string) (df : DataFrame) : list cell :=
  match sget (df_columns df) col with
  | Some series => series
  | None => repeat nan (nrows df)
  end.

(** [pd.concat(frames, ignore_index=True)] *)
Definition pd_concat (frames : list DataFrame) : result DataFrame :=
  match frames with
  | [] => Raise (ValueError "No objects to concatenate")
  | _ =>
      Ok (mkDataFrame
            (map (fun c => (c, flat_map (column_or_nan c) frames))
                 (union_columns frames))
            (RangeIndex (fold_right Nat.add 0%nat (map nrows frames))))
  end.

(** [pd.DataFrame(columns=cols)] *)
Definition empty_frame (cols : list string) : DataFrame :=
  mkDataFrame (map (fun c => (c, [])) cols) (RangeIndex 0).

(** ** [endpoints.get_market_data_snapshot] *)

Section Snapshot.
Variable world : Type.
(** [client.get_market_data(security_id, engine, market, board)] *)
Variable get_market_data :
  string -> string -> string -> string -> world -> result DataFrame * world.

Definition snapshot_columns : list string :=
  ["TICKER"; "LAST"; "CHANGE"; "VOLTODAY"; "OPEN"; "LOW"; "HIGH"]%string.

(** The loop over [tickers]: [all_data] and the lines printed so far are
    carried along; an exception that is not a [MoexApiError] leaves the
    loop. *)
Fixpoint fetch_tickers (tickers : list string) (board engine market : string)
    (all_data : list DataFrame) (out : list string) (w : world)
    : result (list DataFrame) * list string * world :=
  match tickers with
  | [] => (Ok all_data, out, w)
  | ticker :: rest =>
      let (fetched, w) := get_market_data ticker engine market board w in
      match fetched with
      | Ok ticker_data =>
          let ticker_data := setitem_scalar ticker_data "TICKER" (str_cell ticker) in
          fetch_tickers rest board engine market (all_data ++ [ticker_data]) out w
      | Raise e =>
          if is_MoexApiError e then
            fetch_tickers rest board engine market all_data
              (out ++ [("Error fetching data for " ++ ticker ++ ": " ++ exn_str e)%string])
              w
          else (Raise e, out, w)
      end
  end.

Definition get_market_data_snapshot (tickers : list string)
    (board engine market : string) (w : world)
    : result DataFrame * list string * world :=
  match fetch_tickers tickers board engine market [] [] w with
  | (Ok all_data, out, w) =>
      match all_data with
      | [] => (Ok (empty_frame snapshot_columns), out, w)
      | _ => (pd_concat all_data, out, w)
      end
  | (Raise e, out, w) => (Raise e, out, w)
  end.

(** What the client answers for each ticker in turn, every call made in the
    world the call before has left. *)
Fixpoint attempts (tickers : list string) (board engine market : string)
    (w : world) : list (string * result DataFrame) :=
  match tickers with
  | [] => []
  | ticker :: rest =>
      let (fetched, w') := get_market_data ticker engine market board w in
      (ticker, fetched) :: attempts rest board engine market w'
  end.

(** The frame of a ticker that succeeded, with its [TICKER] column. *)
Definition with_ticker (a : string * result DataFrame)
    : list DataFrame :=
  match snd a with
  | Ok df => [setitem_scalar df "TICKER" (str_cell (fst a))]
  | Raise _ => []
  end.

(** The rows of the frames of the tickers that succeeded. *)
Fixpoint rows_fetched (atts : list (string * result DataFrame)) : nat :=
  match atts with
  | [] => 0
  | (_, Ok df) :: rest => nrows df + rows_fetched rest
  | (_, Raise _) :: rest => rows_fetched rest
  end.

Definition only_api_errors (atts : list (string * result DataFrame))
    : bool :=
  forallb (fun a => match snd a with
                    | Ok _ => true
                    | Raise e => is_MoexApiError e
                    end) atts.
End Snapshot.
End Frames.

(** ** [parsers.response_to_dataframe] *)

(** The argument: a single block or a mapping of blocks. *)
Inductive parsed_response : Type :=
| ParsedList (rows : list pydict)
| ParsedDict (blocks : list (string * list pydict)).

Section ToFrames.
Context {cell : Type}.
(** [pd.DataFrame(rows)], which may raise. *)
Variable pd_DataFrame : list pydict -> result (@DataFrame cell).

(** The value returned: one frame, or a mapping of frames. *)
Inductive frames : Type :=
| OneFrame (df : @DataFrame cell)
| FrameDict (dfs : list (string * @DataFrame cell)).

(** [for name, data in parsed_response.items(): if data: result[name] = ...] *)
Fixpoint convert_blocks (blocks : list (string * list pydict))
    (res : list (string * @DataFrame cell))
    : result (list (string * @DataFrame cell)) :=
  match blocks with
  | [] => Ok res
  | (name, data) :: rest =>
      match data with
      | [] => convert_blocks rest res
      | _ :: _ => df <- pd_DataFrame data ;; convert_blocks rest (sset res name df)
      end
  end.

Definition block_not_found (block_name : string) : exn :=
  MoexParsingError ("Block '" ++ block_name ++ "' not found in response") None None.

Definition response_to_dataframe (parsed : parsed_response)
    (block_name : option string) : result frames :=
  try_except
    (match parsed with
     | ParsedList rows => df <- pd_DataFrame rows ;; Ok (OneFrame df)
     | ParsedDict blocks =>
         match block_name with
         | Some name =>
             if negb (smem blocks name) then Raise (block_not_found name)
             else
               match sget blocks name with
               | Some rows => df <- pd_DataFrame rows ;; Ok (OneFrame df)
               | None => Raise (KeyError name)
               end
         | None => dfs <- convert_blocks blocks [] ;; Ok (FrameDict dfs)
         end
     end)
    (fun _ => true)
    (fun e => Raise (MoexParsingError "Failed to convert response to DataFrame"
                       None (Some e))).
End ToFrames.

(** ** [utils.build_query_params] *)

Section QueryParams.
(** [str(v)] for a list or a mapping. *)
Variable str_container : json -> string.

(** [str(v)] *)
Definition py_str (v : json) : string :=
  match v with
  | JNull => "None"
  | JBool true => "True"
  | JBool false => "False"
  | JNum n => string_of_Z n
  | JStr s => s
  | JList _ | JDict _ => str_container v
  end.

Definition query_value (value : json) : string :=
  match value with
  | JList items => join "," (map py_str items)
  | JBool b => if b then "1" else "0"
  | _ => py_str value
  end.

Fixpoint build_query_params_from (params : list (string * json))
    (res : list (string * string)) : list (string * string) :=
  match params with
  | [] => res
  | (key, value) :: rest =>
      match value with
      | JNull => build_query_params_from rest res
      | _ => build_query_params_from rest (sset res key (query_value value))
      end
  end.

Definition build_query_params (params : list (string * json))
    : list (string * string) :=
  build_query_params_from params [].
End QueryParams.

(** ** [MoexApiClient.get_json], [get_data], [get_dataframe], [get_candles] *)

(** A date given as an argument is true in a condition unless it is [None]
    or the empty string; [DOther] stands for an object that is true. *)
Definition truthy_date (v : option date_value) : bool :=
  match v with
  | None => false
  | Some (DStr EmptyString) => false
  | Some _ => true
  end.

Definition truthy_str (s : option string) : bool :=
  match s with
  | Some (String _ _) => true
  | _ => false
  end.

Definition candles_board_endpoint : string :=
  "/engines/[engine]/markets/[market]/boards/[board]/securities/[security]/candles".
Definition candles_group_endpoint : string :=
  "/engines/[engine]/markets/[market]/boardgroups/[boardgroup]/securities/[security]/candles".
Definition candles_default_endpoint : string :=
  "/engines/[engine]/markets/[market]/securities/[security]/candles".

Section Pipeline.
Variable world : Type.
Variable Session : Type.
Context {cell : Type}.
Variable float_sub : Q -> Q -> Q.
Variable time_time : world -> Q.
Variable time_sleep : Q -> world -> world.
Variable session_get session_post :
  Session -> string -> list (string * string) -> option Z -> world ->
  result Response * world.
Variable build_url : string -> string -> list (string * string) -> string.
Variable build_query_params' : list (string * json) -> list (string * string).
(** [response.json()]: the document, or the message of the
    [JSONDecodeError] (a [ValueError]) it raises; and [response.text]. *)
Variable response_json : Response -> json + string.
Variable response_text : Response -> string.
Variable pd_DataFrame : list pydict -> result (@DataFrame cell).
Variable to_datetime to_numeric astype_category : list cell -> list cell.
(** [datetime.date.today()] *)
Variable date_today : world -> date.

Definition get_json (self : MoexApiClient Session) (endpoint : string)
    (params : option (list (string * json)))
    (path_params : option (list (string * string)))
    (method : string) (timeout_arg : option Z) (w : world)
    : result json * MoexApiClient Session * world :=
  match make_request world Session float_sub time_time time_sleep session_get session_post
          build_url build_query_params' self endpoint params path_params method
          timeout_arg "json" w with
  | (Ok response, self, w) =>
      match response_json response with
      | inl document => (Ok document, self, w)
      | inr msg =>
          (Raise (MoexParsingError "Failed to parse JSON response"
                    (Some (JStr (response_text response)))
                    (Some (ValueError msg))), self, w)
      end
  | (Raise e, self, w) => (Raise e, self, w)
  end.

Definition get_data (self : MoexApiClient Session) (endpoint : string)
    (params : option (list (string * json)))
    (path_params : option (list (string * string)))
    (method : string) (timeout_arg : option Z) (w : world)
    : result (list (string * list pydict)) * MoexApiClient Session * world :=
  match get_json self endpoint params path_params method timeout_arg w with
  | (Ok json_response, self, w) => (parse_json_response json_response, self, w)
  | (Raise e, self, w) => (Raise e, self, w)
  end.

Definition normalize_frames (fs : @frames cell) : @frames cell :=
  match fs with
  | OneFrame df =>
      OneFrame (normalize_dataframe to_datetime to_numeric astype_category df
                  None None None None)
  | FrameDict dfs =>
      FrameDict (map (fun kv =>
                        (fst kv,
                         normalize_dataframe to_datetime to_numeric astype_category
                           (snd kv) None None None None)) dfs)
  end.

Definition get_dataframe (self : MoexApiClient Session) (endpoint : string)
    (params : option (list (string * json)))
    (path_params : option (list (string * string)))
    (method : string) (timeout_arg : option Z)
    (block_name : option string) (normalize : bool) (w : world)
    : result (@frames cell) * MoexApiClient Session * world :=
  match get_data self endpoint params path_params method timeout_arg w with
  | (Ok parsed_data, self, w) =>
      match response_to_dataframe pd_DataFrame (ParsedDict parsed_data) block_name with
      | Ok res => (Ok (if normalize then normalize_frames res else res), self, w)
      | Raise e => (Raise e, self, w)
      end
  | (Raise e, self, w) => (Raise e, self, w)
  end.

Definition get_candles (self : MoexApiClient Session)
    (security_id engine market : string) (interval : Z)
    (start_date end_date : option date_value)
    (board board_group : option string) (w : world)
    : result (@frames cell) * MoexApiClient Session * world :=
  let dates :=
    if truthy_date start_date || truthy_date end_date then
      ft <- validate_date_range (date_today w) start_date end_date None ;;
      Ok [("from", JStr (fst ft)); ("till", JStr (snd ft))]%string
    else Ok [] in
  match dates with
  | Raise e => (Raise e, self, w)
  | Ok date_params =>
      let params := (("interval", JNum interval) :: date_params)%string in
      let (endpoint, path_params) :=
        match board, board_group with
        | Some (String c b), _ =>
            (candles_board_endpoint,
             [("engine", engine); ("market", market); ("board", String c b);
              ("security", security_id)]%string)
        | _, Some (String c g) =>
            (candles_group_endpoint,
             [("engine", engine); ("market", market); ("boardgroup", String c g);
              ("security", security_id)]%string)
        | _, _ =>
            (candles_default_endpoint,
             [("engine", engine); ("market", market); ("security", security_id)]%string)
        end in
      get_dataframe self endpoint (Some params) (Some path_params) "GET" None
        (Some "candles"%string) true w
  end.
End Pipeline.

(** ** [endpoints.get_multi_timeframe_candles] *)

Section MultiTimeframe.
Variable world : Type.
Variable Frame : Type.
Variable get_candles' :
  string -> string -> string -> option string -> Z ->
  option date_value -> option date_value -> world -> result Frame * world.

(** The loop over [intervals], with the mapping and the lines printed so
    far. *)
Fixpoint collect_candles (ticker : string) (intervals : list string)
    (start_date end_date : option date_value) (board : string)
    (res : list (string * Frame)) (out : list string) (w : world)
    : result (list (string * Frame)) * list string * world :=
  match intervals with
  | [] => (Ok res, out, w)
  | interval :: rest =>
      match get_stock_candles world Frame get_candles' ticker interval
              start_date end_date board w with
      | (Ok candles, w) =>
          collect_candles ticker rest start_date end_date board
            (sset res interval candles) out w
      | (Raise e, w) =>
          if is_ValueError e then
            collect_candles ticker rest start_date end_date board res
              (out ++ [("Error with interval '" ++ interval ++ "': " ++ exn_str e)%string]) w
          else if is_MoexApiError e then
            collect_candles ticker rest start_date end_date board res
              (out ++ [("API error for interval '" ++ interval ++ "': " ++ exn_str e)%string]) w
          else (Raise e, out, w)
      end
  end.

Definition get_multi_timeframe_candles (ticker : string) (intervals : list string)
    (start_date end_date : option date_value) (board : string) (w : world)
    : result (list (string * Frame)) * list string * world :=
  collect_candles ticker intervals start_date end_date board [] [] w.
End MultiTimeframe.

(** ** Predicates of the specification *)

Local Close Scope Z_scope.

(** A Response Block of the data model: [columns] is a list of pairwise
    different field names, [data] a list of rows, each a list with as many
    values as there are columns. *)
Definition wf_block (v : json) (cols : list string) (rows : list (list json))
    : Prop :=
  exists d,
    v = JDict d /\
    sget d "columns" = Some (JList (map JStr cols)) /\
    sget d "data" = Some (JList (map JList rows)) /\
    NoDup cols /\
    Forall (fun row => List.length row = List.length cols) rows.

(** The parsed row of [row] under [cols]: the columns paired with the values
    of the row, position by position. *)
Definition zipped (cols : list string) (row : list json) : pydict :=
  combine (map JStr cols) row.

Definition type_or_parsing_error (e : exn) : bool :=
  match e with
  | TypeError _ | MoexParsingError _ _ _ => true
  | _ => false
  end.

Definition no_columns (cols : option (list string)) : bool :=
  match cols with
  | Some (_ :: _) => false
  | _ => true
  end.

Definition no_index (index_column : option string) : bool :=
  match index_column with
  | Some (String _ _) => false
  | _ => true
  end.

Definition interval_names : list string :=
  ["min"; "1min"; "10min"; "hour"; "day"; "week"; "month"; "quarter"]%string.

(** A response with status 429 whose [Retry-After] header is an HTTP date,
    and a session that answers every request with a given response. *)
Definition http_date_response : Response :=
  mkResponse 429 [("Retry-After", "Wed, 21 Oct 2015 07:28:00 GMT")%string] JNull.

Definition answering (r : Response)
    : unit -> string -> list (string * string) -> option Z -> unit ->
      result Response * unit :=
  fun _ _ _ _ w => (Ok r, w).

Local Open Scope Z_scope.

(** The date written in one of the four formats, the year with four digits
    and the month and the day with two. *)
Definition render (f : date_format) (d : date) : string :=
  match f with
  | Fmt_Y_m_d_dash => pad4 (year d) ++ "-" ++ pad2 (month d) ++ "-" ++ pad2 (day d)
  | Fmt_d_m_Y_dot => pad2 (day d) ++ "." ++ pad2 (month d) ++ "." ++ pad4 (year d)
  | Fmt_m_d_Y_slash => pad2 (month d) ++ "/" ++ pad2 (day d) ++ "/" ++ pad4 (year d)
  | Fmt_Y_m_d_slash => pad4 (year d) ++ "/" ++ pad2 (month d) ++ "/" ++ pad2 (day d)
  end.

Definition valid_value (v : date_value) : Prop :=
  match v with
  | DDate d => valid_date d
  | DDateTime dt => valid_date (dt_date dt)
  | _ => True
  end.

Local Close Scope Z_scope.

(** Every column of the frame has one cell for each row, as in every frame
    of pandas. *)
Definition rectangular {cell : Type} (df : @DataFrame cell) : Prop :=
  Forall (fun c => List.length (snd c) = nrows df) (df_columns df).

(** ** Sample inputs *)

(** The [engines] answer of the exchange next to an entry that is no block. *)
Definition engines_block : list (string * json) :=
  [("columns", JList [JStr "id"; JStr "name"; JStr "title"]);
   ("data", JList [JList [JStr "stock"; JStr "stock"; JStr "Stock market"]])]%string.

Definition engines_response : list (string * json) :=
  [("engines", JDict engines_block); ("charsetinfo", JStr "utf-8")]%string.

(** A block whose second row is one value short. *)
Definition short_row_block : list (string * json) :=
  [("columns", JList [JStr "id"; JStr "name"; JStr "title"]);
   ("data", JList [JList [JStr "stock"; JStr "stock"; JStr "Stock market"];
                   JList [JStr "currency"; JStr "currency"]])]%string.

Definition short_row_response : list (string * json) :=
  [("engines", JDict short_row_block)]%string.

(** A frame of two columns and two rows. *)
Definition sample_frame : @DataFrame json :=
  mkDataFrame [("LAST", [JNum 250; JNum 175]); ("VOLTODAY", [JNum 10; JNum 20])]%string
    (RangeIndex 2).

(** A client that answers every ticker with [sample_frame], except [BAD], for
    which the exchange answers 404. *)
Definition sample_market_data (ticker engine market board : string) (w : unit)
    : result (@DataFrame json) * unit :=
  if String.eqb ticker "BAD" then
    (Raise (MoexResponseError "API returned error response: 404" (Some 404%Z) None), w)
  else (Ok sample_frame, w).

Definition sample_tickers : list string := ["SBER"; "BAD"; "GAZP"]%string.

(** A client whose [get_candles] answers with the interval code it is given. *)
Definition echo_candles (security_id engine market : string) (board : option string)
    (interval : Z) (start_date end_date : option date_value) (w : unit)
    : result Z * unit :=
  (Ok interval, w).

(** ** Predicates and sample inputs of the further properties *)

(** No two keys of the row are equal in the sense of [==]. *)
Definition distinct_keys (row : pydict) : Prop :=
  ForallOrdPairs (fun a b => key_eqb (fst a) (fst b) = false) row.

(** A block that names the column [id] twice. *)
Definition repeated_column_response : list (string * json) :=
  [("engines",
    JDict [("columns", JList [JStr "id"; JStr "id"]);
           ("data", JList [JList [JStr "stock"; JStr "currency"]])])]%string.

(** A constructor of frames that keeps nothing of the rows but their
    number. *)
Definition frame_of_rows (rows : list pydict) : result (@DataFrame json) :=
  Ok (mkDataFrame [] (RangeIndex (List.length rows))).

(** The labels without the first occurrence of [col]. *)
Fixpoint remove_first (col : string) (labels : list string) : list string :=
  match labels with
  | [] => []
  | c :: rest => if String.eqb c col then rest else c :: remove_first col rest
  end.

(** [col] is named in the list given for a kind of column. *)
Definition listed (cols : option (list string)) (col : string) : Prop :=
  match cols with
  | Some l => In col l
  | None => False
  end.

(** The date an argument stands for is a calendar date; [today] stands in
    for an end date left out. *)
Definition valid_end (today : date) (end_date : option date_value) : Prop :=
  match end_date with
  | Some e => valid_value e
  | None => valid_date today
  end.

Definition is_null (v : json) : bool :=
  match v with
  | JNull => true
  | _ => false
  end.

(** Query parameters as an endpoint builds them. *)
Definition sample_params : list (string * json) :=
  [("interval", JNum 24); ("from", JNull); ("columns", JList [JStr "OPEN"; JStr "CLOSE"]);
   ("reversed", JBool true)]%string.


(** A world that is the list of the times slept, the clock at one tenth of a
    second. *)
Definition sleep_log (d : Q) (w : list Q) : list Q := d :: w.
Definition tenth (w : list Q) : Q := Qmake 1 10.


(** A client whose [get_candles] fails with an error of another kind. *)
Definition broken_candles (security_id engine market : string)
    (board : option string) (interval : Z)
    (start_date end_date : option date_value) (w : unit) : result Z * unit :=
  (Raise (KeyError "candles"), w).

Definition no_container (v : json) : string := EmptyString.
Definition no_url (base endpoint : string) (path_params : list (string * string))
    : string := endpoint.
Definition no_query (params : list (string * json)) : list (string * string) := [].
Definition no_document (r : Response) : json + string := inl (body r).
Definition no_text (r : Response) : string := EmptyString.
Definition first_of_june (w : unit) : date := mkdate 2024 6 1.

(** A conversion that can be told from the identity: it reverses a column. *)
Definition reversing (series : list json) : list json := rev series.

Definition sample_blocks : list (string * list pydict) :=
  [("engines", [[(JStr "id", JStr "stock")]]); ("markets", [])]%string.

(** * Properties *)

(** ** Dictionaries *)

Section DictFacts.
Context {K V : Type}.
Variable eqb : K -> K -> bool.

Lemma dict_set_fresh (d : list (K * V)) (k : K) (v : V) :
  Forall (fun kv => eqb (fst kv) k = false) d ->
  dict_set eqb d k v = d ++ [(k, v)].
Proof.
  induction 1 as [| [k' v'] rest Hk _ IH]; simpl.
  - reflexivity.
  - simpl in Hk. rewrite Hk, IH. reflexivity.
Qed.
End DictFacts.

Lemma sget_sset_same {V : Type} (d : list (string * V)) (k : string) (v : V) :
  sget (sset d k v) k = Some v.
Proof.
  unfold sget, sset. induction d as [| [k' v'] rest IH]; simpl.
  - rewrite String.eqb_refl. reflexivity.
  - destruct (String.eqb k' k) eqn:E; simpl; rewrite E; [reflexivity | exact IH].
Qed.

Lemma sget_sset_other {V : Type} (d : list (string * V)) (k k' : string) (v : V) :
  k <> k' -> sget (sset d k v) k' = sget d k'.
Proof.
  intros Hne. unfold sget, sset. induction d as [| [k0 v0] rest IH]; simpl.
  - destruct (String.eqb k k') eqn:E; [apply String.eqb_eq in E; contradiction | reflexivity].
  - destruct (String.eqb k0 k) eqn:E; simpl.
    + apply String.eqb_eq in E. subst k0.
      destruct (String.eqb k k') eqn:E'; [apply String.eqb_eq in E'; contradiction | reflexivity].
    + destruct (String.eqb k0 k'); [reflexivity | exact IH].
Qed.

Lemma JStr_map_inj (a b : list string) : map JStr a = map JStr b -> a = b.
Proof.
  revert b. induction a as [| x a IH]; intros [| y b] H; simpl in H;
    try discriminate; [reflexivity |].
  injection H as Hx Hr. subst y. f_equal. apply IH. exact Hr.
Qed.

Lemma JList_map_inj (a b : list (list json)) : map JList a = map JList b -> a = b.
Proof.
  revert b. induction a as [| x a IH]; intros [| y b] H; simpl in H;
    try discriminate; [reflexivity |].
  injection H as Hx Hr. subst y. f_equal. apply IH. exact Hr.
Qed.

(** ** The response parser *)

Lemma dict_of_pairs_distinct (cols : list string) :
  NoDup cols ->
  forall (row : list json) (acc : pydict),
    (forall c kv, In c cols -> In kv acc -> key_eqb (fst kv) (JStr c) = false) ->
    dict_of_pairs acc (zipped cols row) = Ok (acc ++ zipped cols row).
Proof.
  unfold zipped.
  induction 1 as [| c cols Hnotin Hnd IH]; intros row acc Hacc; simpl.
  - rewrite app_nil_r. reflexivity.
  - destruct row as [| v row]; simpl.
    + rewrite app_nil_r. reflexivity.
    + rewrite dict_set_fresh.
      * rewrite IH.
        -- rewrite <- app_assoc. reflexivity.
        -- intros c' kv Hc' Hin. apply in_app_or in Hin. destruct Hin as [Hin | Hin].
           ++ apply Hacc; [right; exact Hc' | exact Hin].
           ++ destruct Hin as [<- | []]. simpl.
              destruct (String.eqb c c') eqn:E; [| reflexivity].
              apply String.eqb_eq in E. subst c'. contradiction.
      * apply Forall_forall. intros kv Hin. apply Hacc; [left; reflexivity | exact Hin].
Qed.

Lemma parse_rows_well_formed (block_name : string) (cols : list string) :
  NoDup cols ->
  forall (rows : list (list json)) (acc : list pydict),
    Forall (fun row => List.length row = List.length cols) rows ->
    parse_rows block_name (JList (map JStr cols)) (map JList rows) acc =
    Ok (acc ++ map (zipped cols) rows).
Proof.
  intros Hnd. induction rows as [| row rows IH]; intros acc Hlen; simpl.
  - rewrite app_nil_r. reflexivity.
  - inversion Hlen as [| ? ? Hrow Hrest]; subst.
    rewrite length_map, Hrow, Nat.eqb_refl. simpl.
    change (combine (map JStr cols) row) with (zipped cols row).
    rewrite (dict_of_pairs_distinct cols Hnd row []) by (intros ? ? _ []).
    simpl. rewrite IH by exact Hrest.
    rewrite <- app_assoc. reflexivity.
Qed.

Lemma wf_block_is_data_block (v : json) cols rows :
  wf_block v cols rows -> is_data_block v = true.
Proof.
  intros (d & -> & Hc & Hd & _). simpl. unfold smem, dict_mem.
  unfold sget in Hc, Hd. rewrite Hc, Hd. reflexivity.
Qed.

(** The outer loop on an input whose data blocks are all well formed: it
    returns, entries that are no data blocks leave the result as it is, and a
    well-formed block is stored under its name. *)
Lemma parse_blocks_well_formed (items : list (string * json)) :
  (forall name v, In (name, v) items -> is_data_block v = true ->
                  exists cols rows, wf_block v cols rows) ->
  forall res, exists res',
    parse_blocks items res = Ok res' /\
    (forall name,
        (forall v, In (name, v) items -> is_data_block v = false) ->
        sget res' name = sget res name) /\
    (NoDup (map fst items) ->
     forall name v cols rows,
       In (name, v) items -> wf_block v cols rows ->
       sget res' name = Some (map (zipped cols) rows)).
Proof.
  induction items as [| [name0 v0] items IH]; intros Hwf res.
  - exists res. simpl. repeat split; try reflexivity. intros _ ? ? ? ? [].
  - assert (Hrest : forall name v, In (name, v) items -> is_data_block v = true ->
                                   exists cols rows, wf_block v cols rows).
    { intros name v Hin. apply (Hwf name v). right. exact Hin. }
    destruct (is_data_block v0) eqn:Hblock.
    + destruct (Hwf name0 v0 (or_introl eq_refl) Hblock) as (cols0 & rows0 & Hw0).
      pose proof Hw0 as (d & -> & Hc & Hd & Hnd & Hlen).
      destruct (IH Hrest (sset res name0 (map (zipped cols0) rows0)))
        as (res' & Hrun & Hskip & Hkeep).
      exists res'. split; [| split].
      * simpl. simpl in Hblock. rewrite Hblock. unfold subscript.
        rewrite Hc, Hd. simpl.
        rewrite (parse_rows_well_formed name0 cols0 Hnd rows0 [] Hlen). simpl.
        exact Hrun.
      * intros name Hnone.
        assert (name <> name0).
        { intros ->. specialize (Hnone _ (or_introl eq_refl)). congruence. }
        rewrite Hskip by (intros v Hin; apply Hnone; right; exact Hin).
        apply sget_sset_other. congruence.
      * intros Hnames name v cols rows Hin Hw. simpl in Hnames.
        inversion Hnames as [| ? ? Hfresh Hnames']; subst.
        destruct Hin as [Heq | Hin].
        -- injection Heq as <- <-.
           destruct Hw as (d' & Hd' & Hc' & Hdata' & _).
           injection Hd' as <-.
           rewrite Hc in Hc'. injection Hc' as Hc'. apply JStr_map_inj in Hc'.
           rewrite Hd in Hdata'. injection Hdata' as Hdata'. apply JList_map_inj in Hdata'.
           subst cols rows.
           rewrite Hskip.
           ++ apply sget_sset_same.
           ++ intros v Hin. exfalso. apply Hfresh.
              change name0 with (fst (name0, v)). apply in_map. exact Hin.
        -- apply (Hkeep Hnames' name v cols rows Hin Hw).
    + destruct (IH Hrest res) as (res' & Hrun & Hskip & Hkeep).
      exists res'. split; [| split].
      * simpl. destruct v0 as [| | | | | d]; try exact Hrun.
        simpl in Hblock. rewrite Hblock. exact Hrun.
      * intros name Hnone. apply Hskip. intros v Hin. apply Hnone. right. exact Hin.
      * intros Hnames name v cols rows Hin Hw. simpl in Hnames.
        inversion Hnames as [| ? ? Hfresh Hnames']; subst.
        destruct Hin as [Heq | Hin].
        -- injection Heq as <- <-. apply wf_block_is_data_block in Hw. congruence.
        -- apply (Hkeep Hnames' name v cols rows Hin Hw).
Qed.

Lemma zipped_keys (cols : list string) (row : list json) :
  List.length row = List.length cols -> map fst (zipped cols row) = map JStr cols.
Proof.
  unfold zipped. revert row. induction cols as [| c cols IH]; intros [| v row] H;
    simpl in *; try discriminate; [reflexivity |].
  f_equal. apply IH. lia.
Qed.

Lemma zipped_values (cols : list string) (row : list json) :
  List.length row = List.length cols -> map snd (zipped cols row) = row.
Proof.
  unfold zipped. revert row. induction cols as [| c cols IH]; intros [| v row] H;
    simpl in *; try discriminate; [reflexivity |].
  f_equal. apply IH. lia.
Qed.

Lemma same_name_same_value {V : Type} (d : list (string * V)) (k : string) (a b : V) :
  NoDup (map fst d) -> In (k, a) d -> In (k, b) d -> a = b.
Proof.
  induction d as [| [k0 v0] d IH]; simpl; intros Hnd Ha Hb; [destruct Ha |].
  inversion Hnd as [| ? ? Hfresh Hnd']; subst.
  destruct Ha as [Ha | Ha], Hb as [Hb | Hb].
  - congruence.
  - injection Ha as <- <-. exfalso. apply Hfresh.
    change k0 with (fst (k0, b)). apply in_map. exact Hb.
  - injection Hb as <- <-. exfalso. apply Hfresh.
    change k0 with (fst (k0, a)). apply in_map. exact Ha.
  - apply (IH Hnd' Ha Hb).
Qed.

(** C1. On a mapping whose data blocks are all well formed (columns a list of
    pairwise different names, data a list of rows as long as the columns; the
    names of the mapping pairwise different, as the keys of a dictionary
    are), [parse_json_response] returns a result in which every such block
    has, under its name, exactly [len(data)] parsed rows, the keys of each
    being the columns in order and its values the values of the row in order;
    an entry that is no mapping with both [columns] and [data] is absent from
    the result. *)
Theorem parse_json_response_well_formed (response_data : list (string * json)) :
  NoDup (map fst response_data) ->
  (forall name v, In (name, v) response_data -> is_data_block v = true ->
                  exists cols rows, wf_block v cols rows) ->
  exists res,
    parse_json_response (JDict response_data) = Ok res /\
    (forall name v, In (name, v) response_data -> is_data_block v = false ->
                    sget res name = None) /\
    (forall name v cols rows,
        In (name, v) response_data -> wf_block v cols rows ->
        exists parsed,
          sget res name = Some parsed /\
          List.length parsed = List.length rows /\
          Forall2 (fun parsed_row row =>
                     map fst parsed_row = map JStr cols /\
                     map snd parsed_row = row) parsed rows).
Proof.
  intros Hnames Hwf.
  destruct (parse_blocks_well_formed response_data Hwf []) as (res & Hrun & Hskip & Hkeep).
  exists res. split; [| split].
  - unfold parse_json_response. simpl. rewrite Hrun. reflexivity.
  - intros name v Hin Hno. rewrite Hskip; [reflexivity |].
    intros v' Hin'. destruct (is_data_block v') eqn:E; [| reflexivity].
    exfalso. apply (same_name_same_value response_data name v v') in Hin; trivial.
    congruence.
  - intros name v cols rows Hin Hw.
    exists (map (zipped cols) rows). split; [| split].
    + apply (Hkeep Hnames name v cols rows Hin Hw).
    + apply length_map.
    + destruct Hw as (d & _ & _ & _ & _ & Hlen). clear - Hlen.
      induction Hlen as [| row rows Hrow _ IH]; simpl; constructor.
      * split; [apply zipped_keys | apply zipped_values]; exact Hrow.
      * exact IH.
Qed.

(** *** Failures of the parser *)

Ltac case_bind :=
  match goal with
  | |- context [bind ?c _] =>
      let E := fresh "E" in destruct c eqn:E; simpl
  | H : context [bind ?c _] |- _ =>
      let E := fresh "E" in destruct c eqn:E; simpl in H
  end.

Lemma py_len_raises (v : json) (e : exn) :
  py_len v = Raise e -> type_or_parsing_error e = true.
Proof. destruct v; simpl; intros H; inversion H; reflexivity. Qed.

Lemma py_iter_raises (v : json) (e : exn) :
  py_iter v = Raise e -> type_or_parsing_error e = true.
Proof. destruct v; simpl; intros H; inversion H; reflexivity. Qed.

Lemma dict_of_pairs_raises (pairs : list (json * json)) :
  forall acc e, dict_of_pairs acc pairs = Raise e -> type_or_parsing_error e = true.
Proof.
  induction pairs as [| [k v] pairs IH]; simpl; intros acc e H.
  - discriminate.
  - destruct (hashable k); [apply (IH _ _ H) | inversion H; reflexivity].
Qed.

Lemma parse_rows_raises (block_name : string) (columns : json) (data : list json) :
  forall rows e,
    parse_rows block_name columns data rows = Raise e ->
    type_or_parsing_error e = true.
Proof.
  induction data as [| row data IH]; simpl; intros rows e H; [discriminate |].
  case_bind; [| inversion H; subst; eapply py_len_raises; eassumption].
  case_bind; [| inversion H; subst; eapply py_len_raises; eassumption].
  destruct (negb (Nat.eqb a a0)); [inversion H; reflexivity |].
  case_bind; [| inversion H; subst; eapply py_iter_raises; eassumption].
  case_bind; [| inversion H; subst; eapply py_iter_raises; eassumption].
  case_bind; [| inversion H; subst; eapply dict_of_pairs_raises; eassumption].
  apply (IH _ _ H).
Qed.

Lemma parse_blocks_raises (items : list (string * json)) :
  forall res e,
    parse_blocks items res = Raise e -> type_or_parsing_error e = true.
Proof.
  induction items as [| [name v] items IH]; simpl; intros res e H; [discriminate |].
  destruct v as [| | | | | d]; try apply (IH _ _ H).
  destruct (smem d "columns" && smem d "data") eqn:Hmem; [| apply (IH _ _ H)].
  apply andb_prop in Hmem. destruct Hmem as [Hc Hd].
  unfold subscript, smem, dict_mem in *. unfold sget in H.
  destruct (dict_get String.eqb d "columns"); [| discriminate].
  destruct (dict_get String.eqb d "data"); [| discriminate].
  simpl in H.
  case_bind; [| inversion H; subst; eapply py_iter_raises; eassumption].
  case_bind; [| inversion H; subst; eapply parse_rows_raises; eassumption].
  apply (IH _ _ H).
Qed.

(** Whatever the mapping holds, [parse_json_response] returns or raises a
    [MoexParsingError]. *)
Lemma parse_json_response_mapping (d : list (string * json)) :
  (exists res, parse_json_response (JDict d) = Ok res) \/
  (exists message data original_error,
      parse_json_response (JDict d) =
      Raise (MoexParsingError message data original_error)).
Proof.
  unfold parse_json_response. simpl.
  destruct (parse_blocks d []) as [res | e] eqn:E; simpl.
  - left. exists res. reflexivity.
  - right. apply parse_blocks_raises in E.
    destruct e; try discriminate; simpl; eauto.
Qed.

Lemma parse_rows_mismatch (block_name : string) (columns row : json)
    (lr lc : nat) (data : list json) :
  In row data -> py_len row = Ok lr -> py_len columns = Ok lc -> lr <> lc ->
  forall rows, raises (parse_rows block_name columns data rows) = true.
Proof.
  intros Hin Hr Hc Hne.
  induction data as [| row0 data IH]; [destruct Hin |]. intros rows. simpl.
  destruct Hin as [-> | Hin].
  - rewrite Hr, Hc. simpl. apply Nat.eqb_neq in Hne. rewrite Hne. reflexivity.
  - case_bind; [| reflexivity]. case_bind; [| reflexivity].
    destruct (negb (Nat.eqb a a0)); [reflexivity |].
    case_bind; [| reflexivity]. case_bind; [| reflexivity].
    case_bind; [| reflexivity]. apply (IH Hin).
Qed.

Lemma parse_blocks_mismatch (items : list (string * json)) (name : string)
    (d : list (string * json)) (columns data row : json) (rows : list json)
    (lr lc : nat) :
  In (name, JDict d) items ->
  sget d "columns" = Some columns -> sget d "data" = Some data ->
  py_iter data = Ok rows -> In row rows ->
  py_len row = Ok lr -> py_len columns = Ok lc -> lr <> lc ->
  forall res, raises (parse_blocks items res) = true.
Proof.
  intros Hin Hc Hd Hit Hrow Hlr Hlc Hne.
  induction items as [| [name0 v0] items IH]; [destruct Hin |]. intros res.
  destruct Hin as [Heq | Hin].
  - injection Heq as -> ->. simpl. unfold smem, dict_mem, subscript.
    unfold sget in *. rewrite Hc, Hd. simpl. rewrite Hit. simpl.
    pose proof (parse_rows_mismatch name columns row lr lc rows Hrow Hlr Hlc Hne [])
      as Hraise.
    destruct (parse_rows name columns rows []); [discriminate | reflexivity].
  - simpl. destruct v0 as [| | | | | d0]; try apply (IH Hin).
    destruct (smem d0 "columns" && smem d0 "data"); [| apply (IH Hin)].
    case_bind; [| reflexivity]. case_bind; [| reflexivity].
    case_bind; [| reflexivity]. case_bind; [| reflexivity].
    apply (IH Hin).
Qed.

(** C2. When the mapping holds a block (a mapping with [columns] and [data])
    one of whose rows has a length other than that of [columns],
    [parse_json_response] raises a [MoexParsingError]; nothing is returned. *)
Theorem parse_json_response_mismatch (response_data : list (string * json))
    (name : string) (d : list (string * json)) (columns data row : json)
    (rows : list json) (lr lc : nat) :
  In (name, JDict d) response_data ->
  sget d "columns" = Some columns -> sget d "data" = Some data ->
  py_iter data = Ok rows -> In row rows ->
  py_len row = Ok lr -> py_len columns = Ok lc -> lr <> lc ->
  exists message dat original_error,
    parse_json_response (JDict response_data) =
    Raise (MoexParsingError message dat original_error).
Proof.
  intros Hin Hc Hd Hit Hrow Hlr Hlc Hne.
  destruct (parse_json_response_mapping response_data) as [(res & Hok) | Herr];
    [| exact Herr].
  exfalso. unfold parse_json_response in Hok. simpl in Hok.
  pose proof (parse_blocks_mismatch response_data name d columns data row rows
                lr lc Hin Hc Hd Hit Hrow Hlr Hlc Hne []) as Hraise.
  destruct (parse_blocks response_data []) as [res' | e] eqn:E; [discriminate |].
  simpl in Hok. destruct (key_or_type_error e); discriminate.
Qed.

(** C3. A top level that is a list has no [items]: the [AttributeError] is
    none of the classes the handler names and leaves [parse_json_response]
    as it is, not as a [MoexParsingError]. *)
Theorem parse_json_response_list_escapes :
  parse_json_response (JList []) =
  Raise (AttributeError "'list' object has no attribute 'items'") /\
  (forall e, parse_json_response (JList []) = Raise e -> is_MoexApiError e = false).
Proof.
  split; [reflexivity |]. intros e H. inversion H. reflexivity.
Qed.

(** ** The column normalizer *)

Section NormalizeFacts.
Context {cell : Type}.
Variable to_datetime to_numeric astype_category : list cell -> list cell.

Lemma convert_column_absent (f : list cell -> list cell) (df : DataFrame)
    (col : string) :
  has_column df col = false -> convert_column f df col = df.
Proof. intros H. unfold convert_column. rewrite H. reflexivity. Qed.

Lemma convert_columns_absent (f : list cell -> list cell)
    (cols : list string) (df : DataFrame) :
  Forall (fun col => has_column df col = false) cols ->
  convert_columns f (Some cols) df = df.
Proof.
  intros H. unfold convert_columns.
  assert (Hfold : fold_left (convert_column f) cols df = df).
  { induction H as [| col cols Hcol _ IH]; simpl; [reflexivity |].
    rewrite convert_column_absent by exact Hcol. exact IH. }
  destruct cols; [reflexivity | exact Hfold].
Qed.

(** C4. With no date, numeric or categorical columns named (the argument
    left out, or an empty list) and no index column, [normalize_dataframe]
    returns a frame with the content of its argument. *)
Theorem normalize_dataframe_empty_spec (df : @DataFrame cell)
    (date_columns numeric_columns categorical_columns : option (list string))
    (index_column : option string) :
  no_columns date_columns = true ->
  no_columns numeric_columns = true ->
  no_columns categorical_columns = true ->
  no_index index_column = true ->
  normalize_dataframe to_datetime to_numeric astype_category df
    date_columns numeric_columns categorical_columns index_column = df.
Proof.
  intros Hd Hn Hc Hi. unfold normalize_dataframe, convert_columns.
  destruct date_columns as [[| ? ?] |]; try discriminate;
  destruct numeric_columns as [[| ? ?] |]; try discriminate;
  destruct categorical_columns as [[| ? ?] |]; try discriminate;
  destruct index_column as [[| ? ?] |]; try discriminate; reflexivity.
Qed.

(** The same holds when the lists only name columns the frame has not. *)
Lemma normalize_dataframe_absent_columns (df : @DataFrame cell)
    (date_columns numeric_columns categorical_columns : list string)
    (index_column : string) :
  Forall (fun col => has_column df col = false)
    (date_columns ++ numeric_columns ++ categorical_columns ++ [index_column]) ->
  normalize_dataframe to_datetime to_numeric astype_category df
    (Some date_columns) (Some numeric_columns) (Some categorical_columns)
    (Some index_column) = df.
Proof.
  intros H. apply Forall_app in H. destruct H as [Hd H].
  apply Forall_app in H. destruct H as [Hn H].
  apply Forall_app in H. destruct H as [Hc Hi].
  inversion Hi as [| ? ? Hidx _]; subst.
  unfold normalize_dataframe.
  rewrite (convert_columns_absent _ date_columns df Hd).
  rewrite (convert_columns_absent _ numeric_columns df Hn).
  rewrite (convert_columns_absent _ categorical_columns df Hc).
  destruct index_column; [reflexivity |]. rewrite Hidx. reflexivity.
Qed.
End NormalizeFacts.

(** ** The candle interval vocabulary *)

Lemma sget_not_in {V : Type} (d : list (string * V)) (k : string) :
  ~ In k (map fst d) -> sget d k = None.
Proof.
  unfold sget. induction d as [| [k0 v0] d IH]; simpl; intros H; [reflexivity |].
  destruct (String.eqb k0 k) eqn:E.
  - apply String.eqb_eq in E. exfalso. apply H. left. exact E.
  - apply IH. intros Hin. apply H. right. exact Hin.
Qed.

Lemma interval_map_unknown (interval : string) :
  ~ In interval interval_names -> smem interval_map interval = false.
Proof.
  intros H. unfold smem, dict_mem.
  change (dict_get String.eqb interval_map interval) with (sget interval_map interval).
  rewrite sget_not_in; [reflexivity | exact H].
Qed.

Section CandleFacts.
Variable world : Type.
Variable Frame : Type.
Variable get_candles :
  string -> string -> string -> option string -> Z ->
  option date_value -> option date_value -> world -> result Frame * world.

(** C6. [get_stock_candles] passes on the code 1 for [min] and [1min], 10
    for [10min], 60 for [hour], 24 for [day], 7 for [week], 31 for [month]
    and 4 for [quarter]; for any other name it raises a [ValueError] whose
    message lists these eight names, and asks the client for nothing. *)
Theorem get_stock_candles_interval_vocabulary (ticker : string)
    (start_date end_date : option date_value) (board : string) (w : world) :
  let run interval :=
    get_stock_candles world Frame get_candles ticker interval
      start_date end_date board w in
  let call code :=
    get_candles ticker "stock" "shares" (Some board) code start_date end_date w in
  run "min" = call 1%Z /\ run "1min" = call 1%Z /\ run "10min" = call 10%Z /\
  run "hour" = call 60%Z /\ run "day" = call 24%Z /\ run "week" = call 7%Z /\
  run "month" = call 31%Z /\ run "quarter" = call 4%Z /\
  (forall interval,
      ~ In interval interval_names ->
      run interval =
      (Raise (ValueError
                ("Invalid interval: '" ++ interval ++ "'. Valid intervals are: "
                 ++ "min, 1min, 10min, hour, day, week, month, quarter")), w)).
Proof.
  cbv zeta. repeat split; try reflexivity.
  intros interval H. unfold get_stock_candles.
  rewrite (interval_map_unknown interval H). reflexivity.
Qed.
End CandleFacts.

(** ** The client: construction and the request executor *)

(** C10. A client built by [__init__] with [rate_limit] left out, or given as
    zero, has the default 0.2 (one fifth) as its [rate_limit]; no argument
    gives a client whose [rate_limit] is zero. *)
Theorem init_rate_limit_never_zero (Session : Type) (new_session : Session)
    (session_arg : option Session) (timeout_arg : option Z) :
  rate_limit (init new_session session_arg None timeout_arg) = Qmake 1 5
  /\ (forall r, Qeq r (Qmake 0 1) ->
                rate_limit (init new_session session_arg (Some r) timeout_arg)
                = Qmake 1 5)
  /\ (forall rate_limit_arg,
         ~ Qeq (rate_limit (init new_session session_arg rate_limit_arg timeout_arg))
               (Qmake 0 1)).
Proof.
  split; [reflexivity | split].
  - intros r Hr. simpl. unfold truthy_Q.
    apply Qeq_bool_iff in Hr. rewrite Hr. reflexivity.
  - intros [r |]; simpl; [| discriminate].
    unfold truthy_Q. destruct (Qeq_bool r (Qmake 0 1)) eqn:E; simpl.
    + discriminate.
    + intros H. apply Qeq_bool_iff in H. congruence.
Qed.


Lemma py_int_raises (s : string) (e : exn) :
  py_int s = Raise e -> is_ValueError e = true.
Proof.
  unfold py_int. intros H.
  repeat match type of H with
         | context [match ?x with _ => _ end] => destruct x
         end; inversion H; reflexivity.
Qed.

(** The status checks raise no transport exception, so the handler of
    [_make_request] lets them through. *)
Lemma check_status_passes_handler (response : Response)
    (h : exn -> result Response) :
  try_except (check_status response) is_RequestException h = check_status response.
Proof.
  unfold try_except. destruct (check_status response) as [r | e] eqn:E; [reflexivity |].
  replace (is_RequestException e) with false; [reflexivity |].
  unfold check_status in E.
  destruct (status_code response =? 429)%Z.
  - destruct (py_int _) as [n | e'] eqn:Ei; simpl in E; inversion E; subst.
    + reflexivity.
    + apply py_int_raises in Ei. destruct e; try discriminate; reflexivity.
  - destruct ((status_code response =? 401)%Z || (status_code response =? 403)%Z).
    + inversion E; reflexivity.
    + destruct (status_code response >=? 400)%Z; inversion E; reflexivity.
Qed.

(** The mapping from status codes to errors. *)
Lemma check_status_rate_limit (response : Response) (n : Z) :
  status_code response = 429%Z ->
  py_int (headers_get (headers response) "Retry-After" "60") = Ok n ->
  check_status response =
  Raise (MoexRateLimitError "Rate limit exceeded" (Some 429%Z) (Some response) (Some n)).
Proof.
  intros Hs Hi. unfold check_status. rewrite Hs, Hi. reflexivity.
Qed.

Lemma check_status_rate_limit_default (response : Response) :
  status_code response = 429%Z ->
  dict_get (fun a b => String.eqb (lower a) (lower b)) (headers response)
    "Retry-After" = None ->
  check_status response =
  Raise (MoexRateLimitError "Rate limit exceeded" (Some 429%Z) (Some response)
           (Some 60%Z)).
Proof.
  intros Hs Hh. apply check_status_rate_limit; [exact Hs |].
  unfold headers_get. rewrite Hh. reflexivity.
Qed.

Lemma check_status_auth (response : Response) :
  status_code response = 401%Z \/ status_code response = 403%Z ->
  check_status response =
  Raise (MoexAuthError "Authentication failed" (Some (status_code response))
           (Some response)).
Proof.
  intros H. unfold check_status. destruct H as [H | H]; rewrite H; reflexivity.
Qed.

Lemma check_status_other_error (response : Response) :
  (400 <= status_code response)%Z ->
  status_code response <> 429%Z -> status_code response <> 401%Z ->
  status_code response <> 403%Z ->
  check_status response =
  Raise (MoexResponseError
           ("API returned error response: " ++ string_of_Z (status_code response))
           (Some (status_code response)) (Some response)).
Proof.
  intros Hge H1 H2 H3. unfold check_status.
  apply Z.eqb_neq in H1, H2, H3. rewrite H1, H2, H3. simpl.
  replace (status_code response >=? 400)%Z with true; [reflexivity |].
  symmetry. apply Z.geb_le. exact Hge.
Qed.

Lemma check_status_success (response : Response) :
  (status_code response < 400)%Z -> check_status response = Ok response.
Proof.
  intros Hlt. unfold check_status.
  replace (status_code response =? 429)%Z with false by (symmetry; apply Z.eqb_neq; lia).
  replace (status_code response =? 401)%Z with false by (symmetry; apply Z.eqb_neq; lia).
  replace (status_code response =? 403)%Z with false by (symmetry; apply Z.eqb_neq; lia).
  simpl. replace (status_code response >=? 400)%Z with false; [reflexivity |].
  symmetry. rewrite Z.geb_leb. apply Z.leb_gt. exact Hlt.
Qed.

Section RequestFacts.
Variable world : Type.
Variable Session : Type.
Variable float_sub : Q -> Q -> Q.
Variable time_time : world -> Q.
Variable time_sleep : Q -> world -> world.
Variable session_get session_post :
  Session -> string -> list (string * string) -> option Z -> world ->
  result Response * world.
Variable build_url : string -> string -> list (string * string) -> string.
Variable build_query_params : list (string * json) -> list (string * string).

(** [_make_request] with [method="GET"]: the session is asked once; an answer
    goes through the status checks, a transport failure becomes a
    [MoexConnectionError] that holds it. *)
Lemma make_request_get (self : MoexApiClient Session) (endpoint : string)
    (params : option (list (string * json)))
    (path_params : option (list (string * string)))
    (timeout_arg : option Z) (format_type : string) (w : world) :
  exists url query timeout' w0,
    make_request world Session float_sub time_time time_sleep session_get session_post
      build_url build_query_params self endpoint params path_params "GET"
      timeout_arg format_type w =
    match session_get (session self) url query timeout' w0 with
    | (Ok response, w1) =>
        (check_status response,
         set_last_request_time Session self (time_time w1), w1)
    | (Raise e, w1) =>
        (if is_RequestException e
         then Raise (MoexConnectionError "Failed to connect to MOEX API" (Some e))
         else Raise e, self, w1)
    end.
Proof.
  unfold make_request, send.
  change (String.eqb (upper "GET") "GET") with true. cbv iota zeta.
  match goal with
  | |- context [session_get (session self) ?u ?q ?t ?w'] => exists u, q, t, w'
  end.
  destruct (session_get _ _ _ _ _) as [[response | e] w1].
  - rewrite check_status_passes_handler. reflexivity.
  - reflexivity.
Qed.
End RequestFacts.

(** C7. On a response with status 429 whose [Retry-After] header holds an
    HTTP date, [int] fails and [_make_request] raises a [ValueError], not a
    [MoexRateLimitError]. *)
Theorem make_request_http_date_retry_after
    (build_url : string -> string -> list (string * string) -> string)
    (build_query_params : list (string * json) -> list (string * string)) :
  let outcome :=
    fst (fst (make_request unit unit Qminus (fun _ => Qmake 0 1) (fun _ w => w)
                (answering http_date_response) (answering http_date_response)
                build_url build_query_params
                (init tt None None (Some 30%Z))
                "/engines" None None "GET" None "json" tt)) in
  outcome =
  Raise (ValueError
           "invalid literal for int() with base 10: 'Wed, 21 Oct 2015 07:28:00 GMT'")
  /\ (forall e, outcome = Raise e -> is_MoexApiError e = false).
Proof.
  cbv zeta.
  assert (H : fst (fst (make_request unit unit Qminus (fun _ => Qmake 0 1) (fun _ w => w)
                (answering http_date_response) (answering http_date_response)
                build_url build_query_params
                (init tt None None (Some 30%Z))
                "/engines" None None "GET" None "json" tt)) =
              Raise (ValueError
           "invalid literal for int() with base 10: 'Wed, 21 Oct 2015 07:28:00 GMT'")).
  { reflexivity. }
  split; [exact H |]. intros e He. rewrite H in He. inversion He. reflexivity.
Qed.

(** ** The batch over tickers *)

Section SnapshotFacts.
Context {cell : Type}.
Variable nan : cell.
Variable str_cell : string -> cell.
Variable world : Type.
Variable get_market_data :
  string -> string -> string -> string -> world -> result (@DataFrame cell) * world.

Lemma fetch_tickers_spec (tickers : list string) (board engine market : string) :
  forall all_data out w,
    (forall e out' w',
        fetch_tickers str_cell world get_market_data tickers board engine market
          all_data out w = (Raise e, out', w') ->
        is_MoexApiError e = false) /\
    (only_api_errors (attempts world get_market_data tickers board engine market w) = true ->
     exists out' w',
       fetch_tickers str_cell world get_market_data tickers board engine market
         all_data out w =
       (Ok (all_data ++ flat_map (with_ticker str_cell) (attempts world get_market_data tickers board engine market w)),
        out', w')).
Proof.
  induction tickers as [| ticker rest IH]; intros all_data out w; simpl.
  - split; [intros e out' w' H; discriminate |].
    intros _. exists out, w. rewrite app_nil_r. reflexivity.
  - destruct (get_market_data ticker engine market board w) as [[df | e] w1]; simpl.
    + destruct (IH (all_data ++ [setitem_scalar df "TICKER" (str_cell ticker)]) out w1)
        as [Hraise Hok].
      split; [exact Hraise |]. intros Hall.
      destruct (Hok Hall) as (out' & w' & Hrun). exists out', w'.
      rewrite Hrun. unfold with_ticker at 2. simpl. rewrite <- app_assoc. reflexivity.
    + destruct (is_MoexApiError e) eqn:He; simpl.
      * destruct (IH all_data
                    (out ++ [("Error fetching data for " ++ ticker ++ ": " ++ exn_str e)%string])
                    w1) as [Hraise Hok].
        split; [exact Hraise |]. intros Hall.
        destruct (Hok Hall) as (out' & w' & Hrun). exists out', w'. exact Hrun.
      * split; [| discriminate]. intros e' out' w' H. inversion H; subst. exact He.
Qed.

Lemma add_label_keeps (acc : list string) (x c : string) :
  In c acc -> In c (add_label acc x).
Proof.
  intros H. unfold add_label. destruct (existsb (String.eqb x) acc); [exact H |].
  apply in_or_app. left. exact H.
Qed.

Lemma add_label_adds (acc : list string) (c : string) : In c (add_label acc c).
Proof.
  unfold add_label. destruct (existsb (String.eqb c) acc) eqn:E.
  - apply existsb_exists in E. destruct E as (x & Hin & Heq).
    apply String.eqb_eq in Heq. subst x. exact Hin.
  - apply in_or_app. right. left. reflexivity.
Qed.

Lemma fold_add_label_keeps (l acc : list string) (c : string) :
  In c acc -> In c (fold_left add_label l acc).
Proof.
  revert acc. induction l as [| x l IH]; simpl; intros acc H; [exact H |].
  apply IH. apply add_label_keeps. exact H.
Qed.

Lemma fold_add_label_adds (l acc : list string) (c : string) :
  In c l -> In c (fold_left add_label l acc).
Proof.
  revert acc. induction l as [| x l IH]; simpl; intros acc H; [destruct H |].
  destruct H as [-> | H].
  - apply fold_add_label_keeps. apply add_label_adds.
  - apply IH. exact H.
Qed.

Lemma union_columns_has (frames : list (@DataFrame cell)) (df : @DataFrame cell)
    (c : string) :
  In df frames -> In c (map fst (df_columns df)) -> In c (union_columns frames).
Proof.
  unfold union_columns. generalize (@nil string) as acc.
  induction frames as [| df0 frames IH]; simpl; intros acc Hin Hc; [destruct Hin |].
  destruct Hin as [-> | Hin].
  - clear IH. generalize (fold_add_label_adds (map fst (df_columns df)) acc c Hc).
    generalize (fold_left add_label (map fst (df_columns df)) acc) as acc'.
    induction frames as [| df1 frames IH]; simpl; intros acc' H; [exact H |].
    apply IH. apply fold_add_label_keeps. exact H.
  - apply IH; assumption.
Qed.

Lemma sget_in_keys {V : Type} (d : list (string * V)) (k : string) (v : V) :
  sget d k = Some v -> In k (map fst d).
Proof.
  unfold sget. induction d as [| [k0 v0] d IH]; simpl; intros H; [discriminate |].
  destruct (String.eqb k0 k) eqn:E.
  - left. apply String.eqb_eq. exact E.
  - right. apply IH. exact H.
Qed.

Lemma sget_tabulate {V : Type} (f : string -> V) (l : list string) (k : string) :
  In k l -> sget (map (fun c => (c, f c)) l) k = Some (f k).
Proof.
  unfold sget. induction l as [| c l IH]; simpl; intros H; [destruct H |].
  destruct (String.eqb c k) eqn:E.
  - apply String.eqb_eq in E. subst c. reflexivity.
  - apply IH. destruct H as [-> | H]; [| exact H].
    rewrite String.eqb_refl in E. discriminate.
Qed.

(** A column of one of the frames is a stretch of the column of that name in
    the concatenation, after the columns of the frames before it. *)
Lemma pd_concat_at (l1 l2 : list (@DataFrame cell)) (df : @DataFrame cell)
    (col : string) (cells : list cell) :
  sget (df_columns df) col = Some cells ->
  exists frame,
    pd_concat nan (l1 ++ df :: l2) = Ok frame /\
    df_index frame =
    RangeIndex (fold_right Nat.add 0%nat (map nrows (l1 ++ df :: l2))) /\
    sget (df_columns frame) col =
    Some (flat_map (column_or_nan nan col) l1 ++ cells
          ++ flat_map (column_or_nan nan col) l2).
Proof.
  intros Hcol.
  exists (mkDataFrame
            (map (fun c => (c, flat_map (column_or_nan nan c) (l1 ++ df :: l2)))
                 (union_columns (l1 ++ df :: l2)))
            (RangeIndex (fold_right Nat.add 0%nat (map nrows (l1 ++ df :: l2))))).
  split; [| split].
  - unfold pd_concat. destruct l1; reflexivity.
  - reflexivity.
  - simpl.
    rewrite (sget_tabulate (fun c => flat_map (column_or_nan nan c) (l1 ++ df :: l2))).
    + rewrite flat_map_app. simpl.
      unfold column_or_nan at 2. rewrite Hcol. reflexivity.
    + apply (union_columns_has (l1 ++ df :: l2) df col).
      * apply in_or_app. right. left. reflexivity.
      * apply (sget_in_keys _ _ _ Hcol).
Qed.

Lemma sget_entry {V : Type} (d : list (string * V)) (k : string) (v : V) :
  sget d k = Some v -> In (k, v) d.
Proof.
  unfold sget. induction d as [| [k0 v0] d IH]; simpl; intros H; [discriminate |].
  destruct (String.eqb k0 k) eqn:E.
  - apply String.eqb_eq in E. inversion H; subst. left. reflexivity.
  - right. apply IH. exact H.
Qed.

Lemma Forall_sset {V : Type} (P : string * V -> Prop) (d : list (string * V))
    (k : string) (v : V) :
  Forall P d -> (forall k', P (k', v)) -> Forall P (sset d k v).
Proof.
  unfold sset. intros Hd Hv. induction Hd as [| [k0 v0] d H0 Hd IH]; simpl.
  - constructor; [apply Hv | constructor].
  - destruct (String.eqb k0 k); constructor; try assumption. apply Hv.
Qed.

Lemma rectangular_setitem (df : @DataFrame cell) (col : string) (value : cell) :
  rectangular df -> rectangular (setitem_scalar df col value).
Proof.
  unfold rectangular, setitem_scalar. intros H.
  change (nrows (mkDataFrame _ (df_index df))) with (nrows df).
  apply Forall_sset; [exact H |]. intros k'. apply repeat_length.
Qed.

Lemma column_or_nan_length (col : string) (df : @DataFrame cell) :
  rectangular df -> List.length (column_or_nan nan col df) = nrows df.
Proof.
  unfold rectangular, column_or_nan. intros H.
  destruct (sget (df_columns df) col) as [series |] eqn:E.
  - apply sget_entry in E. rewrite Forall_forall in H. apply (H _ E).
  - apply repeat_length.
Qed.

Lemma flat_map_column_length (col : string) (frames : list (@DataFrame cell)) :
  Forall rectangular frames ->
  List.length (flat_map (column_or_nan nan col) frames) =
  fold_right Nat.add 0%nat (map nrows frames).
Proof.
  induction 1 as [| df frames Hdf _ IH]; simpl; [reflexivity |].
  rewrite length_app, column_or_nan_length by exact Hdf. rewrite IH. reflexivity.
Qed.

Lemma rows_fetched_frames (atts : list (string * result (@DataFrame cell))) :
  fold_right Nat.add 0%nat (map nrows (flat_map (with_ticker str_cell) atts)) =
  rows_fetched atts.
Proof.
  induction atts as [| [ticker [df | e]] atts IH]; simpl; [reflexivity | |];
    rewrite IH; reflexivity.
Qed.

Lemma with_ticker_rectangular (atts : list (string * result (@DataFrame cell))) :
  (forall ticker df, In (ticker, Ok df) atts -> rectangular df) ->
  Forall rectangular (flat_map (with_ticker str_cell) atts).
Proof.
  intros H. apply Forall_forall. intros df Hin.
  apply in_flat_map in Hin. destruct Hin as ([ticker [df0 | e]] & Hin & Hdf);
    simpl in Hdf; [| destruct Hdf].
  destruct Hdf as [<- | []]. apply rectangular_setitem. apply (H ticker). exact Hin.
Qed.

(** C9. [get_market_data_snapshot] lets no [MoexApiError] of a ticker reach
    its caller. When the calls raise nothing else it returns a frame that has
    the rows of the frames of the tickers that succeeded. When no ticker
    succeeded it is the frame without rows whose columns are [TICKER], [LAST],
    [CHANGE], [VOLTODAY], [OPEN], [LOW] and [HIGH]. Otherwise the rows of the
    frame of a ticker that succeeded come after the rows of the tickers that
    succeeded before it, at the same place in every column: there the
    [TICKER] column holds the ticker, and every other column of the frame of
    the ticker holds its cells. *)
Theorem get_market_data_snapshot_skips_failures (tickers : list string)
    (board engine market : string) (w : world) :
  let atts := attempts world get_market_data tickers board engine market w in
  let run :=
    get_market_data_snapshot nan str_cell world get_market_data tickers board
      engine market w in
  (forall e out w', run = (Raise e, out, w') -> is_MoexApiError e = false) /\
  (only_api_errors atts = true ->
   exists frame out w',
     run = (Ok frame, out, w') /\
     nrows frame = rows_fetched atts /\
     ((forall ticker df, ~ In (ticker, Ok df) atts) ->
      df_columns frame =
      [("TICKER", []); ("LAST", []); ("CHANGE", []); ("VOLTODAY", []);
       ("OPEN", []); ("LOW", []); ("HIGH", [])]%string /\
      df_index frame = RangeIndex 0) /\
     ((forall ticker df, In (ticker, Ok df) atts -> rectangular df) ->
      forall earlier ticker df later,
        atts = earlier ++ (ticker, Ok df) :: later ->
        (exists before after,
            sget (df_columns frame) "TICKER" =
            Some (before ++ repeat (str_cell ticker) (nrows df) ++ after) /\
            List.length before = rows_fetched earlier) /\
        (forall col cells,
            col <> "TICKER"%string -> sget (df_columns df) col = Some cells ->
            exists before after,
              sget (df_columns frame) col = Some (before ++ cells ++ after) /\
              List.length before = rows_fetched earlier /\
              List.length cells = nrows df))).
Proof.
  cbv zeta. unfold get_market_data_snapshot.
  destruct (fetch_tickers_spec tickers board engine market [] [] w) as [Hraise Hok].
  split.
  - intros e out w' H.
    destruct (fetch_tickers _ _ _ _ _ _ _ _ _ _) as [[[all_data | e0] out0] w0] eqn:E.
    + destruct all_data; [discriminate |]. simpl in H. discriminate.
    + inversion H; subst. apply (Hraise e out w' eq_refl).
  - intros Hall. destruct (Hok Hall) as (out & w' & Hrun). rewrite Hrun. simpl.
    clear Hraise Hok Hall Hrun.
    generalize (attempts world get_market_data tickers board engine market w).
    intros atts.
    pose proof (rows_fetched_frames atts) as Hrows.
    assert (Hmember : forall ticker df,
               In (ticker, Ok df) atts ->
               In (setitem_scalar df "TICKER" (str_cell ticker))
                  (flat_map (with_ticker str_cell) atts)).
    { intros ticker df Hin. apply in_flat_map. exists (ticker, Ok df).
      split; [exact Hin | left; reflexivity]. }
    assert (Hsplit : forall earlier ticker df later,
               atts = earlier ++ (ticker, Ok df) :: later ->
               flat_map (with_ticker str_cell) atts =
               flat_map (with_ticker str_cell) earlier
               ++ setitem_scalar df "TICKER" (str_cell ticker)
               :: flat_map (with_ticker str_cell) later).
    { intros earlier ticker df later ->. rewrite flat_map_app. reflexivity. }
    destruct (flat_map (with_ticker str_cell) atts) as [| f0 frames'] eqn:Hframes.
    + exists (empty_frame snapshot_columns), out, w'.
      split; [reflexivity |]. split; [exact Hrows |].
      split; [intros _; split; reflexivity |].
      intros _ earlier ticker df later Hatts. exfalso.
      apply (Hmember ticker df). rewrite Hatts. apply in_or_app. right. left.
      reflexivity.
    + exists (mkDataFrame
                (map (fun c => (c, flat_map (column_or_nan nan c) (f0 :: frames')))
                     (union_columns (f0 :: frames')))
                (RangeIndex (fold_right Nat.add 0%nat (map nrows (f0 :: frames'))))),
             out, w'.
      split; [reflexivity |]. split; [exact Hrows |]. split.
      * intros Hnone. exfalso.
        assert (Hin : In f0 (flat_map (with_ticker str_cell) atts))
          by (rewrite Hframes; left; reflexivity).
        apply in_flat_map in Hin. destruct Hin as ([t [df | e]] & Hin & Hdf);
          [apply (Hnone t df Hin) | destruct Hdf].
      * intros Hall_rect earlier ticker df later Hatts.
        pose proof (Hsplit earlier ticker df later Hatts) as Hfr.
        assert (Hearlier : Forall rectangular (flat_map (with_ticker str_cell) earlier)).
        { apply with_ticker_rectangular. intros t0 df0 H0.
          apply (Hall_rect t0 df0). rewrite Hatts. apply in_or_app. left. exact H0. }
        assert (Hlen : forall col,
                   List.length (flat_map (column_or_nan nan col)
                                  (flat_map (with_ticker str_cell) earlier)) =
                   rows_fetched earlier).
        { intros col. rewrite flat_map_column_length by exact Hearlier.
          apply rows_fetched_frames. }
        assert (Hdf : rectangular df).
        { apply (Hall_rect ticker). rewrite Hatts. apply in_or_app. right. left.
          reflexivity. }
        split.
        -- destruct (pd_concat_at (flat_map (with_ticker str_cell) earlier)
                       (flat_map (with_ticker str_cell) later)
                       (setitem_scalar df "TICKER" (str_cell ticker)) "TICKER"
                       (repeat (str_cell ticker) (nrows df)))
             as (frame & Hc & _ & Hget).
           { simpl. apply sget_sset_same. }
           rewrite <- Hfr in Hc. inversion Hc; subst frame.
           eexists _, _. split; [exact Hget | apply Hlen].
        -- intros col cells Hne Hcol.
           destruct (pd_concat_at (flat_map (with_ticker str_cell) earlier)
                       (flat_map (with_ticker str_cell) later)
                       (setitem_scalar df "TICKER" (str_cell ticker)) col cells)
             as (frame & Hc & _ & Hget).
           { simpl. rewrite sget_sset_other by congruence. exact Hcol. }
           rewrite <- Hfr in Hc. inversion Hc; subst frame.
           eexists _, _. split; [exact Hget |]. split; [apply Hlen |].
           unfold rectangular in Hdf. rewrite Forall_forall in Hdf.
           apply (Hdf _ (sget_entry _ _ _ Hcol)).
Qed.
End SnapshotFacts.

(** ** Dates *)

Arguments digit : simpl never.
Arguments digit_val : simpl never.

Local Open Scope Z_scope.

Ltac divmod := Z.div_mod_to_equations; lia.

Lemma digit_cases (k : Z) (P : Z -> Prop) :
  0 <= k <= 9 ->
  P 0 -> P 1 -> P 2 -> P 3 -> P 4 -> P 5 -> P 6 -> P 7 -> P 8 -> P 9 -> P k.
Proof.
  intros Hk.
  assert (H : k = 0 \/ k = 1 \/ k = 2 \/ k = 3 \/ k = 4 \/ k = 5 \/ k = 6 \/
              k = 7 \/ k = 8 \/ k = 9) by lia.
  intuition (subst; assumption).
Qed.

Lemma digit_val_digit (k : Z) : 0 <= k <= 9 -> digit_val (digit k) = Some k.
Proof. intros Hk. pattern k. apply digit_cases; trivial. Qed.

Lemma digit_not_separator (k : Z) (c : ascii) :
  0 <= k <= 9 -> In c ["-"; "."; "/"; " "]%char -> Ascii.eqb (digit k) c = false.
Proof.
  intros Hk Hc. simpl in Hc.
  destruct Hc as [<- | [<- | [<- | [<- | []]]]]; pattern k; apply digit_cases; trivial.
Qed.

Lemma valid_date_bounds (d : date) :
  valid_date d ->
  1 <= year d <= 9999 /\ 1 <= month d <= 12 /\ 1 <= day d <= 31.
Proof.
  unfold valid_date, valid_dateb. intros H.
  repeat (apply andb_prop in H; destruct H as [H ?]).
  repeat match goal with
         | H : (_ <=? _) = true |- _ => apply Z.leb_le in H
         end.
  assert (days_in_month (year d) (month d) <= 31).
  { assert (Hm : month d = 1 \/ month d = 2 \/ month d = 3 \/ month d = 4 \/
                 month d = 5 \/ month d = 6 \/ month d = 7 \/ month d = 8 \/
                 month d = 9 \/ month d = 10 \/ month d = 11 \/ month d = 12) by lia.
    unfold days_in_month.
    destruct Hm as [-> | [-> | [-> | [-> | [-> | [-> | [-> | [-> | [-> | [-> | [-> | ->]]]]]]]]]]];
      try destruct (is_leap (year d)); lia. }
  lia.
Qed.

Lemma digits_val_pad4 (n : Z) : 0 <= n <= 9999 -> digits_val 0 (pad4 n) = Some n.
Proof.
  intros Hn. unfold pad4. cbn [digits_val].
  rewrite !digit_val_digit by divmod. f_equal. divmod.
Qed.

Lemma two_digits_pad (n : Z) :
  0 <= n <= 99 -> two_digits (digit (n / 10)) (digit (n mod 10)) = Some n.
Proof.
  intros Hn. unfold two_digits. rewrite !digit_val_digit by divmod.
  f_equal. divmod.
Qed.

Lemma digits_val_pad2 (n : Z) : 0 <= n <= 99 -> digits_val 0 (pad2 n) = Some n.
Proof.
  intros Hn. unfold pad2. cbn [digits_val].
  rewrite !digit_val_digit by divmod. f_equal. divmod.
Qed.

Lemma field_Y_pad4 (n : Z) : 0 <= n <= 9999 -> field_Y (pad4 n) = Some n.
Proof.
  intros Hn. unfold field_Y. change (len (pad4 n) =? 4) with true. cbv iota.
  apply digits_val_pad4. exact Hn.
Qed.

Lemma digits_field_pad2 (max n : Z) :
  1 <= n <= max -> max <= 99 -> digits_field max (pad2 n) = Some n.
Proof.
  intros Hn Hmax. unfold digits_field.
  change (len (pad2 n)) with 2.
  change ((1 <=? 2) && (2 <=? 2)) with true. cbv iota.
  rewrite digits_val_pad2 by lia.
  replace (1 <=? n) with true by (symmetry; apply Z.leb_le; lia).
  replace (n <=? max) with true by (symmetry; apply Z.leb_le; lia).
  reflexivity.
Qed.

Lemma field_m_pad2 (n : Z) : 1 <= n <= 12 -> field_m (pad2 n) = Some n.
Proof. intros Hn. apply digits_field_pad2; lia. Qed.

Lemma field_d_pad2 (n : Z) : 1 <= n <= 31 -> field_d (pad2 n) = Some n.
Proof.
  intros Hn. unfold field_d, pad2.
  rewrite digit_not_separator by (simpl; tauto || divmod).
  apply (digits_field_pad2 31 n); lia.
Qed.

Lemma field_m_pad4 (n : Z) : field_m (pad4 n) = None.
Proof. reflexivity. Qed.

(** *** Splitting the written dates *)

Lemma split_on_digit (sep : ascii) (k : Z) (s : string) :
  0 <= k <= 9 -> In sep ["-"; "."; "/"; " "]%char ->
  split_on sep (String (digit k) s) =
  match split_on sep s with
  | h :: t => String (digit k) h :: t
  | [] => [String (digit k) EmptyString]
  end.
Proof.
  intros Hk Hsep. cbn [split_on]. rewrite digit_not_separator by assumption.
  reflexivity.
Qed.

Lemma split_on_pad2 (sep : ascii) (n : Z) (s : string) :
  0 <= n <= 99 -> In sep ["-"; "."; "/"; " "]%char ->
  split_on sep (pad2 n ++ s) =
  match split_on sep s with
  | h :: t => (pad2 n ++ h)%string :: t
  | [] => [pad2 n]
  end.
Proof.
  intros Hn Hsep. unfold pad2. cbn [String.append].
  rewrite !split_on_digit by (assumption || divmod).
  destruct (split_on sep s); reflexivity.
Qed.

Lemma split_on_pad4 (sep : ascii) (n : Z) (s : string) :
  0 <= n <= 9999 -> In sep ["-"; "."; "/"; " "]%char ->
  split_on sep (pad4 n ++ s) =
  match split_on sep s with
  | h :: t => (pad4 n ++ h)%string :: t
  | [] => [pad4 n]
  end.
Proof.
  intros Hn Hsep. unfold pad4. cbn [String.append].
  rewrite !split_on_digit by (assumption || divmod).
  destruct (split_on sep s); reflexivity.
Qed.

Lemma append_empty (s : string) : (s ++ "")%string = s.
Proof. induction s as [| c s IH]; simpl; [reflexivity | rewrite IH; reflexivity]. Qed.

Lemma split_on_sep (sep : ascii) (s : string) :
  split_on sep (String sep s) = EmptyString :: split_on sep s.
Proof. cbn [split_on]. rewrite Ascii.eqb_refl. reflexivity. Qed.

Lemma split_on_other (sep c : ascii) (s : string) :
  Ascii.eqb c sep = false ->
  split_on sep (String c s) =
  match split_on sep s with
  | h :: t => String c h :: t
  | [] => [String c EmptyString]
  end.
Proof. intros H. cbn [split_on]. rewrite H. reflexivity. Qed.

Lemma split_on_empty (sep : ascii) : split_on sep "" = [EmptyString].
Proof. reflexivity. Qed.

Lemma split_on_pad2_last (sep : ascii) (n : Z) :
  0 <= n <= 99 -> In sep ["-"; "."; "/"; " "]%char ->
  split_on sep (pad2 n) = [pad2 n].
Proof.
  intros Hn Hsep. unfold pad2. rewrite !split_on_digit by (assumption || divmod).
  reflexivity.
Qed.

Lemma split_on_pad4_last (sep : ascii) (n : Z) :
  0 <= n <= 9999 -> In sep ["-"; "."; "/"; " "]%char ->
  split_on sep (pad4 n) = [pad4 n].
Proof.
  intros Hn Hsep. unfold pad4. rewrite !split_on_digit by (assumption || divmod).
  reflexivity.
Qed.

(** The fields of a date written with a separator between three padded
    numbers, cut at that separator or at another. *)
Ltac split_fields :=
  repeat first
    [ rewrite split_on_pad4 by (lia || (simpl; tauto))
    | rewrite split_on_pad2 by (lia || (simpl; tauto))
    | rewrite split_on_pad4_last by (lia || (simpl; tauto))
    | rewrite split_on_pad2_last by (lia || (simpl; tauto))
    | rewrite split_on_sep
    | rewrite split_on_other by reflexivity
    | rewrite append_empty ].

Lemma new_date_valid (d : date) :
  valid_date d -> new_date (year d) (month d) (day d) = Ok d.
Proof.
  intros Hv. unfold new_date. destruct d as [y m dd]. simpl.
  unfold valid_date in Hv. rewrite Hv. reflexivity.
Qed.

Lemma strptime_render (f : date_format) (d : date) :
  valid_date d -> strptime (render f d) f = Ok (midnight d).
Proof.
  intros Hv. pose proof (valid_date_bounds d Hv) as (Hy & Hm & Hd).
  unfold strptime.
  destruct f; unfold render, format_sep; cbn [String.append];
    split_fields; unfold format_fields;
    rewrite ?field_Y_pad4, ?field_m_pad2, ?field_d_pad2 by lia;
    rewrite new_date_valid by exact Hv; reflexivity.
Qed.

Lemma year_str_pad4 (y : Z) : 1000 <= y -> year_str y = pad4 y.
Proof.
  intros Hy. unfold year_str.
  replace (y <? 10) with false by (symmetry; apply Z.ltb_ge; lia).
  replace (y <? 100) with false by (symmetry; apply Z.ltb_ge; lia).
  replace (y <? 1000) with false by (symmetry; apply Z.ltb_ge; lia).
  reflexivity.
Qed.

(** From the year 1000 on, [strftime] writes the date as [YYYY-MM-DD]. *)
Lemma strftime_ymd_render (d : date) :
  1000 <= year d -> strftime_ymd d = render Fmt_Y_m_d_dash d.
Proof.
  intros Hy. unfold strftime_ymd, render. rewrite year_str_pad4 by exact Hy.
  reflexivity.
Qed.

(** Before the year 1000 the year has fewer than four digits, and
    [strptime] does not take the date back under ['%Y-%m-%d']. *)
Lemma strptime_strftime_short (d : date) :
  valid_date d -> year d < 1000 ->
  strptime (strftime_ymd d) Fmt_Y_m_d_dash =
  Raise (ValueError "time data does not match format").
Proof.
  intros Hv Hy. pose proof (valid_date_bounds d Hv) as (Hy' & Hm & Hd).
  unfold strptime, strftime_ymd, year_str, format_sep.
  destruct (year d <? 10) eqn:E1; [| destruct (year d <? 100) eqn:E2;
    [| replace (year d <? 1000) with true by (symmetry; apply Z.ltb_lt; lia)]].
  - apply Z.ltb_lt in E1. cbn [String.append].
    rewrite split_on_digit by (lia || (simpl; tauto)).
    split_fields. reflexivity.
  - apply Z.ltb_lt in E2. cbn [String.append]. split_fields. reflexivity.
  - apply Z.ltb_ge in E2. cbn [String.append].
    rewrite split_on_digit by (divmod || (simpl; tauto)).
    rewrite split_on_pad2 by (divmod || (simpl; tauto)).
    split_fields. reflexivity.
Qed.

Lemma strptime_strftime_inv (d : date) (dt : datetime) :
  valid_date d -> strptime (strftime_ymd d) Fmt_Y_m_d_dash = Ok dt ->
  1000 <= year d /\ dt = midnight d.
Proof.
  intros Hv H. destruct (Z_lt_ge_dec (year d) 1000) as [Hy | Hy].
  - rewrite strptime_strftime_short in H by assumption. discriminate.
  - split; [lia |]. rewrite strftime_ymd_render in H by lia.
    rewrite strptime_render in H by exact Hv. inversion H. reflexivity.
Qed.

Lemma strftime_ymd_length (d : date) :
  valid_date d -> String.length (strftime_ymd d) = 10%nat -> 1000 <= year d.
Proof.
  intros Hv H. destruct (Z_lt_ge_dec (year d) 1000) as [Hy | Hy]; [| lia].
  exfalso. revert H. unfold strftime_ymd, year_str.
  destruct (year d <? 10); [discriminate |].
  destruct (year d <? 100); [discriminate |].
  replace (year d <? 1000) with true by (symmetry; apply Z.ltb_lt; lia).
  discriminate.
Qed.

Lemma fromisoformat_render (d : date) :
  valid_date d -> fromisoformat (render Fmt_Y_m_d_dash d) = Ok (midnight d).
Proof.
  intros Hv. pose proof (valid_date_bounds d Hv) as (Hy & Hm & Hd).
  unfold fromisoformat, render. unfold pad4 at 1. unfold pad2 at 1 2.
  cbn [String.append].
  change (String (digit (year d / 1000)) _) with (pad4 (year d)) at 1.
  rewrite digits_val_pad4, !two_digits_pad by lia.
  cbn [Ascii.eqb Bool.eqb andb]. cbv iota.
  rewrite new_date_valid by exact Hv. reflexivity.
Qed.

Lemma parse_isoformat_time_date (d : date) (tstr : string) (dt : datetime) :
  parse_isoformat_time d tstr = Some dt -> dt_date dt = d.
Proof.
  unfold parse_isoformat_time. destruct (split_offset tstr) as [t o].
  destruct (parse_hh_mm_ss_ff t) as [[[[h m] s] us] |]; [| discriminate].
  destruct (parse_offset o) as [off |]; [| discriminate].
  destruct ((h <? 24) && (m <? 60) && (s <? 60)); [| discriminate].
  intros H. inversion H. reflexivity.
Qed.


Lemma digit_val_separator (c : ascii) :
  In c ["-"; "."; "/"; " "]%char -> digit_val c = None.
Proof. simpl. intros [<- | [<- | [<- | [<- | []]]]]; reflexivity. Qed.

(** [fromisoformat] refuses a date written in one of the other formats. *)
Lemma fromisoformat_render_other (f : date_format) (d : date) :
  valid_date d -> f <> Fmt_Y_m_d_dash ->
  fromisoformat (render f d) = invalid_isoformat (render f d).
Proof.
  intros Hv Hf. pose proof (valid_date_bounds d Hv) as (Hy & Hm & Hd).
  destruct f; [congruence | | |]; unfold fromisoformat at 1;
    unfold render at 1; unfold pad4 at 1; unfold pad2 at 1 2;
    cbn [String.append digits_val]; unfold two_digits;
    rewrite ?digit_val_digit by divmod;
    rewrite ?(digit_val_separator "."), ?(digit_val_separator "/") by (simpl; tauto);
    rewrite ?digit_val_digit by divmod;
    try reflexivity.
Qed.

Lemma strptime_raises (s : string) (f : date_format) (e : exn) :
  strptime s f = Raise e -> is_ValueError e = true.
Proof.
  unfold strptime, new_date.
  destruct (split_on (format_sep f) s) as [| a [| b [| c [| ? ?]]]];
    try (intros H; inversion H; reflexivity).
  destruct (format_fields f a b c) as [[[y m] d] |];
    [| intros H; inversion H; reflexivity].
  destruct (valid_dateb (mkdate y m d)); simpl; intros H; inversion H; reflexivity.
Qed.

(** The formats tried before the one a date is written in do not match. *)
Lemma strptime_render_earlier (f g : date_format) (d : date) :
  valid_date d ->
  In (g, f) [(Fmt_Y_m_d_dash, Fmt_d_m_Y_dot);
             (Fmt_Y_m_d_dash, Fmt_m_d_Y_slash); (Fmt_d_m_Y_dot, Fmt_m_d_Y_slash);
             (Fmt_Y_m_d_dash, Fmt_Y_m_d_slash); (Fmt_d_m_Y_dot, Fmt_Y_m_d_slash);
             (Fmt_m_d_Y_slash, Fmt_Y_m_d_slash)] ->
  raises (strptime (render f d) g) = true.
Proof.
  intros Hv Hin. pose proof (valid_date_bounds d Hv) as (Hy & Hm & Hd).
  simpl in Hin.
  destruct Hin as [H | [H | [H | [H | [H | [H | []]]]]]]; inversion H; subst;
    unfold strptime, render, format_sep; cbn [String.append];
    split_fields; try reflexivity.
Qed.

Lemma try_except_raises {A : Type} (c : result A) (handled : exn -> bool)
    (h : exn -> result A) :
  raises c = true -> (forall e, c = Raise e -> handled e = true) ->
  exists e, c = Raise e /\ try_except c handled h = h e.
Proof.
  intros Hr Hh. destruct c as [a | e]; [discriminate |].
  exists e. split; [reflexivity |]. simpl. rewrite (Hh e eq_refl). reflexivity.
Qed.

Lemma try_formats_render (f : date_format) (d : date) :
  valid_date d -> try_formats (render f d) date_formats = Ok (midnight d).
Proof.
  intros Hv. unfold date_formats.
  assert (Hskip : forall g rest,
             raises (strptime (render f d) g) = true ->
             try_formats (render f d) (g :: rest) = try_formats (render f d) rest).
  { intros g rest Hr. cbn [try_formats].
    destruct (try_except_raises (strptime (render f d) g) is_ValueError
                (fun _ => try_formats (render f d) rest) Hr) as (e & _ & ->);
      [intros e He; apply (strptime_raises _ _ _ He) | reflexivity]. }
  assert (Hhit : forall rest,
             try_formats (render f d) (f :: rest) = Ok (midnight d)).
  { intros rest. cbn [try_formats]. rewrite strptime_render by exact Hv. reflexivity. }
  destruct f.
  - apply Hhit.
  - rewrite Hskip by (apply strptime_render_earlier; simpl; tauto). apply Hhit.
  - rewrite !Hskip by (apply strptime_render_earlier; simpl; tauto). apply Hhit.
  - rewrite !Hskip by (apply strptime_render_earlier; simpl; tauto). apply Hhit.
Qed.

Lemma format_date_render (f : date_format) (d : date) :
  valid_date d -> format_date (DStr (render f d)) = Ok (strftime_ymd d).
Proof.
  intros Hv. unfold format_date.
  destruct f.
  - rewrite fromisoformat_render by exact Hv. reflexivity.
  - rewrite fromisoformat_render_other by (exact Hv || discriminate).
    unfold invalid_isoformat. cbn [try_except is_ValueError].
    rewrite try_formats_render by exact Hv. reflexivity.
  - rewrite fromisoformat_render_other by (exact Hv || discriminate).
    unfold invalid_isoformat. cbn [try_except is_ValueError].
    rewrite try_formats_render by exact Hv. reflexivity.
  - rewrite fromisoformat_render_other by (exact Hv || discriminate).
    unfold invalid_isoformat. cbn [try_except is_ValueError].
    rewrite try_formats_render by exact Hv. reflexivity.
Qed.



(** *** The dates [format_date] returns *)

Lemma new_date_is_valid (y m d : Z) (r : date) :
  new_date y m d = Ok r -> valid_date r.
Proof.
  unfold new_date. destruct (valid_dateb (mkdate y m d)) eqn:E; [| discriminate].
  intros H. inversion H; subst. exact E.
Qed.

Lemma strptime_is_valid (s : string) (f : date_format) (dt : datetime) :
  strptime s f = Ok dt -> valid_date (dt_date dt).
Proof.
  unfold strptime.
  destruct (split_on (format_sep f) s) as [| a [| b [| c [| ? ?]]]]; try discriminate.
  destruct (format_fields f a b c) as [[[y m] d] |]; [| discriminate].
  destruct (new_date y m d) as [r |] eqn:E; [| discriminate].
  simpl. intros H. inversion H; subst. simpl. apply (new_date_is_valid _ _ _ _ E).
Qed.

Lemma try_formats_is_valid (s : string) (fmts : list date_format) (dt : datetime) :
  try_formats s fmts = Ok dt -> valid_date (dt_date dt).
Proof.
  induction fmts as [| f fmts IH]; simpl; [discriminate |].
  destruct (strptime s f) as [dt' | e] eqn:E; simpl.
  - intros H. inversion H; subst. apply (strptime_is_valid _ _ _ E).
  - destruct (is_ValueError e); [exact IH | discriminate].
Qed.

Lemma fromisoformat_is_valid (s : string) (dt : datetime) :
  fromisoformat s = Ok dt -> valid_date (dt_date dt).
Proof.
  unfold fromisoformat, invalid_isoformat.
  do 10 (destruct s as [| ? s]; [discriminate |]).
  destruct (digits_val 0 _) as [y |]; [| discriminate].
  destruct (two_digits _ _) as [m |]; [| discriminate].
  destruct (two_digits _ _) as [d |]; [| discriminate].
  destruct (_ && _); [| discriminate].
  destruct (new_date y m d) as [r |] eqn:E; [| discriminate].
  apply new_date_is_valid in E. simpl.
  destruct s as [| c tstr].
  - intros H. inversion H; subst. exact E.
  - destruct (parse_isoformat_time r tstr) as [dt' |] eqn:Et; [| discriminate].
    intros H. inversion H; subst.
    rewrite (parse_isoformat_time_date _ _ _ Et). exact E.
Qed.

(** Whatever [format_date] returns is a calendar date written as
    [YYYY-MM-DD]. *)
Lemma format_date_is_date (v : date_value) (s : string) :
  valid_value v -> format_date v = Ok s ->
  exists d, valid_date d /\ s = strftime_ymd d.
Proof.
  destruct v as [str | d | dt | tn]; unfold format_date, valid_value; intros Hv H.
  - destruct (fromisoformat str) as [dt | e] eqn:E; cbn [bind try_except] in H.
    + inversion H; subst. exists (dt_date dt).
      split; [apply (fromisoformat_is_valid _ _ E) | reflexivity].
    + destruct (is_ValueError e); [| discriminate].
      destruct (try_formats str date_formats) as [dt | e'] eqn:E';
        cbn [bind try_except] in H; [| discriminate].
      inversion H; subst. exists (dt_date dt).
      split; [apply (try_formats_is_valid _ _ _ E') | reflexivity].
  - inversion H; subst. exists d. split; [exact Hv | reflexivity].
  - inversion H; subst. exists (dt_date dt). split; [exact Hv | reflexivity].
  - discriminate.
Qed.

(** What [validate_date_range] does once [format_date] has given both dates
    in the form [YYYY-MM-DD], as it does from the year 1000 on. *)
Lemma validate_date_range_run (today : date) (start_date : date_value)
    (end_date : option date_value) (max_interval_days : option Z) (ds de : date) :
  valid_date ds -> valid_date de ->
  format_date start_date = Ok (render Fmt_Y_m_d_dash ds) ->
  format_date (match end_date with Some e => e | None => DDate today end)
    = Ok (render Fmt_Y_m_d_dash de) ->
  validate_date_range today (Some start_date) end_date max_interval_days =
  if date_gtb ds de then
    Raise (ValueError (start_after_end_message (render Fmt_Y_m_d_dash ds)
                         (render Fmt_Y_m_d_dash de)))
  else
    match max_interval_days with
    | Some max_days =>
        if toordinal de - toordinal ds >? max_days then
          Raise (ValueError
                   (exceeds_message max_days (toordinal de - toordinal ds)
                      (render Fmt_Y_m_d_dash ds) (render Fmt_Y_m_d_dash de)))
        else Ok (render Fmt_Y_m_d_dash ds, render Fmt_Y_m_d_dash de)
    | None => Ok (render Fmt_Y_m_d_dash ds, render Fmt_Y_m_d_dash de)
    end.
Proof.
  intros Hds Hde Hs He.
  unfold validate_date_range. rewrite He. cbn [bind]. rewrite Hs. cbn [bind].
  rewrite !strptime_render by assumption. reflexivity.
Qed.

(** C8, where the code departs from the claim. The start date [2024-01-01]
    is after the end date [0999-01-01]. [format_date] writes the year 999
    with three digits, ['%Y-%m-%d'] does not take [999-01-01] back, and the
    [ValueError] that [validate_date_range] raises is the one of [strptime]:
    its message is not the one that names both dates and says that the start
    is after the end. *)
Theorem validate_date_range_short_year (today : date)
    (max_interval_days : option Z) :
  format_date (DStr "2024-01-01") = Ok "2024-01-01"%string /\
  format_date (DStr "0999-01-01") = Ok "999-01-01"%string /\
  strptime "2024-01-01" Fmt_Y_m_d_dash = Ok (midnight (mkdate 2024 1 1)) /\
  raises (strptime "999-01-01" Fmt_Y_m_d_dash) = true /\
  exists message,
    validate_date_range today (Some (DStr "2024-01-01")) (Some (DStr "0999-01-01"))
      max_interval_days = Raise (ValueError message) /\
    message <> start_after_end_message "2024-01-01" "999-01-01" /\
    message <> start_after_end_message "2024-01-01" "0999-01-01".
Proof.
  do 4 (split; [reflexivity |]).
  eexists. split; [reflexivity |]. split; discriminate.
Qed.

(** ** The theorems at sample inputs *)

Lemma parse_json_response_well_formed_witness :
  exists res,
    parse_json_response (JDict engines_response) = Ok res /\
    (forall name v, In (name, v) engines_response -> is_data_block v = false ->
                    sget res name = None) /\
    (forall name v cols rows,
        In (name, v) engines_response -> wf_block v cols rows ->
        exists parsed,
          sget res name = Some parsed /\
          List.length parsed = List.length rows /\
          Forall2 (fun parsed_row row =>
                     map fst parsed_row = map JStr cols /\
                     map snd parsed_row = row) parsed rows).
Proof.
  apply parse_json_response_well_formed.
  - simpl. repeat constructor; simpl; intuition discriminate.
  - intros name v [H | [H | []]]; inversion H; subst; intros Hb; [| discriminate].
    exists ["id"; "name"; "title"]%string, [[JStr "stock"; JStr "stock"; JStr "Stock market"]].
    exists engines_block. repeat split.
    + repeat constructor; simpl; intuition discriminate.
    + repeat constructor.
Defined.

Lemma parse_json_response_mismatch_witness :
  exists message dat original_error,
    parse_json_response (JDict short_row_response) =
    Raise (MoexParsingError message dat original_error).
Proof.
  apply (parse_json_response_mismatch short_row_response "engines" short_row_block
           (JList [JStr "id"; JStr "name"; JStr "title"])
           (JList [JList [JStr "stock"; JStr "stock"; JStr "Stock market"];
                   JList [JStr "currency"; JStr "currency"]])
           (JList [JStr "currency"; JStr "currency"])
           [JList [JStr "stock"; JStr "stock"; JStr "Stock market"];
            JList [JStr "currency"; JStr "currency"]]
           2 3).
  - simpl. left. reflexivity.
  - reflexivity.
  - reflexivity.
  - reflexivity.
  - simpl. right. left. reflexivity.
  - reflexivity.
  - reflexivity.
  - lia.
Defined.

Lemma normalize_dataframe_empty_spec_witness :
  normalize_dataframe (fun s => s) (fun s => s) (fun s => s) sample_frame
    None (Some []) None (Some ""%string) = sample_frame.
Proof.
  apply normalize_dataframe_empty_spec; reflexivity.
Defined.


Lemma get_stock_candles_interval_vocabulary_witness :
  get_stock_candles unit Z echo_candles "SBER" "week" None None "TQBR" tt = (Ok 7%Z, tt) /\
  get_stock_candles unit Z echo_candles "SBER" "biweekly" None None "TQBR" tt =
  (Raise (ValueError
            ("Invalid interval: 'biweekly'. Valid intervals are: "
             ++ "min, 1min, 10min, hour, day, week, month, quarter")), tt).
Proof.
  destruct (get_stock_candles_interval_vocabulary unit Z echo_candles "SBER"
              None None "TQBR" tt)
    as (_ & _ & _ & _ & _ & Hweek & _ & _ & Hother).
  split; [exact Hweek |]. apply Hother. simpl. intuition discriminate.
Defined.

Lemma get_market_data_snapshot_skips_failures_witness :
  exists frame out,
    get_market_data_snapshot JNull JStr unit sample_market_data sample_tickers
      "TQBR" "stock" "shares" tt = (Ok frame, out, tt) /\
    nrows frame = 4%nat /\
    (exists before after,
        sget (df_columns frame) "TICKER" =
        Some (before ++ [JStr "GAZP"; JStr "GAZP"] ++ after) /\
        List.length before = 2%nat) /\
    (exists before after,
        sget (df_columns frame) "LAST" = Some (before ++ [JNum 250; JNum 175] ++ after) /\
        List.length before = 2%nat).
Proof.
  destruct (get_market_data_snapshot_skips_failures JNull JStr unit
              sample_market_data sample_tickers "TQBR" "stock" "shares" tt)
    as [_ Hok].
  destruct (Hok eq_refl) as (frame & out & [] & Hrun & Hrows & _ & Hcols).
  exists frame, out. split; [exact Hrun |]. split; [exact Hrows |].
  assert (Hrect : forall ticker df,
             In (ticker, Ok df)
                (attempts unit sample_market_data sample_tickers "TQBR" "stock"
                   "shares" tt) ->
             rectangular df).
  { intros ticker df H. vm_compute in H.
    destruct H as [H | [H | [H | []]]]; inversion H; subst; repeat constructor. }
  destruct (Hcols Hrect
              [("SBER"%string, Ok sample_frame);
               ("BAD"%string,
                Raise (MoexResponseError "API returned error response: 404"
                         (Some 404%Z) None))]
              "GAZP"%string sample_frame [] eq_refl) as [Hticker Hcol].
  split; [exact Hticker |].
  destruct (Hcol "LAST"%string [JNum 250; JNum 175]) as (before & after & Hget & Hlen & _);
    [discriminate | reflexivity |].
  exists before, after. split; [exact Hget | exact Hlen].
Defined.

(** ** Runs *)

Example parse_engines :
  parse_json_response (JDict engines_response) =
  Ok [("engines"%string,
       [[(JStr "id", JStr "stock"); (JStr "name", JStr "stock");
         (JStr "title", JStr "Stock market")]])].
Proof. reflexivity. Qed.

Example parse_short_row :
  parse_json_response (JDict short_row_response) =
  Raise (MoexParsingError
           "Column count mismatch in block 'engines': 3 columns defined but row has 2 values"
           None None).
Proof. reflexivity. Qed.

Example parse_wraps_type_error :
  parse_json_response (JDict [("engines"%string,
                               JDict [("columns"%string, JNum 3);
                                      ("data"%string, JList [JList []])])]) =
  Raise (MoexParsingError "Failed to parse API response"
           (Some (JDict [("engines"%string,
                          JDict [("columns"%string, JNum 3);
                                 ("data"%string, JList [JList []])])]))
           (Some (TypeError "object of type 'int' has no len()"))).
Proof. reflexivity. Qed.

Example format_date_regional :
  format_date (DStr "10.03.2024") = Ok "2024-03-10"%string /\
  format_date (DStr "03/10/2024") = Ok "2024-03-10"%string /\
  format_date (DStr "2024/3/1") = Ok "2024-03-01"%string /\
  format_date (DStr "2024-03-10T12:30:00+03:00") = Ok "2024-03-10"%string.
Proof. repeat split; reflexivity. Qed.

Example format_date_no_such_day :
  format_date (DStr "2024-02-30") =
  Raise (ValueErrorFrom "Invalid date format: 2024-02-30"
           (ValueError "Could not parse date: 2024-02-30")).
Proof. reflexivity. Qed.

Example validate_date_range_too_long :
  validate_date_range (mkdate 2024 6 1) (Some (DStr "2024-01-01"))
    (Some (DStr "2024-03-10")) (Some 30%Z) =
  Raise (ValueError
           "Date range exceeds maximum interval of 30 days. Requested: 69 days (2024-01-01 to 2024-03-10)").
Proof. reflexivity. Qed.

Example snapshot_run :
  get_market_data_snapshot JNull JStr unit sample_market_data sample_tickers
    "TQBR" "stock" "shares" tt =
  (Ok (mkDataFrame
         [("LAST"%string, [JNum 250; JNum 175; JNum 250; JNum 175]);
          ("VOLTODAY"%string, [JNum 10; JNum 20; JNum 10; JNum 20]);
          ("TICKER"%string, [JStr "SBER"; JStr "SBER"; JStr "GAZP"; JStr "GAZP"])]
         (RangeIndex 4)),
   ["Error fetching data for BAD: API returned error response: 404 (Status code: 404)"%string],
   tt).
Proof. reflexivity. Qed.

Example check_status_retry_after :
  check_status (mkResponse 429 [("retry-after", "120")%string] JNull) =
  Raise (MoexRateLimitError "Rate limit exceeded" (Some 429%Z)
           (Some (mkResponse 429 [("retry-after", "120")%string] JNull)) (Some 120%Z)).
Proof. reflexivity. Qed.

(** * Further properties of the code *)

(** ** The response parser *)

(** X1. On a mapping, [parse_json_response] raises nothing but a
    [MoexParsingError]. *)
Theorem parse_json_response_only_parsing_errors (d : list (string * json))
    (e : exn) :
  parse_json_response (JDict d) = Raise e ->
  exists message data original_error,
    e = MoexParsingError message data original_error.
Proof.
  intros H.
  destruct (parse_json_response_mapping d) as [(res & Hok) | (m & dat & o & Herr)].
  - rewrite Hok in H. discriminate.
  - rewrite Herr in H. inversion H. eauto.
Qed.

Lemma smem_sset {V : Type} (d : list (string * V)) (k k' : string) (v : V) :
  smem (sset d k v) k' = String.eqb k k' || smem d k'.
Proof.
  unfold smem, dict_mem.
  change (dict_get String.eqb (sset d k v) k') with (sget (sset d k v) k').
  change (dict_get String.eqb d k') with (sget d k').
  destruct (String.eqb k k') eqn:E.
  - apply String.eqb_eq in E. subst k'. rewrite sget_sset_same. reflexivity.
  - rewrite sget_sset_other; [reflexivity |].
    intros ->. rewrite String.eqb_refl in E. discriminate.
Qed.

Lemma parse_blocks_keys (items : list (string * json)) :
  forall res res',
    parse_blocks items res = Ok res' ->
    forall name,
      smem res' name = true <->
      (smem res name = true \/
       exists v, In (name, v) items /\ is_data_block v = true).
Proof.
  induction items as [| [name0 v0] items IH]; intros res res' H name.
  - simpl in H. inversion H; subst. split; [tauto |].
    intros [Hm | (v & [] & _)]. exact Hm.
  - assert (Hskip : parse_blocks items res = Ok res' -> is_data_block v0 = false ->
                    smem res' name = true <->
                    (smem res name = true \/
                     exists v, In (name, v) ((name0, v0) :: items) /\
                               is_data_block v = true)).
    { intros Hrun Hno. rewrite (IH _ _ Hrun name). split.
      - intros [Hm | (v & Hin & Hb)]; [left; exact Hm |].
        right. exists v. split; [right; exact Hin | exact Hb].
      - intros [Hm | (v & [Heq | Hin] & Hb)]; [left; exact Hm | |].
        + inversion Heq; subst. congruence.
        + right. exists v. split; assumption. }
    simpl in H. destruct v0 as [| | | | | d]; try (apply Hskip; [exact H | reflexivity]).
    destruct (smem d "columns" && smem d "data") eqn:Hblock;
      [| apply Hskip; [exact H | exact Hblock]].
    destruct (subscript d "columns") as [columns |]; [| discriminate].
    destruct (subscript d "data") as [data |]; [| discriminate].
    simpl in H. destruct (py_iter data) as [rows |]; [| discriminate].
    simpl in H. destruct (parse_rows name0 columns rows []) as [parsed |];
      [| discriminate].
    simpl in H. rewrite (IH _ _ H name), smem_sset. split.
    + intros [Hm | (v & Hin & Hb)].
      * apply orb_prop in Hm. destruct Hm as [Hm | Hm]; [| left; exact Hm].
        apply String.eqb_eq in Hm. subst name0.
        right. exists (JDict d). split; [left; reflexivity | exact Hblock].
      * right. exists v. split; [right; exact Hin | exact Hb].
    + intros [Hm | (v & [Heq | Hin] & Hb)].
      * left. rewrite Hm. apply orb_true_r.
      * inversion Heq; subst. left. rewrite String.eqb_refl. reflexivity.
      * right. exists v. split; assumption.
Qed.

(** X2. When [parse_json_response] returns, the names in its result are the
    names of the entries that are mappings with both [columns] and [data],
    and no others. *)
Theorem parse_json_response_keys (d : list (string * json))
    (res : list (string * list pydict)) (name : string) :
  parse_json_response (JDict d) = Ok res ->
  (smem res name = true <->
   exists v, In (name, v) d /\ is_data_block v = true).
Proof.
  unfold parse_json_response. simpl. intros H.
  destruct (parse_blocks d []) as [res0 | e] eqn:E; simpl in H.
  - inversion H; subst. rewrite (parse_blocks_keys d [] res E name).
    split; [intros [Hm | Hex]; [discriminate | exact Hex] | intros Hex; right; exact Hex].
  - destruct (key_or_type_error e); discriminate.
Qed.

Lemma dict_set_keys_forall {K V : Type} (eqb : K -> K -> bool) (P : K -> Prop)
    (d : list (K * V)) (k : K) (v : V) :
  Forall (fun kv => P (fst kv)) d -> P k ->
  Forall (fun kv => P (fst kv)) (dict_set eqb d k v).
Proof.
  intros Hd Hk. induction Hd as [| [k' v'] rest Hk' Hrest IH]; simpl.
  - constructor; [exact Hk | constructor].
  - destruct (eqb k' k); constructor; assumption.
Qed.

Lemma dict_set_values_forall {K V : Type} (eqb : K -> K -> bool) (P : V -> Prop)
    (d : list (K * V)) (k : K) (v : V) :
  Forall (fun kv => P (snd kv)) d -> P v ->
  Forall (fun kv => P (snd kv)) (dict_set eqb d k v).
Proof.
  intros Hd Hv. induction Hd as [| [k' v'] rest Hv' Hrest IH]; simpl.
  - constructor; [exact Hv | constructor].
  - destruct (eqb k' k); constructor; assumption.
Qed.

Lemma dict_set_distinct (d : pydict) (k v : json) :
  distinct_keys d -> distinct_keys (dict_set key_eqb d k v).
Proof.
  unfold distinct_keys. induction 1 as [| [k' v'] rest Hhead Hrest IH]; simpl.
  - constructor; constructor.
  - destruct (key_eqb k' k) eqn:E.
    + constructor; assumption.
    + constructor; [| exact IH].
      apply (dict_set_keys_forall key_eqb (fun x => key_eqb k' x = false));
        assumption.
Qed.

Lemma dict_of_pairs_keeps_distinct (pairs : list (json * json)) :
  forall acc row,
    distinct_keys acc -> dict_of_pairs acc pairs = Ok row -> distinct_keys row.
Proof.
  induction pairs as [| [k v] pairs IH]; simpl; intros acc row Hacc H.
  - inversion H; subst. exact Hacc.
  - destruct (hashable k); [| discriminate].
    apply (IH _ _ (dict_set_distinct acc k v Hacc) H).
Qed.

Lemma parse_rows_keeps_distinct (block_name : string) (columns : json)
    (data : list json) :
  forall acc rows,
    Forall distinct_keys acc ->
    parse_rows block_name columns data acc = Ok rows ->
    Forall distinct_keys rows.
Proof.
  induction data as [| row data IH]; simpl; intros acc rows Hacc H.
  - inversion H; subst. exact Hacc.
  - destruct (py_len row) as [lr |]; [| discriminate].
    destruct (py_len columns) as [lc |]; [| discriminate]. simpl in H.
    destruct (negb (Nat.eqb lr lc)); [discriminate |].
    destruct (py_iter columns) as [ks |]; [| discriminate].
    destruct (py_iter row) as [vs |]; [| discriminate]. simpl in H.
    destruct (dict_of_pairs [] (combine ks vs)) as [row_dict |] eqn:E;
      [| discriminate].
    simpl in H. apply (IH (acc ++ [row_dict]) rows); [| exact H].
    apply Forall_app. split; [exact Hacc |].
    constructor; [| constructor].
    apply (dict_of_pairs_keeps_distinct (combine ks vs) [] row_dict);
      [constructor | exact E].
Qed.

Lemma parse_blocks_keeps_distinct (items : list (string * json)) :
  forall res res',
    Forall (fun kv => Forall distinct_keys (snd kv)) res ->
    parse_blocks items res = Ok res' ->
    Forall (fun kv => Forall distinct_keys (snd kv)) res'.
Proof.
  induction items as [| [name0 v0] items IH]; simpl; intros res res' Hres H.
  - inversion H; subst. exact Hres.
  - destruct v0 as [| | | | | d]; try apply (IH _ _ Hres H).
    destruct (smem d "columns" && smem d "data"); [| apply (IH _ _ Hres H)].
    destruct (subscript d "columns") as [columns |]; [| discriminate].
    destruct (subscript d "data") as [data |]; [| discriminate]. simpl in H.
    destruct (py_iter data) as [rows |]; [| discriminate]. simpl in H.
    destruct (parse_rows name0 columns rows []) as [parsed |] eqn:E;
      [| discriminate].
    simpl in H. apply (IH (sset res name0 parsed) res'); [| exact H].
    apply (dict_set_values_forall String.eqb (Forall distinct_keys));
      [exact Hres |].
    apply (parse_rows_keeps_distinct name0 columns rows [] parsed); [constructor | exact E].
Qed.

Lemma sget_in {V : Type} (d : list (string * V)) (k : string) (v : V) :
  sget d k = Some v -> exists k', In (k', v) d.
Proof.
  unfold sget. induction d as [| [k0 v0] d IH]; simpl; intros H; [discriminate |].
  destruct (String.eqb k0 k).
  - inversion H; subst. exists k0. left. reflexivity.
  - destruct (IH H) as (k' & Hin). exists k'. right. exact Hin.
Qed.

(** X3. In every row [parse_json_response] returns, no two keys are equal
    in the sense of [==]: a column name that occurs twice in [columns] is
    one key of the row. *)
Theorem parse_json_response_distinct_keys (d : list (string * json))
    (res : list (string * list pydict)) (name : string)
    (rows : list pydict) (row : pydict) :
  parse_json_response (JDict d) = Ok res ->
  sget res name = Some rows -> In row rows ->
  distinct_keys row.
Proof.
  unfold parse_json_response. simpl. intros H Hget Hin.
  destruct (parse_blocks d []) as [res0 | e] eqn:E; simpl in H;
    [| destruct (key_or_type_error e); discriminate].
  inversion H; subst.
  pose proof (parse_blocks_keeps_distinct d [] res (Forall_nil _) E) as Hall.
  destruct (sget_in res name rows Hget) as (k' & Hmem).
  rewrite Forall_forall in Hall. specialize (Hall (k', rows) Hmem). simpl in Hall.
  rewrite Forall_forall in Hall. apply (Hall row Hin).
Qed.

Lemma parse_json_response_distinct_keys_witness :
  distinct_keys [(JStr "id", JStr "currency")].
Proof.
  apply (parse_json_response_distinct_keys repeated_column_response
           [("engines"%string, [[(JStr "id", JStr "currency")]])]
           "engines" [[(JStr "id", JStr "currency")]]).
  - reflexivity.
  - reflexivity.
  - left. reflexivity.
Defined.

Lemma parse_json_response_only_parsing_errors_witness :
  exists message data original_error,
    MoexParsingError
      "Column count mismatch in block 'engines': 3 columns defined but row has 2 values"
      None None = MoexParsingError message data original_error.
Proof.
  apply (parse_json_response_only_parsing_errors short_row_response).
  reflexivity.
Defined.

Lemma parse_json_response_keys_witness :
  smem [("engines"%string,
         [[(JStr "id", JStr "stock"); (JStr "name", JStr "stock");
           (JStr "title", JStr "Stock market")]])] "charsetinfo" = true <->
  exists v, In ("charsetinfo"%string, v) engines_response /\ is_data_block v = true.
Proof.
  apply (parse_json_response_keys engines_response). reflexivity.
Defined.

(** ** The tabular converter *)

Section ToFramesFacts.
Context {cell : Type}.
Variable pd_DataFrame : list pydict -> result (@DataFrame cell).

Lemma convert_blocks_keys (blocks : list (string * list pydict)) :
  forall res res',
    convert_blocks pd_DataFrame blocks res = Ok res' ->
    forall name,
      smem res' name = true <->
      (smem res name = true \/
       exists rows, In (name, rows) blocks /\ rows <> []).
Proof.
  induction blocks as [| [name0 data] blocks IH]; simpl; intros res res' H name.
  - inversion H; subst. split; [tauto |]. intros [Hm | (rows & [] & _)]. exact Hm.
  - destruct data as [| r0 data].
    + rewrite (IH _ _ H name). split.
      * intros [Hm | (rows & Hin & Hne)]; [left; exact Hm |].
        right. exists rows. split; [right; exact Hin | exact Hne].
      * intros [Hm | (rows & [Heq | Hin] & Hne)]; [left; exact Hm | |].
        -- inversion Heq; subst. contradiction.
        -- right. exists rows. split; assumption.
    + destruct (pd_DataFrame (r0 :: data)) as [df |]; [| discriminate].
      simpl in H. rewrite (IH _ _ H name), smem_sset. split.
      * intros [Hm | (rows & Hin & Hne)].
        -- apply orb_prop in Hm. destruct Hm as [Hm | Hm]; [| left; exact Hm].
           apply String.eqb_eq in Hm. subst name0.
           right. exists (r0 :: data). split; [left; reflexivity | discriminate].
        -- right. exists rows. split; [right; exact Hin | exact Hne].
      * intros [Hm | (rows & [Heq | Hin] & Hne)].
        -- left. rewrite Hm. apply orb_true_r.
        -- inversion Heq; subst. left. rewrite String.eqb_refl. reflexivity.
        -- right. exists rows. split; assumption.
Qed.

(** X4. Without a block name, [response_to_dataframe] returns a frame for
    exactly the blocks that have rows: a block without rows is left out. *)
Theorem response_to_dataframe_omits_empty_blocks
    (blocks : list (string * list pydict))
    (dfs : list (string * @DataFrame cell)) (name : string) :
  response_to_dataframe pd_DataFrame (ParsedDict blocks) None = Ok (FrameDict dfs) ->
  (smem dfs name = true <-> exists rows, In (name, rows) blocks /\ rows <> []).
Proof.
  unfold response_to_dataframe. intros H.
  destruct (convert_blocks pd_DataFrame blocks []) as [dfs0 | e] eqn:E;
    simpl in H; [| discriminate].
  inversion H; subst. rewrite (convert_blocks_keys blocks [] dfs E name).
  split; [intros [Hm | Hex]; [discriminate | exact Hex] | intros Hex; right; exact Hex].
Qed.

(** X5. Asked for a block the mapping has not, [response_to_dataframe]
    raises a [MoexParsingError] saying that the conversion failed; the error
    that names the missing block is its [original_error]. *)
Theorem response_to_dataframe_missing_block
    (blocks : list (string * list pydict)) (block_name : string) :
  smem blocks block_name = false ->
  response_to_dataframe pd_DataFrame (ParsedDict blocks) (Some block_name) =
  Raise (MoexParsingError "Failed to convert response to DataFrame" None
           (Some (MoexParsingError
                    ("Block '" ++ block_name ++ "' not found in response")
                    None None))).
Proof.
  intros H. unfold response_to_dataframe. rewrite H. reflexivity.
Qed.

(** X6. Whatever the constructor of frames does, [response_to_dataframe]
    raises nothing but a [MoexParsingError] that holds the error it met. *)
Theorem response_to_dataframe_only_parsing_errors (parsed : parsed_response)
    (block_name : option string) (e : exn) :
  response_to_dataframe pd_DataFrame parsed block_name = Raise e ->
  exists cause,
    e = MoexParsingError "Failed to convert response to DataFrame" None (Some cause).
Proof.
  unfold response_to_dataframe, try_except.
  match goal with
  | |- match ?c with _ => _ end = _ -> _ => destruct c as [fs | cause]
  end.
  - discriminate.
  - intros H. inversion H. exists cause. reflexivity.
Qed.
End ToFramesFacts.

Lemma response_to_dataframe_omits_empty_blocks_witness :
  smem [("engines"%string, mkDataFrame (cell := json) [] (RangeIndex 1))] "markets" = true <->
  exists rows, In ("markets"%string, rows) sample_blocks /\ rows <> [].
Proof.
  apply (response_to_dataframe_omits_empty_blocks frame_of_rows sample_blocks).
  reflexivity.
Defined.

Lemma response_to_dataframe_missing_block_witness :
  response_to_dataframe frame_of_rows (ParsedDict sample_blocks) (Some "boards"%string) =
  Raise (MoexParsingError "Failed to convert response to DataFrame" None
           (Some (MoexParsingError "Block 'boards' not found in response" None None))).
Proof.
  apply (response_to_dataframe_missing_block frame_of_rows sample_blocks "boards").
  reflexivity.
Defined.

Lemma response_to_dataframe_only_parsing_errors_witness :
  exists cause,
    MoexParsingError "Failed to convert response to DataFrame" None
      (Some (MoexParsingError "Block 'boards' not found in response" None None)) =
    MoexParsingError "Failed to convert response to DataFrame" None (Some cause).
Proof.
  apply (response_to_dataframe_only_parsing_errors frame_of_rows
           (ParsedDict sample_blocks) (Some "boards"%string)).
  reflexivity.
Defined.

(** ** The column normalizer *)

Lemma sset_keys_present {V : Type} (d : list (string * V)) (k : string) (v : V) :
  smem d k = true -> map fst (sset d k v) = map fst d.
Proof.
  unfold smem, dict_mem, sset.
  induction d as [| [k0 v0] d IH]; simpl; [discriminate |].
  destruct (String.eqb k0 k); [reflexivity |].
  intros H. simpl. f_equal. apply IH. exact H.
Qed.

Lemma sget_none_not_in {V : Type} (d : list (string * V)) (k : string) :
  sget d k = None -> ~ In k (map fst d).
Proof.
  unfold sget. induction d as [| [k0 v0] d IH]; simpl; intros H Hin; [exact Hin |].
  destruct (String.eqb k0 k) eqn:E; [discriminate |].
  destruct Hin as [Hin | Hin]; [| exact (IH H Hin)].
  subst k0. rewrite String.eqb_refl in E. discriminate.
Qed.

Section NormalizeMore.
Context {cell : Type}.
Variable to_datetime to_numeric astype_category : list cell -> list cell.

Lemma convert_column_labels (f : list cell -> list cell) (df : @DataFrame cell)
    (col : string) :
  map fst (df_columns (convert_column f df col)) = map fst (df_columns df) /\
  df_index (convert_column f df col) = df_index df.
Proof.
  unfold convert_column, has_column.
  destruct (smem (df_columns df) col) eqn:E; [| split; reflexivity].
  destruct (sget (df_columns df) col); [| split; reflexivity].
  simpl. split; [apply sset_keys_present; exact E | reflexivity].
Qed.

Lemma convert_columns_labels (f : list cell -> list cell)
    (cols : option (list string)) (df : @DataFrame cell) :
  map fst (df_columns (convert_columns f cols df)) = map fst (df_columns df) /\
  df_index (convert_columns f cols df) = df_index df.
Proof.
  assert (Hfold : forall l d,
             map fst (df_columns (fold_left (convert_column f) l d)) =
             map fst (df_columns d) /\
             df_index (fold_left (convert_column f) l d) = df_index d).
  { induction l as [| c l IH]; intros d; simpl; [split; reflexivity |].
    destruct (IH (convert_column f d c)) as [H1 H2].
    destruct (convert_column_labels f d c) as [H3 H4].
    split; congruence. }
  unfold convert_columns. destruct cols as [[| c l] |]; try (split; reflexivity).
  apply Hfold.
Qed.

Lemma convert_column_other (f : list cell -> list cell) (df : @DataFrame cell)
    (c col : string) :
  c <> col ->
  sget (df_columns (convert_column f df c)) col = sget (df_columns df) col.
Proof.
  intros Hne. unfold convert_column.
  destruct (has_column df c); [| reflexivity].
  destruct (sget (df_columns df) c); [| reflexivity].
  simpl. apply sget_sset_other. exact Hne.
Qed.

Lemma convert_columns_other (f : list cell -> list cell)
    (cols : option (list string)) (df : @DataFrame cell) (col : string) :
  ~ listed cols col ->
  sget (df_columns (convert_columns f cols df)) col = sget (df_columns df) col.
Proof.
  assert (Hfold : forall l d,
             ~ In col l ->
             sget (df_columns (fold_left (convert_column f) l d)) col =
             sget (df_columns d) col).
  { induction l as [| c l IH]; intros d Hnot; simpl; [reflexivity |].
    rewrite IH by (intros Hin; apply Hnot; right; exact Hin).
    apply convert_column_other. intros ->. apply Hnot. left. reflexivity. }
  unfold convert_columns, listed. destruct cols as [[| c l] |]; try reflexivity.
  apply Hfold.
Qed.

Lemma drop_column_other (cols : list (string * list cell)) (c col : string) :
  c <> col -> sget (drop_column cols c) col = sget cols col.
Proof.
  intros Hne. unfold sget. induction cols as [| [c0 s0] cols IH]; simpl; [reflexivity |].
  destruct (String.eqb c0 c) eqn:E.
  - apply String.eqb_eq in E. subst c0.
    destruct (String.eqb c col) eqn:E'; [| reflexivity].
    apply String.eqb_eq in E'. contradiction.
  - simpl. destruct (String.eqb c0 col); [reflexivity | exact IH].
Qed.

Lemma drop_column_labels (cols : list (string * list cell)) (c : string) :
  map fst (drop_column cols c) = remove_first c (map fst cols).
Proof.
  induction cols as [| [c0 s0] cols IH]; simpl; [reflexivity |].
  destruct (String.eqb c0 c); [reflexivity |]. simpl. f_equal. exact IH.
Qed.

(** X7. [normalize_dataframe] changes no column that is named in none of
    the three lists and is not the index column: its cells stay as they
    are. *)
Theorem normalize_dataframe_untouched_column (df : @DataFrame cell)
    (date_columns numeric_columns categorical_columns : option (list string))
    (index_column : option string) (col : string) :
  ~ listed date_columns col -> ~ listed numeric_columns col ->
  ~ listed categorical_columns col -> index_column <> Some col ->
  sget (df_columns (normalize_dataframe to_datetime to_numeric astype_category df
                      date_columns numeric_columns categorical_columns
                      index_column)) col =
  sget (df_columns df) col.
Proof.
  intros Hd Hn Hc Hi. unfold normalize_dataframe.
  set (converted := convert_columns astype_category categorical_columns
                      (convert_columns to_numeric numeric_columns
                         (convert_columns to_datetime date_columns df))).
  assert (Hconv : sget (df_columns converted) col = sget (df_columns df) col).
  { unfold converted. rewrite !convert_columns_other by assumption. reflexivity. }
  destruct index_column as [[| c name] |]; try exact Hconv.
  destruct (has_column converted (String c name)); [| exact Hconv].
  unfold set_index. destruct (sget (df_columns converted) (String c name));
    [| exact Hconv].
  simpl. rewrite drop_column_other by congruence. exact Hconv.
Qed.

(** X8. A frame keeps its column labels, in order, and its index when
    [normalize_dataframe] is given no index column or one the frame has
    not: the conversions replace cells only. *)
Theorem normalize_dataframe_keeps_labels (df : @DataFrame cell)
    (date_columns numeric_columns categorical_columns : option (list string))
    (index_column : option string) :
  (forall name, index_column = Some name ->
                name = EmptyString \/ has_column df name = false) ->
  let out := normalize_dataframe to_datetime to_numeric astype_category df
               date_columns numeric_columns categorical_columns index_column in
  map fst (df_columns out) = map fst (df_columns df) /\
  df_index out = df_index df.
Proof.
  intros Hi. cbv zeta. unfold normalize_dataframe.
  set (converted := convert_columns astype_category categorical_columns
                      (convert_columns to_numeric numeric_columns
                         (convert_columns to_datetime date_columns df))).
  assert (Hconv : map fst (df_columns converted) = map fst (df_columns df) /\
                  df_index converted = df_index df).
  { unfold converted.
    destruct (convert_columns_labels astype_category categorical_columns
                (convert_columns to_numeric numeric_columns
                   (convert_columns to_datetime date_columns df))) as [A1 A2].
    destruct (convert_columns_labels to_numeric numeric_columns
                (convert_columns to_datetime date_columns df)) as [B1 B2].
    destruct (convert_columns_labels to_datetime date_columns df) as [C1 C2].
    split; congruence. }
  destruct index_column as [[| c name] |]; try exact Hconv.
  destruct (Hi (String c name) eq_refl) as [Hempty | Habsent]; [discriminate |].
  assert (Hsame : has_column converted (String c name) = false).
  { unfold has_column, smem, dict_mem in *.
    change (dict_get String.eqb (df_columns converted) (String c name))
      with (sget (df_columns converted) (String c name)).
    change (dict_get String.eqb (df_columns df) (String c name))
      with (sget (df_columns df) (String c name)) in Habsent.
    destruct (sget (df_columns converted) (String c name)) eqn:E; [| reflexivity].
    apply sget_in_keys in E. destruct Hconv as [Hl _]. rewrite Hl in E.
    destruct (sget (df_columns df) (String c name)) eqn:E'; [discriminate |].
    exfalso. apply (sget_none_not_in _ _ E' E). }
  rewrite Hsame. exact Hconv.
Qed.

(** X9. Given an index column the frame has, [normalize_dataframe] takes it
    out of the columns (the other labels keep their order, the other columns
    their cells) and makes it the index, under its name: the labels of the
    index are the cells of that column as the conversions have left them,
    which are the cells it had when it is named in none of the three
    lists. *)
Theorem normalize_dataframe_sets_index (df : @DataFrame cell)
    (date_columns numeric_columns categorical_columns : option (list string))
    (c : ascii) (name : string) :
  has_column df (String c name) = true ->
  let converted := normalize_dataframe to_datetime to_numeric astype_category df
                     date_columns numeric_columns categorical_columns None in
  let out := normalize_dataframe to_datetime to_numeric astype_category df
               date_columns numeric_columns categorical_columns
               (Some (String c name)) in
  map fst (df_columns out) = remove_first (String c name) (map fst (df_columns df)) /\
  (forall col, col <> String c name ->
               sget (df_columns out) col = sget (df_columns converted) col) /\
  exists series,
    sget (df_columns converted) (String c name) = Some series /\
    df_index out = LabelIndex (String c name) series /\
    (~ listed date_columns (String c name) ->
     ~ listed numeric_columns (String c name) ->
     ~ listed categorical_columns (String c name) ->
     sget (df_columns df) (String c name) = Some series).
Proof.
  intros Hhas. cbv zeta. unfold normalize_dataframe.
  set (converted := convert_columns astype_category categorical_columns
                      (convert_columns to_numeric numeric_columns
                         (convert_columns to_datetime date_columns df))).
  assert (Hlabels : map fst (df_columns converted) = map fst (df_columns df)).
  { unfold converted.
    destruct (convert_columns_labels astype_category categorical_columns
                (convert_columns to_numeric numeric_columns
                   (convert_columns to_datetime date_columns df))) as [A1 _].
    destruct (convert_columns_labels to_numeric numeric_columns
                (convert_columns to_datetime date_columns df)) as [B1 _].
    destruct (convert_columns_labels to_datetime date_columns df) as [C1 _].
    congruence. }
  assert (Hget : exists series, sget (df_columns converted) (String c name) = Some series).
  { unfold has_column, smem, dict_mem in Hhas.
    change (dict_get String.eqb (df_columns df) (String c name))
      with (sget (df_columns df) (String c name)) in Hhas.
    destruct (sget (df_columns df) (String c name)) eqn:E; [| discriminate].
    apply sget_in_keys in E. rewrite <- Hlabels in E.
    destruct (sget (df_columns converted) (String c name)) eqn:E'; [eauto |].
    exfalso. apply (sget_none_not_in _ _ E' E). }
  destruct Hget as (series & Hget).
  unfold has_column, smem, dict_mem, set_index.
  change (dict_get String.eqb (df_columns converted) (String c name))
    with (sget (df_columns converted) (String c name)).
  rewrite Hget. simpl. split; [| split].
  - rewrite drop_column_labels, Hlabels. reflexivity.
  - intros col Hne. apply drop_column_other. congruence.
  - exists series. split; [reflexivity |]. split; [reflexivity |].
    intros Hd Hn Hc. rewrite <- Hget. unfold converted.
    rewrite !convert_columns_other by assumption. reflexivity.
Qed.
End NormalizeMore.

Lemma normalize_dataframe_untouched_column_witness :
  sget (df_columns (normalize_dataframe reversing reversing reversing sample_frame
                      (Some ["VOLTODAY"%string]) None None (Some "SECID"%string)))
    "LAST" = sget (df_columns sample_frame) "LAST".
Proof.
  apply normalize_dataframe_untouched_column; simpl; intuition discriminate.
Defined.

Lemma normalize_dataframe_keeps_labels_witness :
  map fst (df_columns (normalize_dataframe reversing reversing reversing sample_frame
                         (Some ["VOLTODAY"%string]) None None (Some "SECID"%string))) =
  map fst (df_columns sample_frame) /\
  df_index (normalize_dataframe reversing reversing reversing sample_frame
              (Some ["VOLTODAY"%string]) None None (Some "SECID"%string)) =
  df_index sample_frame.
Proof.
  apply (normalize_dataframe_keeps_labels reversing reversing reversing sample_frame).
  intros name H. inversion H; subst. right. reflexivity.
Defined.

Lemma normalize_dataframe_sets_index_witness :
  let out := normalize_dataframe reversing reversing reversing sample_frame
               (Some ["LAST"%string]) None None (Some "LAST"%string) in
  df_columns out = [("VOLTODAY"%string, [JNum 10; JNum 20])] /\
  df_index out = LabelIndex "LAST" [JNum 175; JNum 250].
Proof.
  destruct (normalize_dataframe_sets_index reversing reversing reversing sample_frame
              (Some ["LAST"%string]) None None "L"%char "AST"%string eq_refl)
    as (_ & _ & series & Hget & Hindex & _).
  split; [reflexivity |].
  cbv zeta. rewrite Hindex. f_equal.
  vm_compute in Hget. inversion Hget. reflexivity.
Defined.

(** ** Dates and query parameters *)

Local Open Scope Z_scope.

Lemma fromisoformat_raises (s : string) (e : exn) :
  fromisoformat s = Raise e -> is_ValueError e = true.
Proof.
  unfold fromisoformat, invalid_isoformat, new_date.
  do 10 (destruct s as [| ? s]; [intros H; inversion H; reflexivity |]).
  destruct (digits_val 0 _) as [y |]; [| intros H; inversion H; reflexivity].
  destruct (two_digits _ _) as [m |]; [| intros H; inversion H; reflexivity].
  destruct (two_digits _ _) as [d |]; [| intros H; inversion H; reflexivity].
  destruct (_ && _); [| intros H; inversion H; reflexivity].
  destruct (valid_dateb (mkdate y m d)); simpl;
    [| intros H; inversion H; reflexivity].
  destruct s as [| c tstr]; [discriminate |].
  destruct (parse_isoformat_time _ tstr); [discriminate |].
  intros H; inversion H; reflexivity.
Qed.

Lemma format_date_raises (v : date_value) (e : exn) :
  format_date v = Raise e -> is_ValueError e = true.
Proof.
  destruct v as [s | d | dt | tn]; unfold format_date; try discriminate.
  - destruct (fromisoformat s) as [dt | e0] eqn:E; cbn [try_except bind];
      [discriminate |].
    destruct (is_ValueError e0) eqn:E0.
    + destruct (try_formats s date_formats) as [dt | e1]; cbn [try_except bind];
        [discriminate |].
      intros H. inversion H. reflexivity.
    + apply fromisoformat_raises in E. congruence.
  - intros H. inversion H. reflexivity.
Qed.

(** X10. [format_date] raises nothing but a [ValueError], whatever it is
    given. *)
Theorem format_date_only_value_errors (v : date_value) (e : exn) :
  format_date v = Raise e -> is_ValueError e = true.
Proof. apply format_date_raises. Qed.

(** X11. [format_date] is idempotent on the dates it writes in the ten
    characters of [YYYY-MM-DD], those from the year 1000 on: such a result it
    returns again when given it as a string. *)
Theorem format_date_idempotent (v : date_value) (s : string) :
  valid_value v -> format_date v = Ok s -> String.length s = 10%nat ->
  format_date (DStr s) = Ok s.
Proof.
  intros Hv H Hlen. destruct (format_date_is_date v s Hv H) as (d & Hd & ->).
  pose proof (strftime_ymd_length d Hd Hlen) as Hy.
  rewrite (strftime_ymd_render d Hy).
  rewrite (format_date_render Fmt_Y_m_d_dash d Hd).
  rewrite (strftime_ymd_render d Hy). reflexivity.
Qed.

(** X12. When [validate_date_range] returns for a start date, the two
    strings are calendar dates written as [YYYY-MM-DD], of the year 1000 or
    later, the start is not after the end, and the days between them are no
    more than [max_interval_days] when that is given. *)
Theorem validate_date_range_accepts (today : date) (start_date : date_value)
    (end_date : option date_value) (max_interval_days : option Z)
    (fs fe : string) :
  valid_value start_date -> valid_end today end_date ->
  validate_date_range today (Some start_date) end_date max_interval_days
    = Ok (fs, fe) ->
  exists ds de,
    valid_date ds /\ valid_date de /\
    1000 <= year ds /\ 1000 <= year de /\
    fs = render Fmt_Y_m_d_dash ds /\ fe = render Fmt_Y_m_d_dash de /\
    date_gtb ds de = false /\
    (forall max_days, max_interval_days = Some max_days ->
                      toordinal de - toordinal ds <= max_days).
Proof.
  intros Hs He H. unfold validate_date_range in H.
  destruct (format_date (match end_date with Some e => e | None => DDate today end))
    as [fe0 |] eqn:Ee; cbn [bind] in H; [| discriminate].
  destruct (format_date start_date) as [fs0 |] eqn:Es; cbn [bind] in H;
    [| discriminate].
  assert (Hend : valid_value (match end_date with Some e => e | None => DDate today end)).
  { destruct end_date; exact He. }
  destruct (format_date_is_date _ _ Hend Ee) as (de & Hde & ->).
  destruct (format_date_is_date _ _ Hs Es) as (ds & Hds & ->).
  destruct (strptime (strftime_ymd ds) Fmt_Y_m_d_dash) as [sdt |] eqn:E1;
    cbn [bind] in H; [| discriminate].
  destruct (strptime (strftime_ymd de) Fmt_Y_m_d_dash) as [edt |] eqn:E2;
    cbn [bind] in H; [| discriminate].
  destruct (strptime_strftime_inv ds sdt Hds E1) as [Hys ->].
  destruct (strptime_strftime_inv de edt Hde E2) as [Hye ->].
  cbn [midnight dt_date] in H.
  rewrite (strftime_ymd_render ds Hys), (strftime_ymd_render de Hye) in H.
  exists ds, de.
  destruct (date_gtb ds de); [discriminate |].
  destruct max_interval_days as [k |].
  - destruct (toordinal de - toordinal ds >? k) eqn:Ek; [discriminate |].
    inversion H; subst. repeat split; try assumption.
    intros max_days Hm. inversion Hm; subst.
    rewrite Z.gtb_ltb in Ek. apply Z.ltb_ge in Ek. exact Ek.
  - inversion H; subst. repeat split; try assumption. discriminate.
Qed.

(** X26. When [format_date] gives both dates in the form [YYYY-MM-DD], as
    it does from the year 1000 on, and the start date is after the end date,
    [validate_date_range] raises a [ValueError] whose message names both
    dates and says that the start is after the end; when the days from start
    to end are more than [max_interval_days] it raises a [ValueError] too,
    the one that names the interval when the start is not after the end. *)
Theorem validate_date_range_rejects (today : date)
    (start_date : date_value) (end_date : option date_value)
    (max_interval_days : option Z) (ds de : date) :
  valid_date ds -> valid_date de ->
  format_date start_date = Ok (render Fmt_Y_m_d_dash ds) ->
  format_date (match end_date with Some e => e | None => DDate today end)
    = Ok (render Fmt_Y_m_d_dash de) ->
  (date_gtb ds de = true ->
   validate_date_range today (Some start_date) end_date max_interval_days =
   Raise (ValueError ("Start date (" ++ render Fmt_Y_m_d_dash ds
                      ++ ") is after end date (" ++ render Fmt_Y_m_d_dash de ++ ")"))) /\
  (date_gtb ds de = false ->
   forall max_days,
     max_interval_days = Some max_days ->
     toordinal de - toordinal ds > max_days ->
     validate_date_range today (Some start_date) end_date max_interval_days =
     Raise (ValueError
              (exceeds_message max_days (toordinal de - toordinal ds)
                 (render Fmt_Y_m_d_dash ds) (render Fmt_Y_m_d_dash de)))) /\
  (forall max_days,
      max_interval_days = Some max_days ->
      toordinal de - toordinal ds > max_days ->
      exists message,
        validate_date_range today (Some start_date) end_date max_interval_days =
        Raise (ValueError message)).
Proof.
  intros Hds Hde Hs He.
  pose proof (validate_date_range_run today start_date end_date max_interval_days
                ds de Hds Hde Hs He) as Hrun.
  split; [| split].
  - intros Hgt. rewrite Hrun, Hgt. reflexivity.
  - intros Hgt max_days -> Hex. rewrite Hrun, Hgt.
    replace (toordinal de - toordinal ds >? max_days) with true; [reflexivity |].
    symmetry. apply Z.gtb_lt. lia.
  - intros max_days -> Hex. rewrite Hrun.
    destruct (date_gtb ds de); [eexists; reflexivity |].
    replace (toordinal de - toordinal ds >? max_days) with true;
      [eexists; reflexivity |].
    symmetry. apply Z.gtb_lt. lia.
Qed.

(** X13. [validate_date_range] raises nothing but a [ValueError]. *)
Theorem validate_date_range_only_value_errors (today : date)
    (start_date end_date : option date_value) (max_interval_days : option Z)
    (e : exn) :
  validate_date_range today start_date end_date max_interval_days = Raise e ->
  is_ValueError e = true.
Proof.
  unfold validate_date_range.
  destruct (format_date (match end_date with Some e0 => e0 | None => DDate today end))
    as [fe |] eqn:Ee; cbn [bind];
    [| intros H; inversion H; subst; apply (format_date_raises _ _ Ee)].
  destruct start_date as [s |]; [| discriminate].
  destruct (format_date s) as [fs |] eqn:Es; cbn [bind];
    [| intros H; inversion H; subst; apply (format_date_raises _ _ Es)].
  destruct (strptime fs Fmt_Y_m_d_dash) as [sdt |] eqn:E1; cbn [bind];
    [| intros H; inversion H; subst; apply (strptime_raises _ _ _ E1)].
  destruct (strptime fe Fmt_Y_m_d_dash) as [edt |] eqn:E2; cbn [bind];
    [| intros H; inversion H; subst; apply (strptime_raises _ _ _ E2)].
  destruct (date_gtb (dt_date sdt) (dt_date edt));
    [intros H; inversion H; reflexivity |].
  destruct max_interval_days as [k |]; [| discriminate].
  destruct (toordinal (dt_date edt) - toordinal (dt_date sdt) >? k);
    [intros H; inversion H; reflexivity | discriminate].
Qed.

Local Close Scope Z_scope.

Section QueryParamsFacts.
Variable str_container : json -> string.

Lemma build_query_params_from_other (params : list (string * json)) (k : string) :
  forall res,
    ~ In k (map fst params) ->
    sget (build_query_params_from str_container params res) k = sget res k.
Proof.
  induction params as [| [k0 v0] params IH]; simpl; intros res Hnot; [reflexivity |].
  assert (Hne : k0 <> k) by (intros ->; apply Hnot; left; reflexivity).
  assert (Hrest : ~ In k (map fst params)) by (intros Hin; apply Hnot; right; exact Hin).
  destruct v0; rewrite IH by exact Hrest; try reflexivity;
    apply sget_sset_other; exact Hne.
Qed.

Lemma build_query_params_from_entries (params : list (string * json))
    (k : string) (v : json) :
  forall res,
    NoDup (map fst params) -> In (k, v) params ->
    (forall k', In k' (map fst params) -> sget res k' = None) ->
    sget (build_query_params_from str_container params res) k =
    if is_null v then None else Some (query_value str_container v).
Proof.
  induction params as [| [k0 v0] params IH]; intros res Hnd Hin Hres;
    [destruct Hin |].
  simpl in Hnd. inversion Hnd as [| ? ? Hfresh Hnd']; subst.
  destruct Hin as [Heq | Hin].
  - inversion Heq; subst. simpl.
    destruct v; simpl; rewrite build_query_params_from_other by exact Hfresh;
      try apply sget_sset_same.
    apply Hres. left. reflexivity.
  - assert (Hne : k0 <> k).
    { intros ->. apply Hfresh. change k with (fst (k, v)). apply in_map. exact Hin. }
    assert (Hres' : forall value k', In k' (map fst params) ->
                                     sget (sset res k0 value) k' = None).
    { intros value k' Hk'. rewrite sget_sset_other.
      - apply Hres. right. exact Hk'.
      - intros ->. contradiction. }
    simpl. destruct v0;
      apply IH; try assumption; try apply Hres';
      intros k' Hk'; apply Hres; right; exact Hk'.
Qed.

(** X14. [build_query_params] leaves out every key whose value is [None]
    and keeps every other key, with a list written as its items joined by
    commas, a boolean as [1] or [0] and any other value as [str] writes
    it. *)
Theorem build_query_params_entries (params : list (string * json))
    (k : string) (v : json) :
  NoDup (map fst params) -> In (k, v) params ->
  sget (build_query_params str_container params) k =
  if is_null v then None else Some (query_value str_container v).
Proof.
  intros Hnd Hin. unfold build_query_params.
  apply build_query_params_from_entries; try assumption. reflexivity.
Qed.
End QueryParamsFacts.

(** ** The rate limiter and the request executor *)

Lemma Qminus_positive (a b : Q) : Qlt a b -> Qlt (Qmake 0 1) (Qminus b a).
Proof. intros H. unfold Qminus. apply Qlt_minus_iff in H. exact H. Qed.

Section RequestMore.
Variable world : Type.
Variable Session : Type.
Variable float_sub : Q -> Q -> Q.
Variable time_time : world -> Q.
Variable time_sleep : Q -> world -> world.
Variable session_get session_post :
  Session -> string -> list (string * string) -> option Z -> world ->
  result Response * world.
Variable build_url : string -> string -> list (string * string) -> string.
Variable build_query_params' : list (string * json) -> list (string * string).

(** X15. [_enforce_rate_limit] does nothing when the time since the last
    request, as the subtraction of floats gives it, is [rate_limit] or more.
    When it is less, and [rate_limit] is not zero, it sleeps once, for
    [rate_limit] less that time, and this is a positive time. [is_float]
    tells the rationals that are floats: the difference of two floats is a
    float, and it is positive when a smaller float is taken from a larger
    one, as it is for the floats of the machine. *)
Theorem enforce_rate_limit_sleeps_positive (is_float : Q -> Prop)
    (self : MoexApiClient Session) (w : world) :
  (forall a b, is_float a -> is_float b -> is_float (float_sub a b)) ->
  (forall a b, is_float a -> is_float b -> Qlt a b ->
               Qlt (Qmake 0 1) (float_sub b a)) ->
  is_float (time_time w) -> is_float (last_request_time self) ->
  is_float (rate_limit self) ->
  let elapsed := float_sub (time_time w) (last_request_time self) in
  let after := enforce_rate_limit world Session float_sub time_time time_sleep self w in
  (Qle (rate_limit self) elapsed -> after = w) /\
  (~ Qeq (rate_limit self) (Qmake 0 1) -> Qlt elapsed (rate_limit self) ->
   after = time_sleep (float_sub (rate_limit self) elapsed) w /\
   Qlt (Qmake 0 1) (float_sub (rate_limit self) elapsed)).
Proof.
  intros Hclosed Hpos Hnow Hlast Hrate. cbv zeta.
  unfold enforce_rate_limit, truthy_Q. split.
  - intros Hle. apply Qle_bool_iff in Hle. rewrite Hle.
    destruct (negb (Qeq_bool (rate_limit self) (Qmake 0 1))); reflexivity.
  - intros Hnz Hlt.
    destruct (Qeq_bool (rate_limit self) (Qmake 0 1)) eqn:E.
    + apply Qeq_bool_iff in E. contradiction.
    + simpl.
      destruct (Qle_bool (rate_limit self)
                  (float_sub (time_time w) (last_request_time self))) eqn:El.
      * apply Qle_bool_iff in El. exfalso. apply (Qlt_not_le _ _ Hlt El).
      * simpl. split; [reflexivity |].
        apply Hpos; [apply Hclosed; assumption | exact Hrate | exact Hlt].
Qed.



End RequestMore.

(** X19. The status checks of [_make_request]: a status below 400 gives the
    response; 401 and 403 give a [MoexAuthError]; 429 gives a
    [MoexRateLimitError] with [retry_after] the integer of the [Retry-After]
    header, or 60 without the header; any other status from 400 on gives a
    [MoexResponseError] with the status code. *)
Theorem check_status_mapping (response : Response) :
  ((status_code response < 400)%Z -> check_status response = Ok response) /\
  (status_code response = 401%Z \/ status_code response = 403%Z ->
   check_status response =
   Raise (MoexAuthError "Authentication failed" (Some (status_code response))
            (Some response))) /\
  (forall n, status_code response = 429%Z ->
             py_int (headers_get (headers response) "Retry-After" "60") = Ok n ->
             check_status response =
             Raise (MoexRateLimitError "Rate limit exceeded" (Some 429%Z)
                      (Some response) (Some n))) /\
  (status_code response = 429%Z ->
   dict_get (fun a b => String.eqb (lower a) (lower b)) (headers response)
     "Retry-After" = None ->
   check_status response =
   Raise (MoexRateLimitError "Rate limit exceeded" (Some 429%Z) (Some response)
            (Some 60%Z))) /\
  ((400 <= status_code response)%Z ->
   status_code response <> 429%Z -> status_code response <> 401%Z ->
   status_code response <> 403%Z ->
   check_status response =
   Raise (MoexResponseError
            ("API returned error response: " ++ string_of_Z (status_code response))
            (Some (status_code response)) (Some response))).
Proof.
  split; [apply check_status_success |].
  split; [apply check_status_auth |].
  split; [intros n; apply check_status_rate_limit |].
  split; [apply check_status_rate_limit_default | apply check_status_other_error].
Qed.

(** ** From the request to the frames *)

Lemma format_date_truthy (v : date_value) (s : string) :
  format_date v = Ok s -> truthy_date (Some v) = true.
Proof.
  destruct v as [[| c str] | d | dt | tn]; try reflexivity.
  intros H. vm_compute in H. discriminate.
Qed.

Section PipelineFacts.
Variable world : Type.
Variable Session : Type.
Context {cell : Type}.
Variable float_sub : Q -> Q -> Q.
Variable time_time : world -> Q.
Variable time_sleep : Q -> world -> world.
Variable session_get session_post :
  Session -> string -> list (string * string) -> option Z -> world ->
  result Response * world.
Variable build_url : string -> string -> list (string * string) -> string.
Variable build_query_params' : list (string * json) -> list (string * string).
Variable response_json : Response -> json + string.
Variable response_text : Response -> string.
Variable pd_DataFrame : list pydict -> result (@DataFrame cell).
Variable to_datetime to_numeric astype_category : list cell -> list cell.
Variable date_today : world -> date.

Local Abbreviation run_get_dataframe :=
  (get_dataframe world Session float_sub time_time time_sleep session_get session_post
     build_url build_query_params' response_json response_text pd_DataFrame
     to_datetime to_numeric astype_category).

Local Abbreviation run_get_candles :=
  (get_candles world Session float_sub time_time time_sleep session_get session_post
     build_url build_query_params' response_json response_text pd_DataFrame
     to_datetime to_numeric astype_category date_today).

Lemma normalize_frames_id (fs : @frames cell) :
  normalize_frames to_datetime to_numeric astype_category fs = fs.
Proof.
  destruct fs as [df | dfs]; simpl; [reflexivity |].
  f_equal. induction dfs as [| [name df] dfs IH]; simpl; [reflexivity |].
  rewrite IH. reflexivity.
Qed.

(** X20. The [normalize] flag of [get_dataframe] changes nothing:
    [normalize_dataframe] is called without column lists, so the frames come
    back as [response_to_dataframe] made them. *)
Theorem get_dataframe_normalize_no_effect (self : MoexApiClient Session)
    (endpoint : string) (params : option (list (string * json)))
    (path_params : option (list (string * string))) (method : string)
    (timeout_arg : option Z) (block_name : option string) (w : world) :
  run_get_dataframe self endpoint params path_params method timeout_arg
    block_name true w =
  run_get_dataframe self endpoint params path_params method timeout_arg
    block_name false w.
Proof.
  unfold get_dataframe.
  destruct (get_data _ _ _ _ _ _ _ _ _ _ _ _ _ _ _ _ _) as [[[parsed | e] self'] w'];
    [| reflexivity].
  destruct (response_to_dataframe pd_DataFrame (ParsedDict parsed) block_name);
    [| reflexivity].
  rewrite normalize_frames_id. reflexivity.
Qed.

(** X21. Given a start date after the end date, both of a year that
    [format_date] writes with four digits (1000 or later), [get_candles]
    raises the [ValueError] of [validate_date_range] that names both dates,
    and makes no request: the client and the world are as they were. *)
Theorem get_candles_rejects_bad_range (self : MoexApiClient Session)
    (security_id engine market : string) (interval : Z)
    (start_date end_date : date_value) (board board_group : option string)
    (w : world) (ds de : date) :
  valid_date ds -> valid_date de ->
  format_date start_date = Ok (render Fmt_Y_m_d_dash ds) ->
  format_date end_date = Ok (render Fmt_Y_m_d_dash de) ->
  date_gtb ds de = true ->
  run_get_candles self security_id engine market interval (Some start_date)
    (Some end_date) board board_group w =
  (Raise (ValueError ("Start date (" ++ render Fmt_Y_m_d_dash ds
                      ++ ") is after end date (" ++ render Fmt_Y_m_d_dash de ++ ")")),
   self, w).
Proof.
  intros Hds Hde Hs He Hgt. unfold get_candles.
  rewrite (format_date_truthy _ _ Hs). cbn [orb].
  rewrite (validate_date_range_run (date_today w) start_date (Some end_date) None
             ds de Hds Hde Hs He).
  rewrite Hgt. reflexivity.
Qed.

(** X22. Given an end date and no start date, [get_candles] asks for the one
    day of the end date: [from] and [till] are both the end date. *)
Theorem get_candles_end_date_only (self : MoexApiClient Session)
    (security_id engine market : string) (interval : Z)
    (end_date : date_value) (c : ascii) (board : string)
    (board_group : option string) (w : world) (fe : string) :
  format_date end_date = Ok fe ->
  run_get_candles self security_id engine market interval None (Some end_date)
    (Some (String c board)) board_group w =
  run_get_dataframe self candles_board_endpoint
    (Some [("interval", JNum interval); ("from", JStr fe); ("till", JStr fe)]%string)
    (Some [("engine", engine); ("market", market); ("board", String c board);
           ("security", security_id)]%string)
    "GET" None (Some "candles"%string) true w.
Proof.
  intros He. unfold get_candles.
  rewrite (format_date_truthy _ _ He). cbn [truthy_date orb].
  unfold validate_date_range. rewrite He. reflexivity.
Qed.
End PipelineFacts.

(** ** Candles over several intervals *)

Section MultiTimeframeFacts.
Variable world : Type.
Variable Frame : Type.
Variable get_candles' :
  string -> string -> string -> option string -> Z ->
  option date_value -> option date_value -> world -> result Frame * world.

Lemma get_stock_candles_ok_known (ticker interval : string)
    (start_date end_date : option date_value) (board : string) (w w' : world)
    (candles : Frame) :
  get_stock_candles world Frame get_candles' ticker interval start_date end_date
    board w = (Ok candles, w') ->
  In interval interval_names.
Proof.
  unfold get_stock_candles, smem, dict_mem.
  change (dict_get String.eqb interval_map interval) with (sget interval_map interval).
  destruct (sget interval_map interval) as [code |] eqn:E; simpl.
  - intros _. apply (sget_in_keys interval_map interval code E).
  - discriminate.
Qed.

Lemma collect_candles_spec (ticker : string) (intervals : list string)
    (start_date end_date : option date_value) (board : string) :
  forall res out w,
    (forall e out' w',
        collect_candles world Frame get_candles' ticker intervals start_date
          end_date board res out w = (Raise e, out', w') ->
        is_ValueError e = false /\ is_MoexApiError e = false) /\
    (forall res' out' w' name,
        collect_candles world Frame get_candles' ticker intervals start_date
          end_date board res out w = (Ok res', out', w') ->
        smem res' name = true ->
        smem res name = true \/ (In name intervals /\ In name interval_names)).
Proof.
  induction intervals as [| interval rest IH]; intros res out w; simpl.
  - split; [discriminate |]. intros res' out' w' name H Hm.
    inversion H; subst. left. exact Hm.
  - destruct (get_stock_candles world Frame get_candles' ticker interval
                start_date end_date board w) as [[candles | e] w1] eqn:E.
    + destruct (IH (sset res interval candles) out w1) as [Hraise Hkeys].
      split; [exact Hraise |]. intros res' out' w' name H Hm.
      destruct (Hkeys res' out' w' name H Hm) as [Hin | [Hin Hknown]].
      * rewrite smem_sset in Hin. apply orb_prop in Hin.
        destruct Hin as [Heq | Hin]; [| left; exact Hin].
        apply String.eqb_eq in Heq. subst name. right.
        split; [left; reflexivity | apply (get_stock_candles_ok_known _ _ _ _ _ _ _ _ E)].
      * right. split; [right; exact Hin | exact Hknown].
    + destruct (is_ValueError e) eqn:Ev.
      * destruct (IH res (out ++ [("Error with interval '" ++ interval ++ "': "
                                   ++ exn_str e)%string]) w1) as [Hraise Hkeys].
        split; [exact Hraise |]. intros res' out' w' name H Hm.
        destruct (Hkeys res' out' w' name H Hm) as [Hin | [Hin Hknown]];
          [left; exact Hin | right; split; [right; exact Hin | exact Hknown]].
      * destruct (is_MoexApiError e) eqn:Ea.
        -- destruct (IH res (out ++ [("API error for interval '" ++ interval ++ "': "
                                      ++ exn_str e)%string]) w1) as [Hraise Hkeys].
           split; [exact Hraise |]. intros res' out' w' name H Hm.
           destruct (Hkeys res' out' w' name H Hm) as [Hin | [Hin Hknown]];
             [left; exact Hin | right; split; [right; exact Hin | exact Hknown]].
        -- split; [| discriminate]. intros e' out' w' H. inversion H; subst.
           split; assumption.
Qed.

(** X23. [get_multi_timeframe_candles] lets neither a [ValueError] nor a
    [MoexApiError] reach its caller. *)
Theorem get_multi_timeframe_candles_catches (ticker : string)
    (intervals : list string) (start_date end_date : option date_value)
    (board : string) (w w' : world) (e : exn) (out : list string) :
  get_multi_timeframe_candles world Frame get_candles' ticker intervals
    start_date end_date board w = (Raise e, out, w') ->
  is_ValueError e = false /\ is_MoexApiError e = false.
Proof.
  unfold get_multi_timeframe_candles.
  destruct (collect_candles_spec ticker intervals start_date end_date board [] [] w)
    as [Hraise _].
  apply Hraise.
Qed.

(** X24. Every key of the mapping [get_multi_timeframe_candles] returns is
    one of the intervals asked for and one of the eight names of the
    vocabulary. *)
Theorem get_multi_timeframe_candles_keys (ticker : string)
    (intervals : list string) (start_date end_date : option date_value)
    (board : string) (w w' : world) (res : list (string * Frame))
    (out : list string) (name : string) :
  get_multi_timeframe_candles world Frame get_candles' ticker intervals
    start_date end_date board w = (Ok res, out, w') ->
  smem res name = true ->
  In name intervals /\ In name interval_names.
Proof.
  unfold get_multi_timeframe_candles. intros H Hm.
  destruct (collect_candles_spec ticker intervals start_date end_date board [] [] w)
    as [_ Hkeys].
  destruct (Hkeys res out w' name H Hm) as [Hin | Hin]; [discriminate | exact Hin].
Qed.

Lemma collect_candles_unknown (ticker : string) (intervals : list string)
    (start_date end_date : option date_value) (board : string) :
  Forall (fun interval => ~ In interval interval_names) intervals ->
  forall res out w,
    collect_candles world Frame get_candles' ticker intervals start_date end_date
      board res out w =
    (Ok res,
     out ++ map (fun interval =>
                   ("Error with interval '" ++ interval ++ "': "
                    ++ invalid_interval_message interval)%string) intervals,
     w).
Proof.
  induction 1 as [| interval rest Hunknown _ IH]; intros res out w; simpl.
  - rewrite app_nil_r. reflexivity.
  - unfold get_stock_candles at 1.
    rewrite (interval_map_unknown interval Hunknown). simpl.
    rewrite IH, <- app_assoc. reflexivity.
Qed.

(** X25. When none of the intervals is a name of the vocabulary,
    [get_multi_timeframe_candles] returns the empty mapping, prints one line
    for each interval and asks the client for nothing. *)
Theorem get_multi_timeframe_candles_all_unknown (ticker : string)
    (intervals : list string) (start_date end_date : option date_value)
    (board : string) (w : world) :
  Forall (fun interval => ~ In interval interval_names) intervals ->
  get_multi_timeframe_candles world Frame get_candles' ticker intervals
    start_date end_date board w =
  (Ok [],
   map (fun interval =>
          ("Error with interval '" ++ interval ++ "': "
           ++ invalid_interval_message interval)%string) intervals,
   w).
Proof.
  intros H. unfold get_multi_timeframe_candles.
  apply (collect_candles_unknown ticker intervals start_date end_date board H [] [] w).
Qed.
End MultiTimeframeFacts.

(** ** The further properties at sample inputs *)

Lemma format_date_only_value_errors_witness :
  is_ValueError (ValueErrorFrom "Invalid date format: 2024-070"
                   (ValueError "Could not parse date: 2024-070")) = true.
Proof.
  apply (format_date_only_value_errors (DStr "2024-070")). reflexivity.
Defined.

Lemma format_date_idempotent_witness :
  format_date (DStr "2024-03-10") = Ok "2024-03-10"%string.
Proof.
  apply (format_date_idempotent (DStr "10.03.2024")); [exact I | reflexivity | reflexivity].
Defined.

Lemma validate_date_range_accepts_witness :
  exists ds de,
    valid_date ds /\ valid_date de /\
    (1000 <= year ds)%Z /\ (1000 <= year de)%Z /\
    "2024-01-01"%string = render Fmt_Y_m_d_dash ds /\
    "2024-03-10"%string = render Fmt_Y_m_d_dash de /\
    date_gtb ds de = false /\
    (forall max_days, Some 90%Z = Some max_days ->
                      (toordinal de - toordinal ds <= max_days)%Z).
Proof.
  apply (validate_date_range_accepts (mkdate 2024 6 1) (DStr "01.01.2024")
           (Some (DStr "2024-03-10")) (Some 90%Z)).
  - exact I.
  - exact I.
  - reflexivity.
Defined.

Lemma validate_date_range_rejects_witness :
  validate_date_range (mkdate 2024 6 1) (Some (DStr "10.03.2024"))
    (Some (DStr "2024/01/01")) None =
  Raise (ValueError "Start date (2024-03-10) is after end date (2024-01-01)").
Proof.
  apply (validate_date_range_rejects (mkdate 2024 6 1) (DStr "10.03.2024")
           (Some (DStr "2024/01/01")) None (mkdate 2024 3 10) (mkdate 2024 1 1));
    reflexivity.
Defined.

Lemma validate_date_range_only_value_errors_witness :
  is_ValueError
    (ValueError "Start date (2024-03-10) is after end date (2024-01-01)") = true.
Proof.
  apply (validate_date_range_only_value_errors (mkdate 2024 6 1)
           (Some (DStr "2024-03-10")) (Some (DStr "2024-01-01")) None).
  reflexivity.
Defined.

Lemma build_query_params_entries_witness :
  sget (build_query_params no_container sample_params) "columns" =
  Some "OPEN,CLOSE"%string /\
  sget (build_query_params no_container sample_params) "from" = None /\
  sget (build_query_params no_container sample_params) "reversed" = Some "1"%string.
Proof.
  assert (Hnd : NoDup (map fst sample_params)).
  { simpl. repeat constructor; simpl; intuition discriminate. }
  split; [| split].
  - apply (build_query_params_entries no_container sample_params "columns"
             (JList [JStr "OPEN"; JStr "CLOSE"]) Hnd).
    simpl. tauto.
  - apply (build_query_params_entries no_container sample_params "from" JNull Hnd).
    simpl. tauto.
  - apply (build_query_params_entries no_container sample_params "reversed"
             (JBool true) Hnd).
    simpl. tauto.
Defined.

Lemma enforce_rate_limit_sleeps_positive_witness :
  enforce_rate_limit (list Q) unit Qminus tenth sleep_log (init tt None None None) [] =
  [Qminus (Qmake 1 5) (Qminus (Qmake 1 10) (Qmake 0 1))] /\
  Qlt (Qmake 0 1) (Qminus (Qmake 1 5) (Qminus (Qmake 1 10) (Qmake 0 1))).
Proof.
  destruct (enforce_rate_limit_sleeps_positive (list Q) unit Qminus tenth sleep_log
              (fun _ => True) (init tt None None None) []
              (fun _ _ _ _ => I) (fun a b _ _ => Qminus_positive a b) I I I)
    as [_ H].
  apply H; [discriminate | reflexivity].
Defined.




Lemma get_candles_rejects_bad_range_witness :
  get_candles unit unit Qminus (fun _ => Qmake 0 1) (fun _ w => w)
    (answering http_date_response) (answering http_date_response)
    no_url no_query no_document no_text frame_of_rows reversing reversing reversing
    first_of_june (init tt None None None) "SBER" "stock" "shares" 24%Z
    (Some (DStr "2024-03-10")) (Some (DStr "2024-01-01")) (Some "TQBR"%string) None tt =
  (Raise (ValueError "Start date (2024-03-10) is after end date (2024-01-01)"),
   init tt None None None, tt).
Proof.
  apply (get_candles_rejects_bad_range unit unit Qminus (fun _ => Qmake 0 1) (fun _ w => w)
           (answering http_date_response) (answering http_date_response)
           no_url no_query no_document no_text frame_of_rows reversing reversing
           reversing first_of_june (init tt None None None) "SBER" "stock" "shares"
           24%Z (DStr "2024-03-10") (DStr "2024-01-01") (Some "TQBR"%string) None tt
           (mkdate 2024 3 10) (mkdate 2024 1 1)); reflexivity.
Defined.

Lemma get_candles_end_date_only_witness :
  get_candles unit unit Qminus (fun _ => Qmake 0 1) (fun _ w => w)
    (answering http_date_response) (answering http_date_response)
    no_url no_query no_document no_text frame_of_rows reversing reversing reversing
    first_of_june (init tt None None None) "SBER" "stock" "shares" 24%Z
    None (Some (DStr "10.03.2024")) (Some "TQBR"%string) None tt =
  get_dataframe unit unit Qminus (fun _ => Qmake 0 1) (fun _ w => w)
    (answering http_date_response) (answering http_date_response)
    no_url no_query no_document no_text frame_of_rows reversing reversing reversing
    (init tt None None None) candles_board_endpoint
    (Some [("interval", JNum 24); ("from", JStr "2024-03-10");
           ("till", JStr "2024-03-10")]%string)
    (Some [("engine", "stock"); ("market", "shares"); ("board", "TQBR");
           ("security", "SBER")]%string)
    "GET" None (Some "candles"%string) true tt.
Proof.
  apply (get_candles_end_date_only unit unit Qminus (fun _ => Qmake 0 1) (fun _ w => w)
           (answering http_date_response) (answering http_date_response)
           no_url no_query no_document no_text frame_of_rows reversing reversing
           reversing first_of_june (init tt None None None) "SBER" "stock" "shares"
           24%Z (DStr "10.03.2024") "T"%char "QBR"%string None tt "2024-03-10"%string).
  reflexivity.
Defined.

Lemma get_multi_timeframe_candles_catches_witness :
  is_ValueError (KeyError "candles") = false /\
  is_MoexApiError (KeyError "candles") = false.
Proof.
  apply (get_multi_timeframe_candles_catches unit Z broken_candles "SBER"
           ["biweekly"; "day"; "week"]%string None None "TQBR" tt tt
           (KeyError "candles")
           ["Error with interval 'biweekly': Invalid interval: 'biweekly'. Valid intervals are: min, 1min, 10min, hour, day, week, month, quarter"%string]).
  reflexivity.
Defined.

Lemma get_multi_timeframe_candles_keys_witness :
  In "week"%string ["week"; "biweekly"]%string /\ In "week"%string interval_names.
Proof.
  apply (get_multi_timeframe_candles_keys unit Z echo_candles "SBER"
           ["week"; "biweekly"]%string None None "TQBR" tt tt
           [("week"%string, 7%Z)]
           ["Error with interval 'biweekly': Invalid interval: 'biweekly'. Valid intervals are: min, 1min, 10min, hour, day, week, month, quarter"%string]
           "week").
  - reflexivity.
  - reflexivity.
Defined.

Lemma get_multi_timeframe_candles_all_unknown_witness :
  get_multi_timeframe_candles unit Z echo_candles "SBER" ["biweekly"]%string
    None None "TQBR" tt =
  (Ok [],
   ["Error with interval 'biweekly': Invalid interval: 'biweekly'. Valid intervals are: min, 1min, 10min, hour, day, week, month, quarter"%string],
   tt).
Proof.
  apply (get_multi_timeframe_candles_all_unknown unit Z echo_candles "SBER"
           ["biweekly"]%string None None "TQBR" tt).
  repeat constructor. simpl. intuition discriminate.
Defined.
